(** * Podcast-Generator: a shallow embedding of [server/podcast_generator.py]

    The development follows the pipeline of the module: configuration
    loading, speaker resolution, script extraction, per-utterance
    synthesis with retry, the thread-pool orchestrator, silence trimming,
    the ffmpeg file list and the final merge with its cleanup.

    Conventions.
    - A Python [str] is the [string] of its UTF-8 encoding, and a literal
      with characters outside ASCII stands for their bytes. A search for a
      text finds the same occurrences in the encoding as in the text, and
      a position is only used to cut the text where a search found it, so
      positions are offsets in the encoding. [len] and [strip] go by
      characters: [PyStr.len] counts them, and [PyStr.strip] removes the
      white space of Unicode.
    - A Python exception is a value of [exn]; code that can raise returns a
      [result].
    - External collaborators (the LLM client, the TTS adapters, ffmpeg,
      ffprobe, the JSON decoder of the standard library, uuid and the
      clock) are oracles: parameters of the functions that call them.
    - Python floats are binary64 numbers: [float] of the standard library. *)

From Stdlib Require Import ZArith List Ascii String Floats Uint63.
From stdpp Require Import base list strings gmap sorting pretty.

Set Warnings "-inexact-float,-register-all".
Local Open Scope string_scope.

(** ** Exceptions and results *)

Inductive exn_class :=
  | ValueError | RuntimeError | TypeError | AttributeError | KeyError
  | OSError | FileNotFoundError | CalledProcessError | JSONDecodeError
  | OtherError.

Record exn := Exn { exn_kind : exn_class; exn_msg : string }.

Inductive result (A : Type) :=
  | Ok (a : A)
  | Raise (e : exn).
Arguments Ok {A} a.
Arguments Raise {A} e.

Definition is_ok {A} (r : result A) : bool :=
  match r with Ok _ => true | Raise _ => false end.

Global Instance exn_class_eq_dec : EqDecision exn_class.
Proof. solve_decision. Defined.

(** [except RuntimeError] catches exactly the exceptions of that class. *)
Definition is_RuntimeError (e : exn) : bool :=
  bool_decide (exn_kind e = RuntimeError).

(** ** Python string operations used by the module *)

Module PyStr.

(** The white space of [str.isspace]. Of one byte: the characters 9 to
    13 and 28 to 32. *)
Definition is_space (c : ascii) : bool :=
  let n := nat_of_ascii c in
  ((9 <=? n)%nat && (n <=? 13)%nat) || ((28 <=? n)%nat && (n <=? 32)%nat).

(** Of two bytes: U+0085 and U+00A0. *)
Definition two_byte_space (c1 c2 : ascii) : bool :=
  let n1 := nat_of_ascii c1 in
  let n2 := nat_of_ascii c2 in
  (n1 =? 194)%nat && ((n2 =? 133)%nat || (n2 =? 160)%nat).

(** Of three bytes: U+1680, U+2000 to U+200A, U+2028, U+2029, U+202F,
    U+205F and U+3000. *)
Definition three_byte_space (c1 c2 c3 : ascii) : bool :=
  let n1 := nat_of_ascii c1 in
  let n2 := nat_of_ascii c2 in
  let n3 := nat_of_ascii c3 in
  ((n1 =? 225)%nat && (n2 =? 154)%nat && (n3 =? 128)%nat)
  || ((n1 =? 226)%nat && (n2 =? 128)%nat
      && (((128 <=? n3)%nat && (n3 <=? 138)%nat)
          || (n3 =? 168)%nat || (n3 =? 169)%nat || (n3 =? 175)%nat))
  || ((n1 =? 226)%nat && (n2 =? 129)%nat && (n3 =? 159)%nat)
  || ((n1 =? 227)%nat && (n2 =? 128)%nat && (n3 =? 128)%nat).

(** [s.lstrip()] *)
Fixpoint lstrip (s : string) : string :=
  match s with
  | String c1 s1 =>
      if is_space c1 then lstrip s1
      else
        match s1 with
        | String c2 s2 =>
            if two_byte_space c1 c2 then lstrip s2
            else
              match s2 with
              | String c3 s3 =>
                  if three_byte_space c1 c2 c3 then lstrip s3 else s
              | EmptyString => s
              end
        | EmptyString => s
        end
  | EmptyString => EmptyString
  end.

(** [s.rstrip()], on the bytes of [s] from the last to the first. *)
Fixpoint rstrip_rev (r : string) : string :=
  match r with
  | String c1 r1 =>
      if is_space c1 then rstrip_rev r1
      else
        match r1 with
        | String c2 r2 =>
            if two_byte_space c2 c1 then rstrip_rev r2
            else
              match r2 with
              | String c3 r3 =>
                  if three_byte_space c3 c2 c1 then rstrip_rev r3 else r
              | EmptyString => r
              end
        | EmptyString => r
        end
  | EmptyString => EmptyString
  end.

Definition rstrip (s : string) : string :=
  String.rev (rstrip_rev (String.rev s)).

(** [s.strip()] *)
Definition strip (s : string) : string := rstrip (lstrip s).

(** [len(s)]: the number of the characters of [s], the bytes that do not
    continue a character. *)
Definition is_continuation (c : ascii) : bool :=
  let n := nat_of_ascii c in (128 <=? n)%nat && (n <=? 191)%nat.

Fixpoint len (s : string) : nat :=
  match s with
  | String c s' => ((if is_continuation c then 0 else 1) + len s')%nat
  | EmptyString => 0%nat
  end.

Fixpoint lstrip_by (p : ascii -> bool) (s : string) : string :=
  match s with
  | String c s' => if p c then lstrip_by p s' else s
  | EmptyString => EmptyString
  end.

Definition rstrip_by (p : ascii -> bool) (s : string) : string :=
  String.rev (lstrip_by p (String.rev s)).

Definition strip_by (p : ascii -> bool) (s : string) : string :=
  rstrip_by p (lstrip_by p s).

Fixpoint mem_char (c : ascii) (cs : string) : bool :=
  match cs with
  | String d cs' => if Ascii.eqb c d then true else mem_char c cs'
  | EmptyString => false
  end.

(** [s.strip(chars)] *)
Definition strip_chars (chars s : string) : string :=
  strip_by (fun c => mem_char c chars) s.

(** [s.startswith(p)] *)
Definition startswith (p s : string) : bool := String.prefix p s.

(** [s[n:]] for [0 <= n] *)
Fixpoint drop (n : nat) (s : string) : string :=
  match n, s with
  | S n', String _ s' => drop n' s'
  | _, _ => s
  end.

(** [s[:n]] for [0 <= n] *)
Fixpoint take (n : nat) (s : string) : string :=
  match n, s with
  | S n', String c s' => String c (take n' s')
  | _, _ => EmptyString
  end.

(** [s.find(c)]: the offset of the first [c], [None] for Python's -1. *)
Fixpoint find_char (c : ascii) (s : string) : option nat :=
  match s with
  | String d s' => if Ascii.eqb c d then Some 0%nat else S <$> find_char c s'
  | EmptyString => None
  end.

(** [s.find(c, start)] *)
Definition find_from (c : ascii) (s : string) (start : nat) : option nat :=
  (fun k => (start + k)%nat) <$> find_char c (drop start s).

(** [sep.join(l)] *)
Fixpoint join (sep : string) (l : list string) : string :=
  match l with
  | [] => ""
  | [x] => x
  | x :: l' => x +:+ sep +:+ join sep l'
  end.

(** [needle in s] for strings *)
Fixpoint contains (needle s : string) : bool :=
  String.prefix needle s ||
  match s with
  | String _ s' => contains needle s'
  | EmptyString => false
  end.

(** [os.path.basename(p)]: what follows the last slash. *)
Fixpoint basename_aux (acc s : string) : string :=
  match s with
  | String c s' =>
      if Ascii.eqb c "/" then basename_aux s' s' else basename_aux acc s'
  | EmptyString => acc
  end.
Definition basename (p : string) : string := basename_aux p p.

(** [os.path.splitext(p)[0]]: [p] without its extension, the part from the
    last dot on unless only dots come before it. *)
Fixpoint splitext_aux (only_dots : bool) (s : string) : option string :=
  match s with
  | String c s' =>
      let dot := Ascii.eqb c "." in
      match splitext_aux (only_dots && dot) s' with
      | Some r => Some (String c r)
      | None => if dot && negb only_dots then Some "" else None
      end
  | EmptyString => None
  end.
Definition splitext_root (p : string) : string :=
  default p (splitext_aux true p).

(** [os.path.join(d, f)] for a directory [d] without a trailing slash. *)
Definition path_join (d f : string) : string :=
  if startswith "/" f then f
  else if String.eqb d "" then f
  else d +:+ "/" +:+ f.

(** [s.find(sub)]: the offset of the first occurrence of [sub]. *)
Fixpoint find_sub (sub s : string) : option nat :=
  if String.prefix sub s then Some 0%nat
  else
    match s with
    | String _ s' => S <$> find_sub sub s'
    | EmptyString => None
    end.

(** [s.find(sub, start)] *)
Definition find_sub_from (sub s : string) (start : nat) : option nat :=
  (fun k => (start + k)%nat) <$> find_sub sub (drop start s).

(** [s.replace(old, new)] for a non-empty [old]: the occurrences of [old]
    from left to right, without overlap. The recursion is on [fuel], at
    least the length of [s]. *)
Fixpoint replace_aux (fuel : nat) (old new s : string) : string :=
  match fuel with
  | O => s
  | S fuel' =>
      if String.prefix old s
      then new +:+ replace_aux fuel' old new (drop (String.length old) s)
      else
        match s with
        | String c s' => String c (replace_aux fuel' old new s')
        | EmptyString => EmptyString
        end
  end.
Definition replace (old new s : string) : string :=
  if String.eqb old "" then s else replace_aux (String.length s) old new s.

(** [s.split(",")] *)
Fixpoint split_commas_aux (cur : string) (s : string) : list string :=
  match s with
  | String c s' =>
      if Ascii.eqb c ","
      then String.rev cur :: split_commas_aux "" s'
      else split_commas_aux (String c cur) s'
  | EmptyString => [String.rev cur]
  end.
Definition split_commas (s : string) : list string := split_commas_aux "" s.

(** Iterating over an open text file: the lines, each with its newline. *)
Fixpoint lines_aux (cur : string) (s : string) : list string :=
  match s with
  | String c s' =>
      if Ascii.eqb c "010"
      then String.rev (String c cur) :: lines_aux "" s'
      else lines_aux (String c cur) s'
  | EmptyString => if String.eqb cur "" then [] else [String.rev cur]
  end.
Definition lines (s : string) : list string := lines_aux "" s.

End PyStr.

(** A value that Python tests for truth: a missing key and [None] are
    [None], and an empty string is false as well. *)
Definition truthy (o : option string) : bool :=
  match o with
  | Some s => negb (String.eqb s "")
  | None => false
  end.

(** ** Configuration data *)

(** An entry of [podUsers]. *)
Record pod_user := PodUser {
  pu_code : option string;
  pu_owner : option string;
  pu_role : option string
}.

(** An entry of [voices]. *)
Record voice := Voice {
  v_code : option string;
  v_usedname : option string;
  v_alias : option string;
  v_name : option string;
  v_volume_adjustment : option float;
  v_speed_adjustment : option float
}.

(** The keys of the configuration object that the pipeline reads. *)
Record config := Config {
  cfg_podUsers : option (list pod_user);
  cfg_voices : option (list voice);
  cfg_turnPattern : option string;
  cfg_tts_max_retries : option Z;
  cfg_tts_provider : option string;
  cfg_api_key : option string;
  cfg_base_url : option string;
  cfg_model : option string
}.

(** [config_data["tts_provider"] = p] *)
Definition set_tts_provider (p : string) (c : config) : config :=
  {| cfg_podUsers := cfg_podUsers c;
     cfg_voices := cfg_voices c;
     cfg_turnPattern := cfg_turnPattern c;
     cfg_tts_max_retries := cfg_tts_max_retries c;
     cfg_tts_provider := Some p;
     cfg_api_key := cfg_api_key c;
     cfg_base_url := cfg_base_url c;
     cfg_model := cfg_model c |}.

(** [config_data["podUsers"] = l] *)
Definition set_podUsers (l : list pod_user) (c : config) : config :=
  {| cfg_podUsers := Some l;
     cfg_voices := cfg_voices c;
     cfg_turnPattern := cfg_turnPattern c;
     cfg_tts_max_retries := cfg_tts_max_retries c;
     cfg_tts_provider := cfg_tts_provider c;
     cfg_api_key := cfg_api_key c;
     cfg_base_url := cfg_base_url c;
     cfg_model := cfg_model c |}.

(** ** Configuration loading: [_load_configuration_path] *)

Module Configuration.

(** [user.get("owner") for user in pod_users if user.get("owner")] *)
Definition named_owners (pod_users : list pod_user) : list string :=
  omap (fun u => if truthy (pu_owner u) then pu_owner u else None) pod_users.

(** [list(set(...))]: the distinct owners, in the order the set yields
    them. *)
Definition owners (pod_users : list pod_user) : list string :=
  elements (list_to_set (named_owners pod_users) : gset string).

Section Load.
(** [_load_json_config]: reading and decoding the file. *)
Variable _load_json_config : string -> result config.

Definition _load_configuration_path
    (config_path : string) (pod_users : option (list pod_user))
    : result config :=
  match _load_json_config config_path with
  | Raise e => Raise e
  | Ok config_data =>
      let file_name := PyStr.basename config_path in
      let default_tts_provider := PyStr.splitext_root file_name in
      let pod_users :=
        match pod_users with
        | Some l => l
        | None => default [] (cfg_podUsers config_data)
        end in
      let owners :=
        match pod_users with
        | [] => []
        | _ => owners pod_users
        end in
      let tts_provider :=
        match owners with
        | [] => "edge-tts"
        | _ => PyStr.join "," owners
        end in
      Ok (set_tts_provider tts_provider config_data)
  end.
End Load.

End Configuration.


(** ** The world: files, and the log of external calls *)

(** What the adapter of a provider is asked for;
    [output_dir] is the module's global. *)
Record tts_request := TtsRequest {
  rq_text : string;
  rq_voice_code : string;
  rq_volume_adjustment : float;
  rq_speed_adjustment : float
}.

Inductive event :=
  | EvChat                                       (* a chat-completion request *)
  | EvSleep (seconds : Z)                        (* time.sleep *)
  | EvSynthesize (provider : string) (rq : tts_request) (* adapter.generate_audio *)
  | EvRun (argv : list string)                   (* subprocess.run *)
  | EvCancel (index : nat).                      (* a future cancelled *)

Record world := World {
  w_files : gmap string string;   (* path -> content *)
  w_log : list event              (* oldest first *)
}.

Definition M (A : Type) : Type := world -> result A * world.

Definition ret {A} (a : A) : M A := fun w => (Ok a, w).
Definition raise {A} (e : exn) : M A := fun w => (Raise e, w).
Definition bind {A B} (m : M A) (k : A -> M B) : M B :=
  fun w =>
    match m w with
    | (Ok a, w') => k a w'
    | (Raise e, w') => (Raise e, w')
    end.

Notation "'do' x <- c1 ;; c2" := (bind c1 (fun x => c2))
  (at level 10, x name, c1 at level 99, c2 at level 200,
   format "'[v' 'do'  x  <-  c1  ;; '/' c2 ']'").
Notation "'do' '_' <- c1 ;; c2" := (bind c1 (fun _ => c2))
  (at level 10, c1 at level 99, c2 at level 200,
   format "'[v' 'do'  '_'  <-  c1  ;; '/' c2 ']'").

(** [try: m except Exception as e: h e] *)
Definition try_except {A} (m : M A) (h : exn -> M A) : M A :=
  fun w =>
    match m w with
    | (Ok a, w') => (Ok a, w')
    | (Raise e, w') => h e w'
    end.

(** [try: m finally: c]: [c] runs on both exits; an exception of [c]
    replaces the outcome of [m]. *)
Definition try_finally {A} (m : M A) (c : M unit) : M A :=
  fun w =>
    match m w with
    | (r, w') =>
        match c w' with
        | (Ok _, w'') => (r, w'')
        | (Raise e, w'') => (Raise e, w'')
        end
    end.

Definition emit (e : event) : M unit :=
  fun w => (Ok tt, {| w_files := w_files w; w_log := w_log w ++ [e] |}).

Definition path_exists (p : string) : M bool :=
  fun w => (Ok (bool_decide (is_Some (w_files w !! p))), w).

(** [os.remove(p)]; a missing file is an [OSError]. Directories are not
    part of the model. *)
Definition os_remove (p : string) : M unit :=
  fun w =>
    match w_files w !! p with
    | Some _ => (Ok tt, {| w_files := delete p (w_files w); w_log := w_log w |})
    | None => (Raise (Exn FileNotFoundError p), w)
    end.

Definition write_file (p content : string) : M unit :=
  fun w => (Ok tt, {| w_files := <[p := content]> (w_files w); w_log := w_log w |}).

Definition read_file (p : string) : M string :=
  fun w =>
    match w_files w !! p with
    | Some c => (Ok c, w)
    | None => (Raise (Exn FileNotFoundError p), w)
    end.

Definition time_sleep (seconds : Z) : M unit := emit (EvSleep seconds).

(** *** External processes *)

(** What running a command gives: the program is missing, or it exits;
    [written] is the content it left in its output file, the last argument,
    if it wrote one. *)
Inductive proc_outcome :=
  | NotInstalled
  | Exited (returncode : Z) (stdout stderr : string) (written : option string).

(** The three ways [subprocess.run] ends: a completed process (always with
    [check=False], with exit status 0 otherwise), [CalledProcessError], and
    [FileNotFoundError] for a missing program. *)
Inductive run_result :=
  | Completed (stdout stderr : string)
  | Failed (returncode : Z) (stderr : string)
  | Missing.

Definition module_output_dir : string := "output".

Definition subprocess_run (tool : list string -> proc_outcome)
    (argv : list string) (cwd : string) (check : bool) : M run_result :=
  do _ <- emit (EvRun argv) ;;
  match tool argv with
  | NotInstalled => ret Missing
  | Exited rc out err written =>
      do _ <- match written with
              | Some c => write_file (PyStr.path_join cwd (List.last argv "")) c
              | None => ret tt
              end ;;
      if check && negb (rc =? 0)%Z then ret (Failed rc err)
      else ret (Completed out err)
  end.


(** ** Speaker resolution: [generate_speaker_id_text] *)

Module Speakers.

(** [{voice.get("code"): voice for voice in voices_list if voice.get("code")}]:
    a later voice with the same code replaces an earlier one. *)
Definition voice_map (voices_list : list voice) : gmap string voice :=
  foldl (fun m v =>
           match v_code v with
           | Some c => if truthy (Some c) then <[c := v]> m else m
           | None => m
           end) ∅ voices_list.

(** [voice_map.get(code)], where [code] may be [None]. *)
Definition voice_map_get (m : gmap string voice) (code : option string)
    : option voice :=
  match code with
  | Some c => m !! c
  | None => None
  end.

(** [a or b]: the first operand when it is true, the second otherwise. *)
Definition py_or (a b : option string) : option string :=
  if truthy a then a else b.

(** [voice.get("usedname") or voice.get("alias") or voice.get("name")] *)
Definition display_name (v : voice) : option string :=
  py_or (py_or (v_usedname v) (v_alias v)) (v_name v).

(** The text shown for a value that may be [None]. *)
Definition str_opt (o : option string) : string := default "None" o.

Definition missing_name_error (code : option string) (speaker_id : nat) : exn :=
  Exn ValueError
    ("语音code '" +:+ str_opt code +:+ "' (speaker_id=" +:+ pretty speaker_id
     +:+ ") 未找到对应名称或alias。请检查 config/edge-tts.json 中的 voices 配置。").

(** The clause of one speaker, or the [ValueError] that ends resolution. *)
Definition speaker_clause (vm : gmap string voice) (speaker_id : nat)
    (pu : pod_user) : result string :=
  let pod_user_code := pu_code pu in
  let role := default "" (pu_role pu) in
  let found_name :=
    match voice_map_get vm pod_user_code with
    | Some voice => display_name voice
    | None => None
    end in
  if truthy found_name then
    if negb (String.eqb role "") then
      Ok ("speaker_id=" +:+ pretty speaker_id +:+ "的名叫" +:+ str_opt found_name
          +:+ "，是一个" +:+ role)
    else
      Ok ("speaker_id=" +:+ pretty speaker_id +:+ "的名叫" +:+ str_opt found_name)
  else Raise (missing_name_error pod_user_code speaker_id).

(** The loop over [enumerate(pod_users)], from position [speaker_id] on. *)
Fixpoint speaker_info (vm : gmap string voice) (speaker_id : nat)
    (pod_users : list pod_user) : result (list string) :=
  match pod_users with
  | [] => Ok []
  | pu :: rest =>
      match speaker_clause vm speaker_id pu with
      | Raise e => Raise e
      | Ok clause =>
          match speaker_info vm (S speaker_id) rest with
          | Raise e => Raise e
          | Ok clauses => Ok (clause :: clauses)
          end
      end
  end.

Definition generate_speaker_id_text (pod_users : list pod_user)
    (voices_list : list voice) : result string :=
  match speaker_info (voice_map voices_list) 0 pod_users with
  | Raise e => Raise e
  | Ok info => Ok (PyStr.join "。" info +:+ "。")
  end.

(** A roster entry resolves: its code names a catalogue voice that has a
    non-empty display name. *)
Definition resolves (voices_list : list voice) (pu : pod_user) : bool :=
  match voice_map_get (voice_map voices_list) (pu_code pu) with
  | Some voice => truthy (display_name voice)
  | None => false
  end.

End Speakers.

(** ** One synthesis task: [generate_audio_for_item] *)

(** An entry of [podcast_transcripts] that has passed the quality gate:
    its dialog is a string; its speaker id is an integer, or [None] when
    the entry has no integer there. The texts of the two errors of a task
    without an integer are those for a speaker id that is [None]. *)
Record transcript := Transcript {
  speaker_id : option Z;
  dialog : string
}.

(** An adapter of [tts_adapters]: [a rq k] is what its [generate_audio]
    gives on the [k]-th call (from 0) that a task makes with request [rq]:
    the path of the new audio file, or an exception. *)
Definition adapter := tts_request -> nat -> result string.

Module Synthesis.

Section Item.
(** [re.sub] with the allow-list pattern of the module: the dialog without
    the characters outside word characters, white space, the listed
    punctuation and the CJK ideographs. *)
Variable sanitize : string -> string.

Definition max_retries_error (max_retries speaker_id : Z) (voice_code : string)
    : exn :=
  Exn RuntimeError
    ("Max retries (" +:+ pretty max_retries +:+ ") reached for speaker "
     +:+ pretty speaker_id +:+ " (" +:+ voice_code
     +:+ "). Audio generation failed.").

Definition unexpected_error (speaker_id : Z) (voice_code : string)
    (attempt : nat) (e : exn) : exn :=
  Exn RuntimeError
    ("An unexpected error occurred for speaker " +:+ pretty speaker_id
     +:+ " (" +:+ voice_code +:+ ") on attempt " +:+ pretty (S attempt)
     +:+ ": " +:+ exn_msg e).

(** [for attempt in range(max_retries)], over the attempts still to make.
    Falling off the end of the loop returns [None]. *)
Fixpoint attempt_loop (provider : string) (selected_adapter : adapter)
    (rq : tts_request) (speaker_id max_retries : Z) (attempts : list nat)
    : M (option string) :=
  match attempts with
  | [] => ret None
  | attempt :: rest =>
      do _ <- emit (EvSynthesize provider rq) ;;
      match selected_adapter rq attempt with
      | Ok temp_audio_file => ret (Some temp_audio_file)
      | Raise e =>
          if is_RuntimeError e then
            if (Z.of_nat attempt <? max_retries - 1)%Z then
              let wait_time := (2 ^ Z.of_nat attempt)%Z in
              do _ <- time_sleep wait_time ;;
              attempt_loop provider selected_adapter rq speaker_id
                max_retries rest
            else
              raise (max_retries_error max_retries speaker_id
                       (rq_voice_code rq))
          else
            raise (unexpected_error speaker_id (rq_voice_code rq) attempt e)
      end
  end.

(** [range(n)] for an integer [n]. *)
Definition py_range (n : Z) : list nat := seq 0 (Z.to_nat n).

(** The roster entry of a speaker: [config_data["podUsers"][speaker_id]]
    under the guard [0 <= speaker_id < len(config_data["podUsers"])]. *)
Definition pod_user_entry (config_data : config) (speaker_id : Z)
    : option pod_user :=
  match cfg_podUsers config_data with
  | Some pod_users =>
      if (0 <=? speaker_id)%Z && (speaker_id <? Z.of_nat (length pod_users))%Z
      then pod_users !! Z.to_nat speaker_id
      else None
  | None => None
  end.

Definition speaker_id_type_error : exn :=
  Exn TypeError "'<=' not supported between instances of 'int' and 'NoneType'".

Definition no_voice_code_error (speaker_id : Z) : exn :=
  Exn ValueError
    ("No voice code found for speaker_id " +:+ pretty speaker_id
     +:+ ". Cannot generate audio for this dialog.").

(** The task for a speaker id that is an integer. *)
Definition generate_audio_for_speaker (speaker_id : Z) (dialog : string)
    (config_data : config) (tts_adapter : gmap string adapter)
    (max_retries : Z) : M (option string) :=
  let entry := pod_user_entry config_data speaker_id in
  let voice_code := entry ≫= pu_code in
  let voice_tts_provider := entry ≫= pu_owner in
  let voice :=
    Speakers.voice_map_get
      (Speakers.voice_map (default [] (cfg_voices config_data))) voice_code in
  let volume_adjustment := default 0%float (voice ≫= v_volume_adjustment) in
  let speed_adjustment := default 0%float (voice ≫= v_speed_adjustment) in
  if negb (truthy voice_code) then raise (no_voice_code_error speaker_id)
  else
    match voice_tts_provider ≫= (fun p => (fun a => (p, a)) <$> tts_adapter !! p) with
    | None =>
        (* tts_adapter[voice_tts_provider]: the KeyError carries the key *)
        raise (Exn KeyError (Speakers.str_opt voice_tts_provider))
    | Some (provider, selected_adapter) =>
        let dialog := sanitize dialog in
        let rq := {| rq_text := dialog;
                     rq_voice_code := Speakers.str_opt voice_code;
                     rq_volume_adjustment := volume_adjustment;
                     rq_speed_adjustment := speed_adjustment |} in
        attempt_loop provider selected_adapter rq speaker_id max_retries
          (py_range max_retries)
    end.

Definition generate_audio_for_item (item : transcript) (config_data : config)
    (tts_adapter : gmap string adapter) (max_retries : Z)
    : M (option string) :=
  match speaker_id item, cfg_podUsers config_data with
  | Some speaker_id, _ =>
      generate_audio_for_speaker speaker_id (dialog item) config_data
        tts_adapter max_retries
  | None, Some _ => raise speaker_id_type_error
  | None, None =>
      raise (Exn ValueError
               "No voice code found for speaker_id None. Cannot generate audio for this dialog.")
  end.
End Item.

End Synthesis.


(** ** Silence trimming: [get_audio_duration] and [trim_audio_silence] *)

Module Trim.

(** *** Reading ffmpeg's report *)

(** The line ends of more than one byte: U+0085, and U+2028 and U+2029. *)
Definition two_byte_line_end (c1 c2 : ascii) : bool :=
  (nat_of_ascii c1 =? 194)%nat && (nat_of_ascii c2 =? 133)%nat.

Definition three_byte_line_end (c1 c2 c3 : ascii) : bool :=
  (nat_of_ascii c1 =? 226)%nat && (nat_of_ascii c2 =? 128)%nat
  && ((nat_of_ascii c3 =? 168)%nat || (nat_of_ascii c3 =? 169)%nat).

(** [s.splitlines()]: the lines without their ends; a line ends at a line
    feed, a carriage return (with its line feed), a vertical tab, a form
    feed, one of the separators 28 to 30, or one of the line ends of more
    than one byte. *)
Fixpoint splitlines_aux (cur : string) (s : string) : list string :=
  match s with
  | String c s1 =>
      let n := nat_of_ascii c in
      if (n =? 13)%nat then
        match s1 with
        | String d s2 =>
            if (nat_of_ascii d =? 10)%nat
            then String.rev cur :: splitlines_aux "" s2
            else String.rev cur :: splitlines_aux "" s1
        | EmptyString => [String.rev cur]
        end
      else if ((10 <=? n)%nat && (n <=? 12)%nat) || ((28 <=? n)%nat && (n <=? 30)%nat)
      then String.rev cur :: splitlines_aux "" s1
      else
        match s1 with
        | String d s2 =>
            if two_byte_line_end c d
            then String.rev cur :: splitlines_aux "" s2
            else
              match s2 with
              | String e s3 =>
                  if three_byte_line_end c d e
                  then String.rev cur :: splitlines_aux "" s3
                  else splitlines_aux (String c cur) s1
              | EmptyString => splitlines_aux (String c cur) s1
              end
        | EmptyString => splitlines_aux (String c cur) s1
        end
  | EmptyString => if String.eqb cur "" then [] else [String.rev cur]
  end.
Definition splitlines (s : string) : list string := splitlines_aux "" s.

Definition is_digit (c : ascii) : bool :=
  let n := nat_of_ascii c in (48 <=? n)%nat && (n <=? 57)%nat.

(** The longest run of digits at the head of [s], and what follows it. *)
Fixpoint span_digits (s : string) : string * string :=
  match s with
  | String c s' =>
      if is_digit c
      then let '(d, r) := span_digits s' in (String c d, r)
      else ("", s)
  | EmptyString => ("", "")
  end.

(** The pattern [\d+\.\d+] at the head of [s]. *)
Definition match_decimal (s : string) : option string :=
  let '(whole, r) := span_digits s in
  match whole, r with
  | String _ _, String c r' =>
      if Ascii.eqb c "." then
        match span_digits r' with
        | (String f fs, _) => Some (whole +:+ "." +:+ String f fs)
        | _ => None
        end
      else None
  | _, _ => None
  end.

(** [re.search(label + r"(\d+\.\d+)", line)]: group 1 of the leftmost
    match. *)
Fixpoint re_search_decimal (label line : string) : option string :=
  let here :=
    if String.prefix label line
    then match_decimal (PyStr.drop (String.length label) line)
    else None in
  match here with
  | Some g => Some g
  | None =>
      match line with
      | String _ line' => re_search_decimal label line'
      | EmptyString => None
      end
  end.

Section Tools.
(** The external programs, and Python's conversions between floats and
    text. *)
Variable ffmpeg : list string -> proc_outcome.
Variable ffprobe : list string -> proc_outcome.
Variable py_float : string -> option float.   (* float(s); None: ValueError *)
Variable py_str : float -> string.            (* str(x) *)

(** The loop over the lines of the report: the starts and the ends of the
    silences it names, in order; [float] may raise. *)
Fixpoint silence_points (lines : list string)
    (silence_starts silence_ends : list float)
    : result (list float * list float) :=
  match lines with
  | [] => Ok (silence_starts, silence_ends)
  | line :: rest =>
      if PyStr.contains "silencedetect" line then
        if PyStr.contains "silence_start" line then
          match re_search_decimal "silence_start: " line with
          | Some g =>
              match py_float g with
              | Some start => silence_points rest (silence_starts ++ [start]) silence_ends
              | None => Raise (Exn ValueError g)
              end
          | None => silence_points rest silence_starts silence_ends
          end
        else if PyStr.contains "silence_end" line then
          match re_search_decimal "silence_end: " line with
          | Some g =>
              match py_float g with
              | Some e => silence_points rest silence_starts (silence_ends ++ [e])
              | None => Raise (Exn ValueError g)
              end
          | None => silence_points rest silence_starts silence_ends
          end
        else silence_points rest silence_starts silence_ends
      else silence_points rest silence_starts silence_ends
  end.

Definition ffprobe_duration_command (filepath : string) : list string :=
  ["ffprobe"; "-v"; "error"; "-show_entries"; "format=duration";
   "-of"; "default=noprint_wrappers=1:nokey=1"; filepath].

(** The [CalledProcessError] of a command that exits with [rc]. Its text
    names the command by its words and the exit status; [str(e)] prints
    the command as a list. *)
Definition called_process_error (argv : list string) (rc : Z) : exn :=
  Exn CalledProcessError
    ("Command '" +:+ PyStr.join " " argv +:+ "' returned non-zero exit status "
     +:+ pretty rc +:+ ".").

Definition program_missing_error (argv : list string) : exn :=
  Exn FileNotFoundError
    ("[Errno 2] No such file or directory: '" +:+ default "" (head argv) +:+ "'").

(** [get_audio_duration]: [None] when the duration cannot be determined. *)
Definition get_audio_duration (filepath : string) : M (option float) :=
  do r <- subprocess_run ffprobe ["ffprobe"; "-version"] "" true ;;
  match r with
  | Missing => ret None
  | Failed rc _ => raise (called_process_error ["ffprobe"; "-version"] rc)
  | Completed _ _ =>
      do r <- subprocess_run ffprobe (ffprobe_duration_command filepath) "" true ;;
      match r with
      | Completed stdout _ => ret (py_float (PyStr.strip stdout))
      | Failed _ _ => ret None
      | Missing => ret None
      end
  end.

(** *** The trim window *)

(** [max(a, b)] and [min(a, b)] of two floats, as Python computes them. *)
Definition py_max (a b : float) : float := if PrimFloat.ltb a b then b else a.
Definition py_min (a b : float) : float := if PrimFloat.ltb b a then b else a.

Definition padding_ms : float := 0.2%float.

(** [start_trim_val] and [end_trim_val] for a clip of duration
    [current_audio_duration]. *)
Definition trim_window (current_audio_duration min_silence_duration : float)
    (silence_starts silence_ends : list float) : float * float :=
  let start_trim_val := 0.0%float in
  let end_trim_val := current_audio_duration in
  match silence_starts, silence_ends with
  | first_start :: _, first_end :: _ =>
      let start_trim_val :=
        if PrimFloat.eqb first_start 0.0%float
        then py_max 0.0%float (PrimFloat.sub first_end padding_ms)
        else start_trim_val in
      let end_trim_val :=
        if PrimFloat.leb (PrimFloat.sub end_trim_val min_silence_duration)
                         (List.last silence_ends first_end)
        then py_min current_audio_duration
               (PrimFloat.add (List.last silence_starts first_start) padding_ms)
        else end_trim_val in
      (start_trim_val, end_trim_val)
  | _, _ => (start_trim_val, end_trim_val)
  end.

(** [(end_trim_val - start_trim_val) <= 0.01] *)
Definition window_too_short (window : float * float) : bool :=
  PrimFloat.leb (PrimFloat.sub (snd window) (fst window)) 0.01%float.

(** *** The commands *)

Definition copy_command (input_filepath output_filepath : string) : list string :=
  ["ffmpeg"; "-i"; input_filepath; "-c"; "copy"; output_filepath].

Definition silencedetect_command (input_filepath : string)
    (silence_threshold_db : Z) (min_silence_duration : float) : list string :=
  ["ffmpeg"; "-i"; input_filepath; "-af";
   "silencedetect=n=" +:+ pretty silence_threshold_db +:+ "dB:d="
     +:+ py_str min_silence_duration;
   "-f"; "null"; "-"].

Definition trim_command (input_filepath output_filepath : string)
    (start_trim_val end_trim_val : float) : list string :=
  ["ffmpeg"; "-ss"; py_str start_trim_val; "-i"; input_filepath;
   "-to"; py_str end_trim_val; "-avoid_negative_ts"; "auto";
   "-c:a"; "libmp3lame"; "-q:a"; "2"; output_filepath].

Definition trim_failed_error (input_filepath : string) (e : exn) : exn :=
  Exn RuntimeError
    ("Error trimming audio silence with FFmpeg for " +:+ input_filepath
     +:+ ": " +:+ exn_msg e).

Definition trim_unexpected_error (input_filepath : string) (e : exn) : exn :=
  Exn RuntimeError
    ("An unexpected error occurred during audio trimming for "
     +:+ input_filepath +:+ ": " +:+ exn_msg e).

(** [subprocess.run(argv, check=True)] as a statement: the two exceptions
    it can raise, raised. *)
Definition run_checked (argv : list string) : M unit :=
  do r <- subprocess_run ffmpeg argv "" true ;;
  match r with
  | Completed _ _ => ret tt
  | Failed rc _ => raise (called_process_error argv rc)
  | Missing => raise (program_missing_error argv)
  end.

(** The body of the second [try] of [trim_audio_silence]. *)
Definition detect_and_trim (input_filepath output_filepath : string)
    (silence_threshold_db : Z) (min_silence_duration : float) : M unit :=
  do process <- subprocess_run ffmpeg
       (silencedetect_command input_filepath silence_threshold_db
          min_silence_duration) "" false ;;
  match process with
  | Missing =>
      raise (program_missing_error
               (silencedetect_command input_filepath silence_threshold_db
                  min_silence_duration))
  | Failed rc _ =>
      raise (called_process_error
               (silencedetect_command input_filepath silence_threshold_db
                  min_silence_duration) rc)
  | Completed _ stderr =>
      let lines := splitlines stderr in
      do end_trim <- get_audio_duration input_filepath ;;
      match silence_points lines [] [] with
      | Raise e => raise e
      | Ok (silence_starts, silence_ends) =>
          do current_audio_duration <- get_audio_duration input_filepath ;;
          match current_audio_duration with
          | None => run_checked (copy_command input_filepath output_filepath)
          | Some current_audio_duration =>
              let window :=
                trim_window current_audio_duration min_silence_duration
                  silence_starts silence_ends in
              if window_too_short window then
                run_checked (copy_command input_filepath output_filepath)
              else
                do _ <- run_checked
                     (trim_command input_filepath output_filepath
                        (fst window) (snd window)) ;;
                do trimmed_duration <- get_audio_duration output_filepath ;;
                match trimmed_duration with
                | Some _ => ret tt
                | None =>
                    (* formatting None with [:.2f] in the final print *)
                    raise (Exn TypeError
                             "unsupported format string passed to NoneType.__format__")
                end
          end
      end
  end.

Definition trim_audio_silence (input_filepath output_filepath : string)
    (silence_threshold_db : Z) (min_silence_duration : float)
    (enable_trim : bool) : M unit :=
  if negb enable_trim then
    do r <- subprocess_run ffmpeg
         (copy_command input_filepath output_filepath) "" true ;;
    match r with
    | Completed _ _ => ret tt
    | Failed rc _ =>
        raise (Exn RuntimeError
                 ("Error copying audio file: " +:+
                  exn_msg (called_process_error
                             (copy_command input_filepath output_filepath) rc)))
    | Missing =>
        raise (program_missing_error
                 (copy_command input_filepath output_filepath))
    end
  else
    do r <- subprocess_run ffmpeg ["ffmpeg"; "-version"] "" true ;;
    match r with
    | Missing =>
        raise (Exn RuntimeError
                 "FFmpeg is not installed or not in your PATH. Please install FFmpeg to trim audio silence. You can download FFmpeg from: https://ffmpeg.org/download.html")
    | Failed rc _ => raise (called_process_error ["ffmpeg"; "-version"] rc)
    | Completed _ _ =>
        try_except
          (detect_and_trim input_filepath output_filepath
             silence_threshold_db min_silence_duration)
          (fun e =>
             if bool_decide (exn_kind e = CalledProcessError)
             then raise (trim_failed_error input_filepath e)
             else raise (trim_unexpected_error input_filepath e))
    end.

(** The call the orchestrator makes: the defaults of the signature,
    [-60] dB and [0.5] s. *)
Definition trim_audio_silence_default (input_filepath output_filepath : string)
    (enable_trim : bool) : M unit :=
  trim_audio_silence input_filepath output_filepath (-60) 0.5%float enable_trim.

End Tools.

End Trim.


(** ** JSON values *)

(** What [json] decoding gives: [None], booleans, integers, floats, strings,
    lists and dicts. A dict keeps its keys in the order of their first
    insertion, each key once. *)
Inductive json :=
  | JNull
  | JBool (b : bool)
  | JInt (n : Z)
  | JFloat (x : float)
  | JStr (s : string)
  | JArr (items : list json)
  | JObj (members : list (string * json)).

Module Json.

(** [d[key] = v] on the members of a dict. *)
Fixpoint dict_set (members : list (string * json)) (key : string) (v : json)
    : list (string * json) :=
  match members with
  | [] => [(key, v)]
  | (k, x) :: rest =>
      if String.eqb k key then (k, v) :: rest
      else (k, x) :: dict_set rest key v
  end.

(** [d.get(key)] on the members of a dict. *)
Fixpoint dict_get (members : list (string * json)) (key : string)
    : option json :=
  match members with
  | [] => None
  | (k, x) :: rest => if String.eqb k key then Some x else dict_get rest key
  end.

(** [isinstance(obj, dict) and key in obj] *)
Definition is_dict_with (key : string) (obj : json) : bool :=
  match obj with
  | JObj members => bool_decide (is_Some (dict_get members key))
  | _ => false
  end.

(** [obj.get(key)] for a dict [obj]; a missing key and a [null] value both
    read as [JNull]. *)
Definition get (key : string) (obj : json) : json :=
  match obj with
  | JObj members => default JNull (dict_get members key)
  | _ => JNull
  end.

(** [bool(v)] *)
Definition truth (v : json) : bool :=
  match v with
  | JNull => false
  | JBool b => b
  | JInt n => negb (n =? 0)%Z
  | JFloat x => negb (PrimFloat.eqb x 0%float)
  | JStr s => negb (String.eqb s "")
  | JArr items => negb (bool_decide (items = []))
  | JObj members => negb (bool_decide (members = []))
  end.

(** [len(v)]; [None] is the [TypeError] of a value without a length. *)
Definition len (v : json) : option nat :=
  match v with
  | JStr s => Some (String.length s)
  | JArr items => Some (length items)
  | JObj members => Some (length members)
  | _ => None
  end.

(** [for x in v]: the elements of a list, the characters of a string, the
    keys of a dict; [None] is the [TypeError] of a value that is not
    iterable. *)
Definition iterate (v : json) : option (list json) :=
  match v with
  | JArr items => Some items
  | JStr s => Some ((fun c => JStr (String c "")) <$> list_ascii_of_string s)
  | JObj members => Some ((fun kv => JStr (fst kv)) <$> members)
  | _ => None
  end.

(** Equality of two decoded values, as [==] between an element of a list
    and a string needs it. *)
Definition is_str (s : string) (v : json) : bool :=
  match v with
  | JStr t => String.eqb s t
  | _ => false
  end.

(** [key in v]: a key of a dict, a substring of a string, an element of a
    list; [None] is the [TypeError] of the other values. *)
Definition contains (key : string) (v : json) : option bool :=
  match v with
  | JObj members => Some (bool_decide (is_Some (dict_get members key)))
  | JStr s => Some (PyStr.contains key s)
  | JArr items => Some (existsb (is_str key) items)
  | _ => None
  end.

End Json.

(** ** The decoder of the standard library: [json.JSONDecoder.raw_decode]

    The module calls the decoder of Python's standard library. Where a
    development needs a decoder that computes, this one follows the
    scanner of that library: values, objects, arrays, strings with their
    escapes, and numbers. It does not model the recursion limit. *)

Module Decoder.

Definition is_ws (c : ascii) : bool :=
  let n := nat_of_ascii c in
  (n =? 32)%nat || (n =? 9)%nat || (n =? 10)%nat || (n =? 13)%nat.

Definition skip_ws (s : string) : string := PyStr.lstrip_by is_ws s.

Definition hex_value (c : ascii) : option N :=
  let n := N_of_ascii c in
  if (48 <=? n)%N && (n <=? 57)%N then Some (n - 48)%N
  else if (97 <=? n)%N && (n <=? 102)%N then Some (n - 87)%N
  else if (65 <=? n)%N && (n <=? 70)%N then Some (n - 55)%N
  else None.

(** Four hexadecimal digits at the head of [s]. *)
Definition hex4 (s : string) : option (N * string) :=
  match s with
  | String a (String b (String c (String d rest))) =>
      match hex_value a, hex_value b, hex_value c, hex_value d with
      | Some x, Some y, Some z, Some t =>
          Some ((((x * 16 + y) * 16 + z) * 16 + t)%N, rest)
      | _, _, _, _ => None
      end
  | _ => None
  end.

(** The bytes of a code point in UTF-8. *)
Definition utf8 (cp : N) : string :=
  let byte (n : N) := ascii_of_N n in
  if (cp <? 128)%N then String (byte cp) ""
  else if (cp <? 2048)%N then
    String (byte (192 + cp / 64)%N) (String (byte (128 + cp mod 64)%N) "")
  else if (cp <? 65536)%N then
    String (byte (224 + cp / 4096)%N)
      (String (byte (128 + (cp / 64) mod 64)%N)
         (String (byte (128 + cp mod 64)%N) ""))
  else
    String (byte (240 + cp / 262144)%N)
      (String (byte (128 + (cp / 4096) mod 64)%N)
         (String (byte (128 + (cp / 64) mod 64)%N)
            (String (byte (128 + cp mod 64)%N) ""))).

(** The character of a one-letter escape. *)
Definition escape_char (c : ascii) : option ascii :=
  let n := nat_of_ascii c in
  if (n =? 34)%nat then Some c            (* quote *)
  else if (n =? 92)%nat then Some c       (* backslash *)
  else if (n =? 47)%nat then Some c       (* slash *)
  else if (n =? 98)%nat then Some (ascii_of_nat 8)
  else if (n =? 102)%nat then Some (ascii_of_nat 12)
  else if (n =? 110)%nat then Some (ascii_of_nat 10)
  else if (n =? 114)%nat then Some (ascii_of_nat 13)
  else if (n =? 116)%nat then Some (ascii_of_nat 9)
  else None.

(** A [\u] escape whose four digits have been read as [cp]: a high
    surrogate that a low one follows makes one code point with it. *)
Definition unicode_escape (cp : N) (rest : string) : N * string :=
  if (55296 <=? cp)%N && (cp <=? 56319)%N then
    match rest with
    | String b (String u rest') =>
        if ((nat_of_ascii b =? 92)%nat && (nat_of_ascii u =? 117)%nat)%bool then
          match hex4 rest' with
          | Some (lo, rest'') =>
              if (56320 <=? lo)%N && (lo <=? 57343)%N
              then ((65536 + (cp - 55296) * 1024 + (lo - 56320))%N, rest'')
              else (cp, rest)
          | None => (cp, rest)
          end
        else (cp, rest)
    | _ => (cp, rest)
    end
  else (cp, rest).

(** [scanstring], after the opening quote: the content and what follows
    the closing quote. The recursion is on [fuel], at least the length of
    [s]. *)
Fixpoint scanstring (fuel : nat) (s : string) : option (string * string) :=
  match fuel, s with
  | S fuel', String c rest =>
      let n := nat_of_ascii c in
      if (n =? 34)%nat then Some ("", rest)
      else if (n =? 92)%nat then
        match rest with
        | String e rest' =>
            if (nat_of_ascii e =? 117)%nat then
              match hex4 rest' with
              | Some (cp, rest'') =>
                  let '(cp', rest3) := unicode_escape cp rest'' in
                  match scanstring fuel' rest3 with
                  | Some (content, after) => Some (utf8 cp' +:+ content, after)
                  | None => None
                  end
              | None => None
              end
            else
              match escape_char e with
              | Some ch =>
                  match scanstring fuel' rest' with
                  | Some (content, after) => Some (String ch content, after)
                  | None => None
                  end
              | None => None
              end
        | EmptyString => None
        end
      else if (n <? 32)%nat then None
      else
        match scanstring fuel' rest with
        | Some (content, after) => Some (String c content, after)
        | None => None
        end
  | _, _ => None
  end.

Fixpoint digits_value (acc : Z) (ds : string) : Z :=
  match ds with
  | String c ds' => digits_value (acc * 10 + (Z.of_nat (nat_of_ascii c) - 48))%Z ds'
  | EmptyString => acc
  end.

Definition is_char (code : nat) (c : ascii) : bool := (nat_of_ascii c =? code)%nat.

Section Numbers.
(** [float(text)] for the text of a JSON number. *)
Variable py_float : string -> option float.

(** The number pattern of the scanner at the head of [s]: an optional
    minus sign, then a zero or a run of digits that does not start with
    zero, then an optional fraction (a dot and digits) and an optional
    exponent (e or E, an optional sign, digits). The value is an integer
    without fraction and exponent, a float otherwise. *)
Definition scan_number (s : string) : option (json * string) :=
  let '(sign, s1) :=
    match s with
    | String c r => if is_char 45 c then ("-", r) else ("", s)
    | EmptyString => ("", s)
    end in
  let int_part :=
    match s1 with
    | String c r =>
        if is_char 48 c then Some ("0", r)
        else if Trim.is_digit c
        then let '(ds, r') := Trim.span_digits s1 in Some (ds, r')
        else None
    | EmptyString => None
    end in
  match int_part with
  | None => None
  | Some (ip, s2) =>
      let '(frac, s3) :=
        match s2 with
        | String c r =>
            if is_char 46 c then
              match Trim.span_digits r with
              | (String d ds, r') => ("." +:+ String d ds, r')
              | _ => ("", s2)
              end
            else ("", s2)
        | EmptyString => ("", s2)
        end in
      let '(exp, s4) :=
        match s3 with
        | String c r =>
            if is_char 101 c || is_char 69 c then
              let '(esign, r1) :=
                match r with
                | String d r' =>
                    if is_char 45 d || is_char 43 d
                    then (String d "", r') else ("", r)
                | EmptyString => ("", r)
                end in
              match Trim.span_digits r1 with
              | (String d ds, r') => (String c esign +:+ String d ds, r')
              | _ => ("", s3)
              end
            else ("", s3)
        | EmptyString => ("", s3)
        end in
      if String.eqb frac "" && String.eqb exp "" then
        let v := digits_value 0 ip in
        Some (JInt (if String.eqb sign "" then v else (- v)%Z), s4)
      else
        match py_float (sign +:+ ip +:+ frac +:+ exp) with
        | Some x => Some (JFloat x, s4)
        | None => None
        end
  end.

(** [s] without the word [w] at its head. *)
Definition after_word (w s : string) : option string :=
  if String.prefix w s then Some (PyStr.drop (String.length w) s) else None.

(** [scan_once], the members of an object after its opening brace and the
    items of an array after its opening bracket. Each gives the value and
    what follows it. *)
Fixpoint scan_once (fuel : nat) (s : string) : option (json * string) :=
  match fuel with
  | O => None
  | S fuel' =>
      match s with
      | EmptyString => None
      | String c rest =>
          if is_char 34 c then
            match scanstring (String.length rest) rest with
            | Some (content, after) => Some (JStr content, after)
            | None => None
            end
          else if is_char 123 c then
            let rest' := skip_ws rest in
            match rest' with
            | String d after =>
                if is_char 125 d then Some (JObj [], after)
                else scan_members fuel' rest' []
            | EmptyString => None
            end
          else if is_char 91 c then
            let rest' := skip_ws rest in
            match rest' with
            | String d after =>
                if is_char 93 d then Some (JArr [], after)
                else scan_items fuel' rest' []
            | EmptyString => None
            end
          else
            match after_word "null" s, after_word "true" s, after_word "false" s with
            | Some after, _, _ => Some (JNull, after)
            | _, Some after, _ => Some (JBool true, after)
            | _, _, Some after => Some (JBool false, after)
            | None, None, None =>
                match scan_number s with
                | Some r => Some r
                | None =>
                    match after_word "NaN" s, after_word "Infinity" s,
                          after_word "-Infinity" s with
                    | Some after, _, _ => Some (JFloat PrimFloat.nan, after)
                    | _, Some after, _ => Some (JFloat PrimFloat.infinity, after)
                    | _, _, Some after => Some (JFloat PrimFloat.neg_infinity, after)
                    | None, None, None => None
                    end
                end
            end
      end
  end
with scan_members (fuel : nat) (s : string) (members : list (string * json))
    : option (json * string) :=
  match fuel with
  | O => None
  | S fuel' =>
      match s with
      | String q rest =>
          if is_char 34 q then
            match scanstring (String.length rest) rest with
            | None => None
            | Some (key, s1) =>
                match skip_ws s1 with
                | String colon s2 =>
                    if is_char 58 colon then
                      match scan_once fuel' (skip_ws s2) with
                      | None => None
                      | Some (value, s3) =>
                          let members := Json.dict_set members key value in
                          match skip_ws s3 with
                          | String d s4 =>
                              if is_char 125 d then Some (JObj members, s4)
                              else if is_char 44 d
                              then scan_members fuel' (skip_ws s4) members
                              else None
                          | EmptyString => None
                          end
                      end
                    else None
                | EmptyString => None
                end
            end
          else None
      | EmptyString => None
      end
  end
with scan_items (fuel : nat) (s : string) (items : list json)
    : option (json * string) :=
  match fuel with
  | O => None
  | S fuel' =>
      match scan_once fuel' s with
      | None => None
      | Some (value, s1) =>
          let items := (items ++ [value])%list in
          match skip_ws s1 with
          | String d s2 =>
              if is_char 93 d then Some (JArr items, s2)
              else if is_char 44 d then scan_items fuel' (skip_ws s2) items
              else None
          | EmptyString => None
          end
      end
  end.

(** [raw_decode(s)]: the value at the head of [s] and the index where it
    ends, or [None] for [JSONDecodeError]. A value spans at least one
    character. *)
Definition raw_decode (s : string) : option (json * nat) :=
  match scan_once (S (String.length s)) s with
  | Some (obj, after) =>
      let end_ := (String.length s - String.length after)%nat in
      if (end_ =? 0)%nat then None else Some (obj, end_)
  | None => None
  end.
End Numbers.

End Decoder.


(** ** Script extraction: [_is_content_quality_acceptable] and
    [_generate_podcast_script] *)

Module Script.

Section Extraction.
(** [json.JSONDecoder().raw_decode], and the LLM client: [chat_completion k]
    is the joined response to the [k]-th request (from 0) of a call of
    [_generate_podcast_script], or the exception the request raises. *)
Variable raw_decode : string -> option (json * nat).
Variable chat_completion : nat -> result string.

(** *** The scan for the script object *)

(** The loop [while idx < len(podscript_json_str)]: the accepted object
    and the text it was decoded from, or [None] when the loop ends with
    [podcast_script] still [None]. Each round moves [idx] forward, so
    [len(podscript_json_str)] rounds are enough. *)
Fixpoint scan_loop (fuel : nat) (podscript_json_str : string) (idx : nat)
    : option (json * string) :=
  match fuel with
  | O => None
  | S fuel' =>
      if (idx <? String.length podscript_json_str)%nat then
        match raw_decode (PyStr.drop idx podscript_json_str) with
        | Some (obj, end_) =>
            if Json.is_dict_with "podcast_transcripts" obj then
              Some (obj, PyStr.take end_ (PyStr.drop idx podscript_json_str))
            else scan_loop fuel' podscript_json_str (idx + end_)
        | None =>
            let idx := (idx + 1)%nat in
            match PyStr.find_from "{" podscript_json_str idx with
            | Some next_brace => scan_loop fuel' podscript_json_str next_brace
            | None => None
            end
        end
      else None
  end.

Definition extract_script (podscript_json_str : string)
    : option (json * string) :=
  scan_loop (String.length podscript_json_str) podscript_json_str 0.

(** *** The quality gate *)

(** [json.loads(s)]: the value that spans all of [s], white space apart;
    [None] for [JSONDecodeError]. *)
Definition json_loads (s : string) : option json :=
  let s := Decoder.skip_ws s in
  match raw_decode s with
  | Some (obj, end_) =>
      if String.eqb (Decoder.skip_ws (PyStr.drop end_ s)) "" then Some obj
      else None
  | None => None
  end.

Definition type_error (what : string) : exn := Exn TypeError what.
Definition attribute_error (what : string) : exn := Exn AttributeError what.

(** One round of [for transcript in transcripts]: [Ok false] is the
    [return False] of the round, [Ok true] lets the loop go on. *)
Definition transcript_acceptable (transcript : json) : result bool :=
  match Json.contains "speaker_id" transcript with
  | None => Raise (type_error "argument is not iterable")
  | Some false => Ok false
  | Some true =>
      match Json.contains "dialog" transcript with
      | None => Raise (type_error "argument is not iterable")
      | Some false => Ok false
      | Some true =>
          match transcript with
          | JObj members =>
              match Json.dict_get members "dialog" with
              | Some (JStr d) =>
                  let dialog := PyStr.strip d in
                  Ok (negb (String.eqb dialog "" || (PyStr.len dialog <? 1)%nat))
              | Some _ => Raise (attribute_error "object has no attribute 'strip'")
              | None => Ok false
              end
          | _ => Raise (attribute_error "object has no attribute 'get'")
          end
      end
  end.

Fixpoint transcripts_acceptable (transcripts : list json) : result bool :=
  match transcripts with
  | [] => Ok true
  | transcript :: rest =>
      match transcript_acceptable transcript with
      | Raise e => Raise e
      | Ok false => Ok false
      | Ok true => transcripts_acceptable rest
      end
  end.

Definition _is_content_quality_acceptable (content title tags : string)
    (content_type : string) : result bool :=
  if String.eqb content_type "overview" then
    if String.eqb content "" || (PyStr.len (PyStr.strip content) <? 20)%nat
    then Ok false
    else if String.eqb title "" || (PyStr.len (PyStr.strip title) <? 2)%nat
    then Ok false
    else if String.eqb tags "" || (PyStr.len (PyStr.strip tags) <? 1)%nat
    then Ok false
    else Ok true
  else if String.eqb content_type "script" then
    match json_loads content with
    | None => Ok false
    | Some podcast_script =>
        match Json.contains "podcast_transcripts" podcast_script with
        | None => Raise (type_error "argument is not iterable")
        | Some false => Ok false
        | Some true =>
            match podcast_script with
            | JObj _ =>
                let transcripts := Json.get "podcast_transcripts" podcast_script in
                if negb (Json.truth transcripts) then Ok false
                else
                  match Json.len transcripts, Json.iterate transcripts with
                  | Some n, Some items =>
                      if (n =? 0)%nat then Ok false
                      else transcripts_acceptable items
                  | _, _ => Raise (type_error "object has no len()")
                  end
            | _ => Raise (attribute_error "object has no attribute 'get'")
            end
        end
    end
  else Ok false.

(** *** The retry loop *)

Definition script_max_retries : nat := 3.

(** How the [try] block of one round ends: with the [return], with a
    [continue], or with an exception for the [except] clauses. *)
Inductive body_outcome :=
  | BReturn (podcast_script : json)
  | BContinue
  | BRaise (e : exn).

Definition no_script_error (podscript_json_str : string) : exn :=
  Exn ValueError
    ("Error: Could not find a valid podcast script JSON object with 'podcast_transcripts' key in response. Raw response: "
     +:+ podscript_json_str).

Definition empty_script_error : exn :=
  Exn ValueError
    "Error: 'podcast_transcripts' array is empty or not found in the generated script. Nothing to convert to audio.".

Definition unacceptable_script_error : exn :=
  Exn ValueError
    ("Failed to generate acceptable podcast script after "
     +:+ pretty script_max_retries
     +:+ " attempts. Script may be missing required elements.").

(** The rejection of a round: [attempt += 1], then the error when the
    attempts are used up and [continue] otherwise. *)
Definition reject (attempt : nat) (e : exn) : nat * body_outcome :=
  let attempt := S attempt in
  if (script_max_retries <=? attempt)%nat then (attempt, BRaise e)
  else (attempt, BContinue).

(** The [try] block of one round, for the outcome of its request: the
    response text (empty until the request has returned), the value of
    [attempt] when the block ends, and how it ends. *)
Definition script_round (attempt : nat) : string * (nat * body_outcome) :=
  match chat_completion attempt with
  | Raise e => ("", (attempt, BRaise e))
  | Ok podscript_json_str =>
      (podscript_json_str,
       match extract_script podscript_json_str with
       | None => reject attempt (no_script_error podscript_json_str)
       | Some (podcast_script, valid_json_str) =>
           let transcripts := Json.get "podcast_transcripts" podcast_script in
           match Json.len (if Json.truth transcripts then transcripts else JArr []) with
           | None => (attempt, BRaise (type_error "object has no len()"))
           | Some _ =>
               if negb (Json.truth transcripts)
               then reject attempt empty_script_error
               else
                 match _is_content_quality_acceptable valid_json_str "" "" "script" with
                 | Raise e => (attempt, BRaise e)
                 | Ok true => (attempt, BReturn podcast_script)
                 | Ok false => reject attempt unacceptable_script_error
                 end
           end
       end)
  end.

(** The [try] block of one round: the request, and what follows from its
    outcome. *)
Definition script_body (attempt : nat) : M (string * (nat * body_outcome)) :=
  do _ <- emit EvChat ;;
  ret (script_round attempt).

Definition decode_error (e : exn) (podscript_json_str : string) : exn :=
  Exn ValueError
    ("Error decoding JSON from podcast script response: " +:+ exn_msg e
     +:+ ". Raw response: " +:+ podscript_json_str).

Definition script_failed_error (e : exn) : exn :=
  Exn RuntimeError
    ("Error generating podcast script after " +:+ pretty script_max_retries
     +:+ " attempts: " +:+ exn_msg e).

(** [while attempt < max_retries]: a round and its [except] clauses.
    Every round that comes back to the loop has raised [attempt], so
    [max_retries] rounds are enough. The loop left without a [return]
    gives [None]. *)
Fixpoint script_loop (fuel : nat) (attempt : nat) : M (option json) :=
  match fuel with
  | O => ret None
  | S fuel' =>
      if (script_max_retries <=? attempt)%nat then ret None
      else
        do r <- script_body attempt ;;
        let '(podscript_json_str, (attempt, outcome)) := r in
        match outcome with
        | BReturn podcast_script => ret (Some podcast_script)
        | BContinue => script_loop fuel' attempt
        | BRaise e =>
            let attempt := S attempt in
            if (script_max_retries <=? attempt)%nat then
              if bool_decide (exn_kind e = JSONDecodeError)
              then raise (decode_error e podscript_json_str)
              else raise (script_failed_error e)
            else
              do _ <- time_sleep (1 * Z.of_nat attempt) ;;
              script_loop fuel' attempt
        end
  end.

Definition _generate_podcast_script : M (option json) :=
  script_loop script_max_retries 0.

End Extraction.

End Script.


(** ** The orchestrator: [_generate_all_audio_files] *)

Module Orchestrator.

(** The state of a future of the thread pool. *)
Inductive future_state := Pending | Running | Finished.

(** What the scheduling of the worker threads decides in a run: the order
    in which [as_completed] yields the futures, and the state of every
    future at the moment the loop is left by [break]. *)
Record schedule := Schedule {
  completion_order : list nat;
  at_abort : nat -> future_state
}.

Definition item_error (index : nat) (e : exn) : exn :=
  Exn RuntimeError
    ("Error generating or trimming audio for item " +:+ pretty index
     +:+ ": " +:+ exn_msg e).

(** [sorted(audio_files_dict.keys())] *)
Definition sorted_keys (audio_files_dict : gmap nat string) : list nat :=
  merge_sort Nat.le (fst <$> map_to_list audio_files_dict).

(** [[audio_files_dict[i] for i in sorted(audio_files_dict.keys())]] *)
Definition audio_files_of (audio_files_dict : gmap nat string) : list string :=
  omap (fun i => audio_files_dict !! i) (sorted_keys audio_files_dict).

(** [os.path.join(output_dir, f"trimmed_{os.path.basename(original)}")] *)
Definition trimmed_path (original_audio_file : string) : string :=
  PyStr.path_join module_output_dir
    ("trimmed_" +:+ PyStr.basename original_audio_file).

Section Run.
Variable sanitize : string -> string.
Variable ffmpeg : list string -> proc_outcome.
Variable ffprobe : list string -> proc_outcome.
Variable py_float : string -> option float.
Variable py_str : float -> string.

(** The work of the future of item [index]: a future is joined where its
    result is read; its requests are logged there. *)
Definition future_result (transcripts : list transcript) (config_data : config)
    (tts_adapter : gmap string adapter) (max_retries : Z) (index : nat)
    : M (option string) :=
  match transcripts !! index with
  | Some item =>
      Synthesis.generate_audio_for_item sanitize item config_data tts_adapter
        max_retries
  | None => ret None
  end.

(** The [try] block of one round of the loop over [as_completed]. *)
Definition collect_one (transcripts : list transcript) (config_data : config)
    (tts_adapter : gmap string adapter) (max_retries : Z)
    (enable_trim_silence : bool) (audio_files_dict : gmap nat string)
    (index : nat) : M (gmap nat string) :=
  do original_audio_file <-
     future_result transcripts config_data tts_adapter max_retries index ;;
  if truthy original_audio_file then
    let original_audio_file := default "" original_audio_file in
    let trimmed_audio_file := trimmed_path original_audio_file in
    do _ <- Trim.trim_audio_silence_default ffmpeg ffprobe py_float py_str
              original_audio_file trimmed_audio_file enable_trim_silence ;;
    do _ <- try_except (os_remove original_audio_file) (fun _ => ret tt) ;;
    ret (<[index := trimmed_audio_file]> audio_files_dict)
  else ret audio_files_dict.

(** [for future in as_completed(future_to_index)]: the dict, the futures
    whose result was read, and [exception_caught]. *)
Fixpoint collect (transcripts : list transcript) (config_data : config)
    (tts_adapter : gmap string adapter) (max_retries : Z)
    (enable_trim_silence : bool) (order : list nat)
    (audio_files_dict : gmap nat string) (consumed : list nat)
    : M (gmap nat string * list nat * option exn) :=
  match order with
  | [] => ret (audio_files_dict, consumed, None)
  | index :: rest =>
      fun w =>
        match collect_one transcripts config_data tts_adapter max_retries
                enable_trim_silence audio_files_dict index w with
        | (Ok audio_files_dict, w') =>
            collect transcripts config_data tts_adapter max_retries
              enable_trim_silence rest audio_files_dict
              (consumed ++ [index])%list w'
        | (Raise e, w') =>
            (Ok (audio_files_dict, (consumed ++ [index])%list,
                 Some (item_error index e)), w')
        end
  end.

(** [for f in future_to_index: if not f.done(): f.cancel()]: cancelling
    takes a pending future out of the queue and leaves a running one
    alone. *)
Fixpoint cancel_outstanding (at_abort : nat -> future_state)
    (indices : list nat) : M unit :=
  match indices with
  | [] => ret tt
  | index :: rest =>
      do _ <- match at_abort index with
              | Pending => emit (EvCancel index)
              | Running | Finished => ret tt
              end ;;
      cancel_outstanding at_abort rest
  end.

(** Leaving the [with] block waits for the workers: every future that was
    started and whose result was not read has done its work. *)
Fixpoint drain (transcripts : list transcript) (config_data : config)
    (tts_adapter : gmap string adapter) (max_retries : Z)
    (started : nat -> bool) (consumed : list nat) (indices : list nat)
    : M unit :=
  match indices with
  | [] => ret tt
  | index :: rest =>
      do _ <- (if started index && negb (bool_decide (index ∈ consumed))
               then try_except
                      (do _ <- future_result transcripts config_data
                                 tts_adapter max_retries index ;; ret tt)
                      (fun _ => ret tt)
               else ret tt) ;;
      drain transcripts config_data tts_adapter max_retries started consumed rest
  end.

Definition is_started (s : future_state) : bool :=
  match s with Pending => false | Running | Finished => true end.

Definition _generate_all_audio_files (transcripts : list transcript)
    (config_data : config) (tts_adapter : gmap string adapter) (threads : Z)
    (enable_trim_silence : bool) (sched : schedule) : M (list string) :=
  let max_retries := default 3%Z (cfg_tts_max_retries config_data) in
  if (threads <=? 0)%Z
  then raise (Exn ValueError "max_workers must be greater than 0")
  else
    let indices := seq 0 (length transcripts) in
    do r <- collect transcripts config_data tts_adapter max_retries
              enable_trim_silence (completion_order sched) ∅ [] ;;
    let '(audio_files_dict, consumed, exception_caught) := r in
    match exception_caught with
    | Some e =>
        do _ <- cancel_outstanding (at_abort sched) indices ;;
        do _ <- drain transcripts config_data tts_adapter max_retries
                  (fun i => is_started (at_abort sched i)) consumed indices ;;
        raise e
    | None =>
        do _ <- drain transcripts config_data tts_adapter max_retries
                  (fun _ => true) consumed indices ;;
        ret (audio_files_of audio_files_dict)
    end.

End Run.

End Orchestrator.

(** ** The file list and the merge: [_create_ffmpeg_file_list] and
    [merge_audio_files] *)

Module Concat.

Definition no_audio_files_error : exn :=
  Exn ValueError "No audio files were generated to merge.".

Definition count_mismatch_error (expected_count : Z) (got : nat) : exn :=
  Exn RuntimeError
    ("Mismatch in audio file count. Expected " +:+ pretty expected_count
     +:+ ", but got " +:+ pretty got
     +:+ ". Some audio files might be missing or an error occurred during generation.").

Definition newline : string := String (ascii_of_nat 10) "".

(** The line of the file list for one audio file. *)
Definition file_line (audio_file : string) : string :=
  "file '" +:+ PyStr.basename audio_file +:+ "'" +:+ newline.

Definition file_list_content (audio_files : list string) : string :=
  foldr (fun audio_file rest => file_line audio_file +:+ rest) "" audio_files.

(** [unique_id] is what [uuid.uuid4()] gives, without its dashes. *)
Definition _create_ffmpeg_file_list (unique_id : string)
    (audio_files : list string) (expected_count : Z) : M string :=
  match audio_files with
  | [] => raise no_audio_files_error
  | _ =>
      if negb (Z.of_nat (length audio_files) =? expected_count)%Z
      then raise (count_mismatch_error expected_count (length audio_files))
      else
        let unique_file_list_path :=
          PyStr.path_join module_output_dir
            ("file_list_" +:+ unique_id +:+ ".txt") in
        do _ <- write_file unique_file_list_path (file_list_content audio_files) ;;
        ret unique_file_list_path
  end.

(** The quote characters that the cleanup strips from a file name. *)
Definition quote_chars : string :=
  String "'" (String (ascii_of_nat 34) "").

(** The file name of a line that starts with the word file and a space:
    what follows them, stripped of white space and then of the two quote
    characters. *)
Definition listed_filename (line : string) : option string :=
  if PyStr.startswith "file " line
  then Some (PyStr.strip_chars quote_chars (PyStr.strip (PyStr.drop 5 line)))
  else None.

(** The paths that the lines of a file list name. *)
Definition listed_paths (content : string) : list string :=
  omap (fun line => PyStr.path_join module_output_dir <$> listed_filename line)
       (PyStr.lines content).

(** [if os.path.exists(p): os.remove(p)] under [except OSError]. *)
Definition remove_if_exists (p : string) : M unit :=
  try_except
    (do there <- path_exists p ;;
     if there then os_remove p else ret tt)
    (fun _ => ret tt).

Fixpoint remove_all (paths : list string) : M unit :=
  match paths with
  | [] => ret tt
  | p :: rest => do _ <- remove_if_exists p ;; remove_all rest
  end.

(** The [finally] block of [merge_audio_files]. *)
Definition cleanup (file_list_path output_audio_filepath_wav : string)
    : M unit :=
  do _ <- try_except
            (do there <- path_exists file_list_path ;;
             if there then
               do content <- read_file file_list_path ;;
               do _ <- remove_all (listed_paths content) ;;
               try_except (os_remove file_list_path) (fun _ => ret tt)
             else ret tt)
            (fun _ => ret tt) ;;
  remove_if_exists output_audio_filepath_wav.

Section Merge.
Variable ffmpeg : list string -> proc_outcome.

Definition concat_command (file_list_path output_audio_filename_wav : string)
    : list string :=
  ["ffmpeg"; "-f"; "concat"; "-safe"; "0"; "-i"; PyStr.basename file_list_path;
   "-acodec"; "pcm_s16le"; "-ar"; "44100"; "-ac"; "2";
   output_audio_filename_wav].

Definition mp3_command (output_audio_filename_wav output_audio_filename_mp3 : string)
    : list string :=
  ["ffmpeg"; "-i"; output_audio_filename_wav; "-vn"; "-b:a"; "192k";
   "-acodec"; "libmp3lame"; output_audio_filename_mp3].

Definition ffmpeg_missing_error : exn :=
  Exn RuntimeError
    "FFmpeg is not installed or not in your PATH. Please install FFmpeg to merge audio files. You can download FFmpeg from: https://ffmpeg.org/download.html".

Definition merge_failed_error (stderr : string) : exn :=
  Exn RuntimeError
    ("Error merging or converting audio files with FFmpeg: " +:+ stderr).

(** The [try] block of [merge_audio_files] with its [except] clause. *)
Definition concat_and_encode (file_list_path output_audio_filename_wav
    output_audio_filename_mp3 : string) : M string :=
  do r <- subprocess_run ffmpeg
            (concat_command file_list_path output_audio_filename_wav)
            module_output_dir true ;;
  match r with
  | Failed _ stderr => raise (merge_failed_error stderr)
  | Missing =>
      raise (Trim.program_missing_error
               (concat_command file_list_path output_audio_filename_wav))
  | Completed _ _ =>
      do r <- subprocess_run ffmpeg
                (mp3_command output_audio_filename_wav output_audio_filename_mp3)
                module_output_dir true ;;
      match r with
      | Failed _ stderr => raise (merge_failed_error stderr)
      | Missing =>
          raise (Trim.program_missing_error
                   (mp3_command output_audio_filename_wav
                      output_audio_filename_mp3))
      | Completed _ _ => ret output_audio_filename_mp3
      end
  end.

(** [unique_id] is what [uuid.uuid4()] gives, without its dashes, and
    [timestamp] is [int(time.time())]. *)
Definition merge_audio_files (unique_id : string) (timestamp : Z)
    (file_list_path : string) : M string :=
  let output_audio_filename_wav := unique_id +:+ pretty timestamp +:+ ".wav" in
  let output_audio_filepath_wav :=
    PyStr.path_join module_output_dir output_audio_filename_wav in
  let output_audio_filename_mp3 := unique_id +:+ pretty timestamp +:+ ".mp3" in
  do r <- subprocess_run ffmpeg ["ffmpeg"; "-version"] "" true ;;
  match r with
  | Missing => raise ffmpeg_missing_error
  | Failed rc _ => raise (Trim.called_process_error ["ffmpeg"; "-version"] rc)
  | Completed _ _ =>
      try_finally
        (concat_and_encode file_list_path output_audio_filename_wav
           output_audio_filename_mp3)
        (cleanup file_list_path output_audio_filepath_wav)
  end.

End Merge.

End Concat.


(** ** The pipeline: [generate_podcast_audio_api] *)

Module Pipeline.

(** The command-line arguments that the pipeline reads. *)
Record arguments := Arguments_ {
  arg_api_key : option string;
  arg_base_url : option string;
  arg_model : option string;
  arg_threads : Z;
  arg_output_language : option string;
  arg_usetime : option string
}.

Record task_results := TaskResults {
  output_audio_filepath : string;
  overview_content : string;
  podcast_script : json;
  podUsers : list pod_user;
  audio_duration : option float;   (* the seconds that are shown as MM:SS *)
  title : string;
  tags : string
}.

Definition lift {A} (r : result A) : M A :=
  match r with Ok a => ret a | Raise e => raise e end.

(** [read_file_content] *)
Definition read_file_content (filepath : string) : M string :=
  try_except (read_file filepath)
    (fun _ => raise (Exn FileNotFoundError
                       ("Error: File not found at " +:+ filepath))).

(** [_read_prompt_files]: the prompts, in the order of the tuple it
    returns. *)
Definition _read_prompt_files : M (string * string * string * string * string) :=
  do input_prompt <- read_file_content "input.txt" ;;
  do overview_prompt <- read_file_content "prompt/prompt-overview.txt" ;;
  do original_podscript_prompt <- read_file_content "prompt/prompt-podscript.txt" ;;
  do story_overview_prompt <- read_file_content "prompt/prompt-story-overview.txt" ;;
  do story_podscript_prompt <- read_file_content "prompt/prompt-story-podscript.txt" ;;
  ret (input_prompt, overview_prompt, original_podscript_prompt,
       story_overview_prompt, story_podscript_prompt).

(** [_extract_custom_content] *)
Definition _extract_custom_content (input_prompt_content : string)
    : string * string :=
  let custom_begin_tag := "```custom-begin" in
  let custom_end_tag := "```custom-end" in
  match PyStr.find_sub custom_begin_tag input_prompt_content with
  | Some start_index =>
      let from := (start_index + String.length custom_begin_tag)%nat in
      match PyStr.find_sub_from custom_end_tag input_prompt_content from with
      | Some end_index =>
          (PyStr.strip
             (PyStr.take (end_index - from) (PyStr.drop from input_prompt_content)),
           PyStr.strip
             (PyStr.drop (end_index + String.length custom_end_tag)
                input_prompt_content))
      | None => ("", input_prompt_content)
      end
  | None => ("", input_prompt_content)
  end.

(** [_prepare_podcast_prompts]: the prompt of the script request; the
    speaker briefing of [generate_speaker_id_text] comes first in it. *)
Definition _prepare_podcast_prompts (config_data : config)
    (original_podscript_prompt custom_content : string)
    (usetime output_language : option string) : result string :=
  let pod_users := default [] (cfg_podUsers config_data) in
  let voices := default [] (cfg_voices config_data) in
  let turn_pattern := default "random" (cfg_turnPattern config_data) in
  let prompt :=
    PyStr.replace "{{numSpeakers}}" (pretty (length pod_users))
      original_podscript_prompt in
  let prompt := PyStr.replace "{{turnPattern}}" turn_pattern prompt in
  let usetime := default "5-6 minutes" usetime in
  let prompt := PyStr.replace "{{usetime}}" usetime prompt in
  let output_language :=
    default "Make sure the input language is set as the output language"
      output_language in
  let prompt := PyStr.replace "{{outlang}}" output_language prompt in
  match Speakers.generate_speaker_id_text pod_users voices with
  | Raise e => Raise e
  | Ok speaker_id_info =>
      Ok (speaker_id_info +:+ Concat.newline +:+ Concat.newline
          +:+ custom_content +:+ Concat.newline +:+ Concat.newline +:+ prompt)
  end.

(** The providers for which [_initialize_tts_adapter] has an adapter
    class. *)
Definition supported_providers : list string :=
  ["index-tts"; "edge-tts"; "fish-audio"; "minimax"; "doubao-tts"; "gemini-tts"].

(** The script object as the list of its transcripts. *)
Definition item_of_json (t : json) : transcript :=
  {| speaker_id :=
       match Json.get "speaker_id" t with
       | JInt n => Some n
       | JBool b => Some (if b then 1 else 0)%Z
       | _ => None
       end;
     dialog :=
       match Json.get "dialog" t with
       | JStr d => d
       | _ => ""
       end |}.

Definition transcripts_of (podcast_script : json) : list transcript :=
  match Json.get "podcast_transcripts" podcast_script with
  | JArr items => item_of_json <$> items
  | _ => []
  end.

Section Api.
(** The collaborators of the pipeline. *)
Variable _load_json_config : string -> result config.
Variable getenv : string -> option string.
(** [_generate_overview_content]: the overview, the title and the tags that
    the LLM gives for the prompts, within its own three attempts. *)
Variable generate_overview : string -> string -> result (string * string * string).
(** The LLM client for the script: system prompt, user content, number of
    the request. *)
Variable chat_completion : string -> string -> nat -> result string.
Variable raw_decode : string -> option (json * nat).
(** The adapter that [_initialize_tts_adapter] builds for a supported
    provider, or the [ValueError] of an incomplete configuration. *)
Variable make_adapter : config -> string -> result adapter.
Variable sanitize : string -> string.
Variable ffmpeg : list string -> proc_outcome.
Variable ffprobe : list string -> proc_outcome.
Variable py_float : string -> option float.
Variable py_str : float -> string.
(** [uuid.uuid4()] of the file list and of the merge, and [time.time()]. *)
Variable file_list_id : string.
Variable merge_id : string.
Variable timestamp : Z.

(** [_prepare_openai_settings] *)
Definition _prepare_openai_settings (args : arguments) (config_data : config)
    : result (string * option string * string) :=
  let api_key :=
    Speakers.py_or (Speakers.py_or (arg_api_key args) (cfg_api_key config_data))
      (getenv "OPENAI_API_KEY") in
  let base_url :=
    Speakers.py_or (Speakers.py_or (arg_base_url args) (cfg_base_url config_data))
      (getenv "OPENAI_BASE_URL") in
  let model := Speakers.py_or (arg_model args) (cfg_model config_data) in
  let model := if truthy model then default "" model else "gpt-3.5-turbo" in
  if truthy api_key then Ok (default "" api_key, base_url, model)
  else Raise (Exn ValueError
                "Error: OpenAI API key is not set. Please provide it via --api-key, in your config file, or as an environment variable (OPENAI_API_KEY).").

(** The loop of [_initialize_tts_adapter] over the providers. *)
Fixpoint adapters_for (config_data : config) (providers : list string)
    (adapters_map : gmap string adapter) : result (gmap string adapter) :=
  match providers with
  | [] => Ok adapters_map
  | provider :: rest =>
      if bool_decide (provider ∈ supported_providers) then
        match make_adapter config_data provider with
        | Raise e => Raise e
        | Ok a => adapters_for config_data rest (<[provider := a]> adapters_map)
        end
      else Raise (Exn ValueError ("Unsupported TTS provider: " +:+ provider))
  end.

Definition _initialize_tts_adapter (config_data : config)
    : result (gmap string adapter) :=
  if negb (truthy (cfg_tts_provider config_data))
  then Raise (Exn ValueError "TTS provider is not specified in the configuration.")
  else
    let providers :=
      PyStr.strip <$> PyStr.split_commas (default "" (cfg_tts_provider config_data)) in
    adapters_for config_data providers ∅.

(** The stages of [generate_podcast_audio_api] from the script on:
    synthesis, the file list, the merge and the duration of the result. *)
Definition synthesize_and_merge (podcast_script : json) (config_data : config)
    (tts_adapter : gmap string adapter) (threads : Z)
    (sched : Orchestrator.schedule) : M (string * option float) :=
  let transcripts := transcripts_of podcast_script in
  do audio_files <-
     Orchestrator._generate_all_audio_files sanitize ffmpeg ffprobe py_float
       py_str transcripts config_data tts_adapter threads true sched ;;
  do file_list_path_created <-
     Concat._create_ffmpeg_file_list file_list_id audio_files
       (Z.of_nat (length transcripts)) ;;
  do output_audio_filepath <-
     Concat.merge_audio_files ffmpeg merge_id timestamp file_list_path_created ;;
  do audio_duration_seconds <-
     Trim.get_audio_duration ffprobe py_float
       (PyStr.path_join module_output_dir output_audio_filepath) ;;
  ret (output_audio_filepath, audio_duration_seconds).

Definition generate_podcast_audio_api (args : arguments) (config_path : string)
    (input_txt_content : string) (podUsers : list pod_user)
    (sched : Orchestrator.schedule) : M task_results :=
  do config_data <-
     lift (Configuration._load_configuration_path _load_json_config
             config_path (Some podUsers)) ;;
  let config_data := set_podUsers podUsers config_data in
  do settings <- lift (_prepare_openai_settings args config_data) ;;
  do prompts <- _read_prompt_files ;;
  let '(_, overview_prompt, original_podscript_prompt, _, _) := prompts in
  let '(custom_content, input_prompt) := _extract_custom_content input_txt_content in
  do podscript_prompt <-
     lift (_prepare_podcast_prompts config_data original_podscript_prompt
             custom_content (arg_usetime args) (arg_output_language args)) ;;
  do overview <- lift (generate_overview overview_prompt input_prompt) ;;
  let '(overview_content, title, tags) := overview in
  do script <-
     Script._generate_podcast_script raw_decode
       (chat_completion podscript_prompt overview_content) ;;
  do tts_adapter <- lift (_initialize_tts_adapter config_data) ;;
  match script with
  | None => raise (Exn AttributeError "'NoneType' object has no attribute 'get'")
  | Some podcast_script =>
      do merged <-
         synthesize_and_merge podcast_script config_data tts_adapter
           (arg_threads args) sched ;;
      ret {| output_audio_filepath := fst merged;
             overview_content := overview_content;
             podcast_script := podcast_script;
             podUsers := podUsers;
             audio_duration := snd merged;
             title := title;
             tags := tags |}
  end.

End Api.

End Pipeline.


(** ** The overview: [_generate_overview_content] *)

Module Overview.

(** [s.split(sep)] for a separator of one character. *)
Fixpoint split_on_aux (sep : ascii) (cur : string) (s : string) : list string :=
  match s with
  | String c s' =>
      if Ascii.eqb c sep
      then String.rev cur :: split_on_aux sep "" s'
      else split_on_aux sep (String c cur) s'
  | EmptyString => [String.rev cur]
  end.
Definition split_on (sep : ascii) (s : string) : list string :=
  split_on_aux sep "" s.

(** The loop [for i in range(1, min(len(lines), 4))] over the indices
    still to visit: the tags and the overview behind them at the [break],
    or [None] when the loop ends without it. *)
Fixpoint tags_loop (lines : list string) (indices : list nat)
    : option (string * string) :=
  match indices with
  | [] => None
  | i :: rest =>
      let current_tags := PyStr.strip (default "" (lines !! i)) in
      if negb (String.eqb current_tags "") then
        Some (current_tags,
              PyStr.strip (PyStr.join Concat.newline (drop (i + 1) lines)))
      else tags_loop lines rest
  end.

(** The title, the tags and the overview that are read from a response:
    the overview, the title, the tags, in the order of the tuple that is
    returned. *)
Definition parse_overview (response : string) : string * string * string :=
  let lines := split_on "010" (PyStr.strip response) in
  let title :=
    match lines with
    | first :: _ => PyStr.strip first
    | [] => ""
    end in
  match tags_loop lines (seq 1 (Nat.min (length lines) 4 - 1)) with
  | Some (tags, overview_content) => (overview_content, title, tags)
  | None =>
      (PyStr.strip (PyStr.join Concat.newline (drop 1 lines)), title, "")
  end.

Section Generate.
(** The decoder, which the quality gate takes for its other branch, and
    the LLM client: [chat_completion k] is the joined response to the
    [k]-th request (from 0) of a call, or the exception the request
    raises. *)
Variable raw_decode : string -> option (json * nat).
Variable chat_completion : nat -> result string.

Definition overview_max_retries : nat := 3.

Definition unacceptable_overview_error : exn :=
  Exn RuntimeError
    ("Failed to generate acceptable overview content after "
     +:+ pretty overview_max_retries
     +:+ " attempts. Content may be too short or missing required elements.").

Definition overview_failed_error (e : exn) : exn :=
  Exn RuntimeError
    ("Error generating overview after " +:+ pretty overview_max_retries
     +:+ " attempts: " +:+ exn_msg e).

(** How the [try] block of one round ends. *)
Inductive round_outcome :=
  | RReturn (overview : string * string * string)
  | RContinue
  | RRaise (e : exn).

(** The [try] block of one round, for the outcome of its request: the
    value of [attempt] when the block ends, and how it ends. *)
Definition overview_round (attempt : nat) : nat * round_outcome :=
  match chat_completion attempt with
  | Raise e => (attempt, RRaise e)
  | Ok response =>
      let '(overview_content, title, tags) := parse_overview response in
      match Script._is_content_quality_acceptable raw_decode overview_content
              title tags "overview" with
      | Raise e => (attempt, RRaise e)
      | Ok true => (attempt, RReturn (overview_content, title, tags))
      | Ok false =>
          let attempt := S attempt in
          if (overview_max_retries <=? attempt)%nat
          then (attempt, RRaise unacceptable_overview_error)
          else (attempt, RContinue)
      end
  end.

(** [while attempt < max_retries]: a round and its [except] clause. Every
    round that comes back to the loop has raised [attempt], so
    [max_retries] rounds are enough. The loop left without a [return]
    gives [None]. *)
Fixpoint overview_loop (fuel : nat) (attempt : nat)
    : M (option (string * string * string)) :=
  match fuel with
  | O => ret None
  | S fuel' =>
      if (overview_max_retries <=? attempt)%nat then ret None
      else
        do _ <- emit EvChat ;;
        let '(attempt, outcome) := overview_round attempt in
        match outcome with
        | RReturn overview => ret (Some overview)
        | RContinue => overview_loop fuel' attempt
        | RRaise e =>
            let attempt := S attempt in
            if (overview_max_retries <=? attempt)%nat
            then raise (overview_failed_error e)
            else
              do _ <- time_sleep (1 * Z.of_nat attempt) ;;
              overview_loop fuel' attempt
        end
  end.

Definition _generate_overview_content
    : M (option (string * string * string)) :=
  overview_loop overview_max_retries 0.

End Generate.

End Overview.

(** ** The configuration of the command line: [_load_configuration] *)

Module Cli.

(** [_load_configuration], for what [select_json_config] gives when it is
    asked for the path as well: the path of the file that the user
    selected, with the content of the file, or an exception. *)
Definition _load_configuration (select_json_config : result (string * config))
    : result config :=
  match select_json_config with
  | Raise e => Raise e
  | Ok (selected_file_path, config_data) =>
      let file_name := PyStr.basename selected_file_path in
      let tts_provider := PyStr.splitext_root file_name in
      Ok (set_tts_provider tts_provider config_data)
  end.

End Cli.


(** * Vocabulary of the properties

    The notions in which the properties of the program are stated: counts
    of the calls in a log, the traces of the runs, and the states that the
    file system is left in. *)

Local Open Scope list_scope.

(** ** Logs *)

Definition is_synthesize (e : event) : bool :=
  match e with EvSynthesize _ _ => true | _ => false end.

(** The number of requests to TTS adapters in a log. *)
Definition synth_calls (log : list event) : nat :=
  length (List.filter is_synthesize log).

Definition is_chat (e : event) : bool :=
  match e with EvChat => true | _ => false end.

(** The number of requests to the LLM in a log. *)
Definition chat_calls (log : list event) : nat :=
  length (List.filter is_chat log).

(** The events of worker threads: requests to adapters and the sleeps
    between them. *)
Definition is_worker_event (e : event) : bool :=
  match e with
  | EvSynthesize _ _ | EvSleep _ => true
  | _ => false
  end.

(** The world after more events. *)
Definition logged (w : world) (trace : list event) : world :=
  {| w_files := w_files w; w_log := w_log w ++ trace |}.

(** A computation that only adds to the log. *)
Definition extends_log {A} (m : M A) : Prop :=
  ∀ w, ∃ trace, w_log (snd (m w)) = w_log w ++ trace.

(** ** Synthesis tasks *)

(** [n] failed requests, the [k]-th of them followed by a sleep of
    [2 ^ k] seconds, starting with request number [start]. *)
Fixpoint calls_with_backoff (provider : string) (rq : tts_request)
    (start n : nat) : list event :=
  match n with
  | O => []
  | S n' =>
      EvSynthesize provider rq :: EvSleep (2 ^ Z.of_nat start)
        :: calls_with_backoff provider rq (S start) n'
  end.

Section RetryVocabulary.
Import Synthesis.

(** How a run of the retry loop ends after [n] failed requests that were
    retried: the last request, number [last], decides. *)
Definition final_outcome (a : adapter) (rq : tts_request)
    (speaker_id max_retries : Z) (last : nat) (r : result (option string))
    : Prop :=
  match a rq last with
  | Ok temp_audio_file => r = Ok (Some temp_audio_file)
  | Raise e =>
      if is_RuntimeError e
      then Z.of_nat last = (max_retries - 1)%Z ∧
           r = Raise (max_retries_error max_retries speaker_id (rq_voice_code rq))
      else r = Raise (unexpected_error speaker_id (rq_voice_code rq) last e)
  end.

End RetryVocabulary.

(** ** Commands *)

(** What [subprocess.run] gives for a command, as a function of the
    outcome of the program. *)
Definition run_outcome (tool : list string → proc_outcome)
    (argv : list string) (check : bool) : run_result :=
  match tool argv with
  | NotInstalled => Missing
  | Exited rc out err _ =>
      if check && negb (rc =? 0)%Z then Failed rc err else Completed out err
  end.

(** The program exits with status 0 on a command. *)
Definition exits_ok (tool : list string → proc_outcome) (argv : list string)
    : Prop :=
  ∃ out err written, tool argv = Exited 0 out err written.

Section TrimVocabulary.
Import Trim.
Variable ffprobe : list string → proc_outcome.
Variable py_float : string → option float.
Variable py_str : float → string.

(** The duration that [get_audio_duration] determines for a file, as a
    function of what ffprobe gives. *)
Definition probed_duration (filepath : string) : result (option float) :=
  match run_outcome ffprobe ["ffprobe"; "-version"] true with
  | Missing => Ok None
  | Failed rc _ => Raise (called_process_error ["ffprobe"; "-version"] rc)
  | Completed _ _ =>
      match run_outcome ffprobe (ffprobe_duration_command filepath) true with
      | Completed stdout _ => Ok (py_float (PyStr.strip stdout))
      | Failed _ _ | Missing => Ok None
      end
  end.

(** The commands that [get_audio_duration] runs for a file. *)
Definition probe_trace (filepath : string) : list event :=
  match run_outcome ffprobe ["ffprobe"; "-version"] true with
  | Completed _ _ =>
      [EvRun ["ffprobe"; "-version"]; EvRun (ffprobe_duration_command filepath)]
  | Failed _ _ | Missing => [EvRun ["ffprobe"; "-version"]]
  end.

(** The log of a run of [trim_audio_silence] that ends with the copy of
    the clip: the version check, the silence detection, the two probes of
    the duration and the copy command; no command cuts the clip. *)
Definition copy_fallback_trace (input_filepath output_filepath : string)
    : list event :=
  [EvRun ["ffmpeg"; "-version"];
   EvRun (silencedetect_command py_str input_filepath (-60) 0.5%float)]
  ++ probe_trace input_filepath ++ probe_trace input_filepath
  ++ [EvRun (copy_command input_filepath output_filepath)].

(** The log of a run that cuts the clip to a window. *)
Definition cut_trace (input_filepath output_filepath : string)
    (window : float * float) : list event :=
  [EvRun ["ffmpeg"; "-version"];
   EvRun (silencedetect_command py_str input_filepath (-60) 0.5%float)]
  ++ probe_trace input_filepath ++ probe_trace input_filepath
  ++ [EvRun (trim_command py_str input_filepath output_filepath
               (fst window) (snd window))].

End TrimVocabulary.

(** ** The script *)

Section ScriptVocabulary.
Import Script.
Variable raw_decode : string → option (json * nat).

(** The scan from position [idx] on. *)
Definition scan_from (s : string) (idx : nat) : option (json * string) :=
  scan_loop raw_decode (String.length s - idx) s idx.

(** The error of the rejection when a response fails for its structure:
    no script object in it, an empty [podcast_transcripts], or the quality
    gate saying no. *)
Definition structural_failure (text : string) : option exn :=
  match extract_script raw_decode text with
  | None => Some (no_script_error text)
  | Some (podcast_script, valid_json_str) =>
      let transcripts := Json.get "podcast_transcripts" podcast_script in
      if negb (Json.truth transcripts) then Some empty_script_error
      else
        match Json.len transcripts,
              _is_content_quality_acceptable raw_decode valid_json_str "" "" "script" with
        | Some _, Ok false => Some unacceptable_script_error
        | _, _ => None
        end
  end.

End ScriptVocabulary.

(** ** The merge *)

Section CleanupVocabulary.
Import Concat.

(** The files that are left when [paths] are removed. *)
Definition without (paths : list string) (files : gmap string string)
    : gmap string string :=
  foldl (fun m p => delete p m) files paths.

(** The files after the [finally] block. *)
Definition cleaned (file_list_path output_audio_filepath_wav : string)
    (files : gmap string string) : gmap string string :=
  delete output_audio_filepath_wav
    (match files !! file_list_path with
     | Some content => delete file_list_path (without (listed_paths content) files)
     | None => files
     end).

End CleanupVocabulary.

(** ** The orchestrator *)

Section OrchestratorVocabulary.
Import Orchestrator.
Variable sanitize : string → string.
Variable ffmpeg : list string → proc_outcome.
Variable ffprobe : list string → proc_outcome.
Variable py_float : string → option float.
Variable py_str : float → string.
Variable transcripts : list transcript.
Variable config_data : config.
Variable tts_adapter : gmap string adapter.
Variable enable_trim_silence : bool.

Abbreviation max_retries := (default 3%Z (cfg_tts_max_retries config_data)).
Abbreviation future_result :=
  (future_result sanitize transcripts config_data tts_adapter max_retries).
Abbreviation trim :=
  (Trim.trim_audio_silence_default ffmpeg ffprobe py_float py_str).

(** The task of item [i] gives the file [p], and the trimming of [p]
    succeeds, in every world. *)
Definition item_succeeds (i : nat) (p : string) : Prop :=
  p ≠ "" ∧
  (∀ w, ∃ w', future_result i w = (Ok (Some p), w')) ∧
  (∀ w, ∃ w', trim p (trimmed_path p) enable_trim_silence w = (Ok tt, w')).

(** The dict after the rounds of [order], each adding the trimmed file
    of its item. *)
Definition collected (paths : list string) (order : list nat)
    (d : gmap nat string) : gmap nat string :=
  foldl (fun d i =>
           match paths !! i with
           | Some p => <[i := trimmed_path p]> d
           | None => d
           end) d order.

(** The futures that are cancelled when the loop is left: those that no
    worker has started. *)
Definition pending_indices (at_abort : nat → Orchestrator.future_state)
    (indices : list nat) : list nat :=
  List.filter (fun i => negb (Orchestrator.is_started (at_abort i))) indices.

End OrchestratorVocabulary.

(** ** The overview *)

Section OverviewVocabulary.
Import Overview.
Variable chat_completion : nat → result string.

(** What a run of the overview loop may end with: an overview that the
    gate accepts, read from the response to one of the three requests, or
    a [RuntimeError]. *)
Definition overview_outcome (r : result (option (string * string * string)))
    : Prop :=
  match r with
  | Ok (Some (overview_content, title, tags)) =>
      (20 ≤ PyStr.len (PyStr.strip overview_content))%nat ∧
      (2 ≤ PyStr.len (PyStr.strip title))%nat ∧
      (1 ≤ PyStr.len (PyStr.strip tags))%nat ∧
      ∃ k response,
        (k < 3)%nat ∧ chat_completion k = Ok response ∧
        parse_overview response = (overview_content, title, tags)
  | Ok None => False
  | Raise e => exn_kind e = RuntimeError
  end.

End OverviewVocabulary.

(** * Concrete collaborators

    Stand-ins for the external collaborators, for runs that compute. *)

Module Demo.

(** A text with every apostrophe turned into a double quote: JSON texts
    are written with apostrophes below. *)
Definition quoted (s : string) : string :=
  string_of_list_ascii
    ((fun c => if Ascii.eqb c "'" then ascii_of_nat 34 else c)
       <$> list_ascii_of_string s).

(** [float(text)] for a decimal numeral: digits, and optionally a dot and
    digits, with an optional minus sign. The numeral is the quotient of an
    integer below [2^53] by a power of ten up to [10^18]; both are floats,
    so their correctly rounded quotient is the float nearest to the
    numeral. Other texts are outside this stand-in. *)
Definition float_of_decimal (text : string) : option float :=
  let '(negative, body) :=
    match text with
    | String c r => if Decoder.is_char 45 c then (true, r) else (false, text)
    | EmptyString => (false, text)
    end in
  let '(whole, r) := Trim.span_digits body in
  let frac :=
    match r with
    | EmptyString => Some ""
    | String c r' =>
        if Decoder.is_char 46 c then
          match Trim.span_digits r' with
          | (String d ds, EmptyString) => Some (String d ds)
          | _ => None
          end
        else None
    end in
  match whole, frac with
  | String _ _, Some frac =>
      let m := Decoder.digits_value 0 (whole +:+ frac) in
      let k := String.length frac in
      if (m <? 2 ^ 53)%Z && (k <=? 18)%nat then
        let x := PrimFloat.div (PrimFloat.of_uint63 (Uint63.of_Z m))
                   (PrimFloat.of_uint63 (Uint63.of_Z (10 ^ Z.of_nat k))) in
        Some (if negative then PrimFloat.opp x else x)
      else None
  | _, _ => None
  end.

Definition raw_decode : string -> option (json * nat) :=
  Decoder.raw_decode float_of_decimal.

(** A script object with one transcript, and the value it decodes to. *)
Definition script_text : string :=
  quoted "{'podcast_transcripts':[{'speaker_id':0,'dialog':'Hello'}]}".

Definition script_value : json :=
  JObj [("podcast_transcripts",
         JArr [JObj [("speaker_id", JInt 0); ("dialog", JStr "Hello")]])].

(** A script object whose only dialog is blank: the quality gate rejects
    it. *)
Definition blank_text : string :=
  quoted "{'podcast_transcripts':[{'speaker_id':0,'dialog':' '}]}".

(** An LLM that answers every request with the blank script, one whose
    requests all fail, and one that fails, then answers with the blank
    script, then with the script. *)
Definition chat_blank : nat -> result string := fun _ => Ok blank_text.

Definition chat_down : nat -> result string :=
  fun _ => Raise (Exn OtherError "Connection error.").

Definition chat_flaky : nat -> result string :=
  fun k =>
    match k with
    | 0%nat => Raise (Exn OtherError "Connection error.")
    | 1%nat => Ok blank_text
    | _ => Ok script_text
    end.


Definition writes_output (argv : list string) : option string :=
  if bool_decide (List.last argv "" ∈ ["-version"; "-"]) then None
  else Some "audio".

Definition ffmpeg_ok : list string -> proc_outcome :=
  fun argv => Exited 0 "" "" (writes_output argv).


(** A file list that names one clip, and a world that holds both. *)
Definition file_list_path : string := "output/file_list_0001.txt".



(** An ffprobe that reports 3.5 seconds for every file. *)
Definition ffprobe_ok : list string -> proc_outcome :=
  fun _ => Exited 0 ("3.500000" +:+ Concat.newline) "" None.

(** [str(x)] for the floats of the runs below. *)
Definition str_of_float (x : float) : string :=
  if PrimFloat.eqb x 0.5%float then "0.5"
  else if PrimFloat.eqb x 3.5%float then "3.5"
  else if PrimFloat.eqb x 0%float then "0.0"
  else "nan".

(** The allow-list substitution on dialogs that it leaves as they are. *)
Definition sanitize_plain (dialog : string) : string := dialog.

(** Two speakers of one provider, and the voices of both. *)
Definition roster : list pod_user :=
  [ {| pu_code := Some "zh-CN-XiaoxiaoNeural"; pu_owner := Some "edge-tts";
       pu_role := Some "host" |};
    {| pu_code := Some "zh-CN-YunxiNeural"; pu_owner := Some "edge-tts";
       pu_role := None |} ].

Definition catalogue : list voice :=
  [ {| v_code := Some "zh-CN-XiaoxiaoNeural"; v_usedname := None;
       v_alias := Some "Xiaoxiao"; v_name := Some "XiaoxiaoNeural";
       v_volume_adjustment := Some 0.5%float; v_speed_adjustment := None |};
    {| v_code := Some "zh-CN-YunxiNeural"; v_usedname := Some "Yunxi";
       v_alias := None; v_name := None;
       v_volume_adjustment := None; v_speed_adjustment := None |} ].

Definition configuration (tts_max_retries : option Z) : config :=
  {| cfg_podUsers := Some roster;
     cfg_voices := Some catalogue;
     cfg_turnPattern := None;
     cfg_tts_max_retries := tts_max_retries;
     cfg_tts_provider := Some "edge-tts";
     cfg_api_key := Some "sk-demo";
     cfg_base_url := None;
     cfg_model := None |}.

(** An adapter that writes the clip of a dialog at once, one that fails
    twice before it does, and one whose service is down. *)
Definition clip_of (rq : tts_request) : string :=
  "output/" +:+ rq_voice_code rq +:+ "_" +:+ rq_text rq +:+ ".mp3".

Definition adapter_ok : adapter := fun rq _ => Ok (clip_of rq).

Definition adapter_flaky : adapter :=
  fun rq k =>
    match k with
    | 0%nat | 1%nat => Raise (Exn RuntimeError "TTS API request failed")
    | _ => Ok (clip_of rq)
    end.

Definition adapter_down : adapter :=
  fun _ _ => Raise (Exn RuntimeError "TTS API request failed").

Definition adapters (a : adapter) : gmap string adapter := {[ "edge-tts" := a ]}.

(** The script of two lines, one for each speaker; and a script whose
    second line names a speaker that the roster does not have. *)
Definition two_lines : list transcript :=
  [ {| speaker_id := Some 0%Z; dialog := "Hello" |};
    {| speaker_id := Some 1%Z; dialog := "Hi there" |} ].

Definition two_lines_text : string :=
  quoted "{'podcast_transcripts':[{'speaker_id':0,'dialog':'Hello'},{'speaker_id':1,'dialog':'Hi there'}]}".

Definition stray_speaker_text : string :=
  quoted "{'podcast_transcripts':[{'speaker_id':0,'dialog':'Hello'},{'speaker_id':5,'dialog':'Hi there'}]}".

(** The values that the two texts decode to. *)
Definition two_lines_value : json :=
  JObj [("podcast_transcripts",
         JArr [JObj [("speaker_id", JInt 0); ("dialog", JStr "Hello")];
               JObj [("speaker_id", JInt 1); ("dialog", JStr "Hi there")]])].

Definition stray_speaker_value : json :=
  JObj [("podcast_transcripts",
         JArr [JObj [("speaker_id", JInt 0); ("dialog", JStr "Hello")];
               JObj [("speaker_id", JInt 5); ("dialog", JStr "Hi there")]])].

(** One worker, which fails on the first line before it has started the
    second. *)
Definition fails_at_first : Orchestrator.schedule :=
  {| Orchestrator.completion_order := [0; 1]%nat;
     Orchestrator.at_abort :=
       fun i => match i with
                | 0%nat => Orchestrator.Finished
                | _ => Orchestrator.Pending
                end |}.

(** The clips that [adapter_ok] writes for the two lines. *)
Definition two_clips : list string :=
  ["output/zh-CN-XiaoxiaoNeural_Hello.mp3";
   "output/zh-CN-YunxiNeural_Hi there.mp3"].

(** Two workers, the second line done first. *)
Definition second_first : Orchestrator.schedule :=
  {| Orchestrator.completion_order := [1; 0]%nat;
     Orchestrator.at_abort := fun _ => Orchestrator.Finished |}.

(** One worker: the lines are done in their order. *)
Definition in_order : Orchestrator.schedule :=
  {| Orchestrator.completion_order := [0; 1]%nat;
     Orchestrator.at_abort := fun _ => Orchestrator.Finished |}.



Definition silence_report : string :=
  "[silencedetect @ 0x55d0] silence_start: 0.000000" +:+ Concat.newline
  +:+ "[silencedetect @ 0x55d0] silence_end: 0.550000 | silence_duration: 0.550000"
  +:+ Concat.newline.

Definition ffmpeg_silent_clip : list string -> proc_outcome :=
  fun argv =>
    if bool_decide ("-af" ∈ argv) then Exited 0 "" silence_report None
    else ffmpeg_ok argv.

(** A roster without owners, and a configuration file of another
    provider. *)
Definition roster_without_owners : list pod_user :=
  [ {| pu_code := Some "zh-CN-XiaoxiaoNeural"; pu_owner := None;
       pu_role := Some "host" |};
    {| pu_code := Some "zh-CN-YunxiNeural"; pu_owner := Some "";
       pu_role := None |} ].

Definition load_json_config : string -> result config :=
  fun _ => Ok (configuration None).

(** A roster whose second speaker has a voice that the catalogue does
    not have. *)
Definition roster_with_unknown_voice : list pod_user :=
  [ {| pu_code := Some "zh-CN-XiaoxiaoNeural"; pu_owner := Some "edge-tts";
       pu_role := Some "host" |};
    {| pu_code := Some "zh-CN-UnknownNeural"; pu_owner := Some "edge-tts";
       pu_role := None |} ].

(** The collaborators of the pipeline: no environment variables, an
    overview, an LLM that answers with a given script text, and an adapter
    for every supported provider. *)
Definition getenv : string -> option string := fun _ => None.

Definition generate_overview : string -> string -> result (string * string * string) :=
  fun _ _ => Ok ("An overview of the episode.", "Episode", "#ai").

Definition chat_with (text : string) : string -> string -> nat -> result string :=
  fun _ _ _ => Ok text.

Definition make_adapter (a : adapter) : config -> string -> result adapter :=
  fun _ _ => Ok a.

Definition arguments_one_thread : Pipeline.arguments :=
  {| Pipeline.arg_api_key := None;
     Pipeline.arg_base_url := None;
     Pipeline.arg_model := None;
     Pipeline.arg_threads := 1;
     Pipeline.arg_output_language := None;
     Pipeline.arg_usetime := None |}.

(** A world that holds the prompt files. *)
Definition world_with_prompts : world :=
  {| w_files :=
       <["input.txt" := "A text about AI."]>
       (<["prompt/prompt-overview.txt" := "Summarise in {{outlang}}."]>
       (<["prompt/prompt-podscript.txt" := "Write for {{numSpeakers}} speakers."]>
       (<["prompt/prompt-story-overview.txt" := "Summarise the story."]>
       (<["prompt/prompt-story-podscript.txt" := "Tell the story."]> ∅))));
     w_log := [] |}.

(** The world before a run: no files, nothing logged. *)
Definition world0 : world := {| w_files := ∅; w_log := [] |}.

End Demo.

(** * More concrete collaborators

    Stand-ins for the runs of the further properties. *)

Module Samples.

(** Two voices of one code: the later one has the adjustments. *)
Definition voice_first : voice :=
  {| v_code := Some "en-US-AvaNeural"; v_usedname := None;
     v_alias := Some "Ava"; v_name := None;
     v_volume_adjustment := None; v_speed_adjustment := None |}.

Definition voice_second : voice :=
  {| v_code := Some "en-US-AvaNeural"; v_usedname := Some "Ava";
     v_alias := None; v_name := None;
     v_volume_adjustment := Some 0.5%float; v_speed_adjustment := None |}.

(** An ffmpeg whose cut fails. *)
Definition ffmpeg_cut_fails : list string -> proc_outcome :=
  fun argv =>
    if bool_decide ("-ss" ∈ argv)
    then Exited 1 "" "Conversion failed!" None
    else Demo.ffmpeg_silent_clip argv.

(** [str(x)] for the floats of a cut from 0.35 to 3.5 seconds. *)
Definition str_of_float (x : float) : string :=
  if PrimFloat.eqb x 0.5%float then "0.5"
  else if PrimFloat.eqb x 3.5%float then "3.5"
  else if PrimFloat.eqb x (PrimFloat.sub 0.55 0.2)%float then "0.35000000000000003"
  else "nan".

(** The trimmed clips of the two lines, and a world that holds them. *)
Definition trimmed_clips : list string :=
  ["output/trimmed_a.mp3"; "output/trimmed_b.mp3"].

Definition world_with_trimmed_clips : world :=
  {| w_files := <["output/trimmed_a.mp3" := "audio"]>
                  (<["output/trimmed_b.mp3" := "audio"]> ∅);
     w_log := [] |}.

(** A configuration whose roster names no owner. *)
Definition ownerless_configuration : config :=
  set_podUsers Demo.roster_without_owners (Demo.configuration None).

(** A line of the first speaker. *)
Definition first_line : transcript :=
  {| speaker_id := Some 0%Z; dialog := "Hello" |}.

(** A response with a title, tags and a body, and an LLM that gives it
    after a request that fails and a response of one line. *)
Definition overview_response : string :=
  "The Episode" +:+ Concat.newline +:+ "#ai #podcast" +:+ Concat.newline
  +:+ "An overview of the episode, long enough to pass.".

Definition chat_overview : nat -> result string :=
  fun k =>
    match k with
    | 0%nat => Raise (Exn OtherError "Connection error.")
    | 1%nat => Ok "Only a title"
    | _ => Ok overview_response
    end.

(** White space outside ASCII: U+3000 and U+00A0. *)
Definition ideographic_space : string :=
  String "227" (String "128" (String "128" "")).

Definition no_break_space : string := String "194" (String "160" "").

(** An overview of 15 characters, in 45 bytes. *)
Definition short_chinese_overview : string := "这个概述只有十五个汉字长度不够".

(** A script whose dialog is one ideographic space. *)
Definition blank_dialog_text : string :=
  Demo.quoted "{'podcast_transcripts':[{'speaker_id':0,'dialog':'"
  +:+ ideographic_space +:+ Demo.quoted "'}]}".

End Samples.

(** * Properties *)

(** ** Configuration loading *)

Section ConfigurationFacts.
Import Configuration.

Lemma named_owners_spec (pod_users : list pod_user) (o : string) :
  o ∈ named_owners pod_users ↔
  ∃ u, u ∈ pod_users ∧ pu_owner u = Some o ∧ o ≠ "".
Proof.
  unfold named_owners. rewrite list_elem_of_omap. split.
  - intros (u & Hu & Hsome). exists u. split; [done|].
    destruct (pu_owner u) as [s|] eqn:Ho; simpl in Hsome; [|done].
    destruct (String.eqb s "") eqn:He; simpl in Hsome; [done|].
    injection Hsome as ->. split; [done|].
    intros ->. by rewrite String.eqb_refl in He.
  - intros (u & Hu & Ho & Hne). exists u. split; [done|].
    rewrite Ho. simpl. destruct (String.eqb o "") eqn:He; simpl; [|done].
    apply String.eqb_eq in He. done.
Qed.

Lemma owners_spec (pod_users : list pod_user) :
  NoDup (owners pod_users) ∧
  ∀ o, o ∈ owners pod_users ↔
       ∃ u, u ∈ pod_users ∧ pu_owner u = Some o ∧ o ≠ "".
Proof.
  unfold owners. split; [apply NoDup_elements|].
  intros o. rewrite elem_of_elements, elem_of_list_to_set.
  apply named_owners_spec.
Qed.

Lemma truthy_owner (u : pod_user) :
  truthy (pu_owner u) = true ↔ ∃ o, pu_owner u = Some o ∧ o ≠ "".
Proof.
  unfold truthy. destruct (pu_owner u) as [s|]; split.
  - intros H. exists s. split; [done|]. intros ->. done.
  - intros (o & [= <-] & Hne). destruct (String.eqb s "") eqn:He; [|done].
    apply String.eqb_eq in He. done.
  - done.
  - intros (o & ? & _). done.
Qed.

(** C10. Loading a configuration from a path: when no entry of the roster
    has a non-empty owner, the provider written into the configuration is
    the constant edge-tts, whatever the path and its base name are; when
    some entry names an owner, it is the distinct non-empty owners of the
    roster joined by commas. *)
Theorem load_configuration_path_provider
    (load : string → result config) (config_path : string)
    (pod_users : option (list pod_user)) (cfg : config) :
  load config_path = Ok cfg →
  let roster :=
    match pod_users with
    | Some l => l
    | None => default [] (cfg_podUsers cfg)
    end in
  ∃ cfg',
    _load_configuration_path load config_path pod_users = Ok cfg' ∧
    ((∀ u, u ∈ roster → truthy (pu_owner u) = false) →
     cfg_tts_provider cfg' = Some "edge-tts") ∧
    ((∃ u, u ∈ roster ∧ truthy (pu_owner u) = true) →
     ∃ distinct_owners,
       NoDup distinct_owners ∧
       (∀ o, o ∈ distinct_owners ↔
             ∃ u, u ∈ roster ∧ pu_owner u = Some o ∧ o ≠ "") ∧
       cfg_tts_provider cfg' = Some (PyStr.join "," distinct_owners)).
Proof.
  intros Hload roster. unfold _load_configuration_path. rewrite Hload.
  fold roster. eexists. split; [reflexivity|]. simpl.
  destruct (owners_spec roster) as [Hnd Hmem].
  split.
  - intros Hnone.
    assert (owners roster = []) as Hempty.
    { destruct (owners roster) as [|o l] eqn:Ho; [done|].
      assert (o ∈ o :: l) as Hin by left.
      apply Hmem in Hin as (u & Hu & Hsome & Hne).
      specialize (Hnone u Hu). rewrite Hsome in Hnone. simpl in Hnone.
      destruct (String.eqb o "") eqn:He; [|done].
      apply String.eqb_eq in He. done. }
    destruct roster; [done|]. by rewrite Hempty.
  - intros (u & Hu & Ht). exists (owners roster).
    split; [done|]. split; [done|].
    apply truthy_owner in Ht as (o & Ho & Hne).
    assert (o ∈ owners roster) as Hin by (apply Hmem; eauto).
    destruct roster as [|u0 r0]; [by apply elem_of_nil in Hu|].
    destruct (owners (u0 :: r0)); [by apply elem_of_nil in Hin|done].
Qed.

End ConfigurationFacts.

(** ** The retry of one synthesis task *)

Lemma synth_calls_app (l1 l2 : list event) :
  synth_calls (l1 ++ l2) = (synth_calls l1 + synth_calls l2)%nat.
Proof. unfold synth_calls. by rewrite List.filter_app, length_app. Qed.

Lemma synth_calls_backoff (provider : string) (rq : tts_request) (start n : nat) :
  synth_calls (calls_with_backoff provider rq start n) = n.
Proof.
  revert start. induction n as [|n IH]; intros start; [done|].
  unfold synth_calls in *. simpl. by rewrite IH.
Qed.

Section RetryFacts.
Import Synthesis.
Variable sanitize : string → string.

Lemma attempt_loop_spec (provider : string) (a : adapter) (rq : tts_request)
    (speaker_id max_retries : Z) (m start : nat) (w : world) :
  Z.of_nat (start + m) = max_retries → (0 < m)%nat →
  ∃ r w' n,
    attempt_loop provider a rq speaker_id max_retries (seq start m) w = (r, w') ∧
    w_files w' = w_files w ∧
    (n < m)%nat ∧
    w_log w' = w_log w ++ calls_with_backoff provider rq start n
                       ++ [EvSynthesize provider rq] ∧
    (∀ k, (k < n)%nat →
          ∃ e, a rq (start + k)%nat = Raise e ∧ is_RuntimeError e = true) ∧
    final_outcome a rq speaker_id max_retries (start + n) r.
Proof.
  revert start w. induction m as [|m IH]; intros start w Hsum Hpos; [lia|].
  simpl. unfold bind at 1. simpl.
  destruct (a rq start) as [f|e] eqn:Hcall.
  - eexists _, _, 0%nat. split; [reflexivity|]. simpl.
    split; [done|]. split; [lia|]. split; [done|]. split; [intros; lia|].
    unfold final_outcome. rewrite Nat.add_0_r, Hcall. done.
  - destruct (is_RuntimeError e) eqn:Hrt.
    + destruct (Z.of_nat start <? max_retries - 1)%Z eqn:Hlt.
      * apply Z.ltb_lt in Hlt.
        unfold bind at 1, time_sleep, emit at 1. simpl.
        destruct (IH (S start)
                    {| w_files := w_files w;
                       w_log := (w_log w ++ [EvSynthesize provider rq])
                                ++ [EvSleep (2 ^ Z.of_nat start)] |})
          as (r & w' & n & Hrun & Hfiles & Hn & Hlog & Hfail & Hfinal);
          [lia|lia|].
        exists r, w', (S n). split; [exact Hrun|].
        split; [done|]. split; [lia|]. split.
        { rewrite Hlog. simpl. rewrite <- !app_assoc. done. }
        split.
        { intros k Hk. destruct k as [|k].
          - rewrite Nat.add_0_r. eauto.
          - replace (start + S k)%nat with (S start + k)%nat by lia.
            apply Hfail. lia. }
        replace (start + S n)%nat with (S start + n)%nat by lia. done.
      * apply Z.ltb_ge in Hlt.
        eexists _, _, 0%nat. split; [reflexivity|]. simpl.
        split; [done|]. split; [lia|]. split; [done|]. split; [intros; lia|].
        unfold final_outcome. rewrite Nat.add_0_r, Hcall, Hrt. split; [lia|done].
    + eexists _, _, 0%nat. split; [reflexivity|]. simpl.
      split; [done|]. split; [lia|]. split; [done|]. split; [intros; lia|].
      unfold final_outcome. rewrite Nat.add_0_r, Hcall, Hrt. done.
Qed.

End RetryFacts.

Section RetryPolicy.
Import Synthesis.
Variable sanitize : string → string.

Lemma raise_run {A} (e : exn) (w : world) : raise (A := A) e w = (Raise e, w).
Proof. reflexivity. Qed.

Lemma app_nil_log (w : world) : w_log w = w_log w ++ [].
Proof. by rewrite app_nil_r. Qed.

(** The task of a speaker whose id is an integer: it ends before any
    request, or it is the retry loop on the adapter of the speaker. *)
Lemma generate_audio_for_speaker_spec (sid : Z) (dialog : string)
    (config_data : config) (tts_adapter : gmap string adapter)
    (max_retries : Z) (w : world) :
  ∃ r w' trace,
    generate_audio_for_speaker sanitize sid dialog config_data tts_adapter
      max_retries w = (r, w') ∧
    w_files w' = w_files w ∧
    w_log w' = w_log w ++ trace ∧
    (trace = [] ∨
     ∃ provider a rq n,
       tts_adapter !! provider = Some a ∧
       (Z.of_nat n < max_retries)%Z ∧
       trace = calls_with_backoff provider rq 0 n ++ [EvSynthesize provider rq] ∧
       (∀ k, (k < n)%nat → ∃ e, a rq k = Raise e ∧ is_RuntimeError e = true) ∧
       final_outcome a rq sid max_retries n r).
Proof.
  unfold generate_audio_for_speaker.
  destruct (negb (truthy _)).
  { eexists _, _, []. rewrite raise_run. split; [reflexivity|].
    split; [done|]. split; [apply app_nil_log|by left]. }
  destruct (pod_user_entry config_data sid ≫= pu_owner) as [p|] eqn:Hp; simpl;
    [|eexists _, _, []; rewrite raise_run; split; [reflexivity|];
      split; [done|]; split; [apply app_nil_log|by left]].
  destruct (tts_adapter !! p) as [a|] eqn:Ha; simpl;
    [|eexists _, _, []; rewrite raise_run; split; [reflexivity|];
      split; [done|]; split; [apply app_nil_log|by left]].
  unfold py_range.
  destruct (Z.to_nat max_retries) as [|m] eqn:Hm.
  { eexists _, _, []. split; [reflexivity|]. split; [done|].
    split; [apply app_nil_log|by left]. }
  match goal with
  | |- context [attempt_loop ?pr ?ad ?rq ?s ?mr (seq 0 (S m)) w] =>
      destruct (attempt_loop_spec pr ad rq s mr (S m) 0 w)
        as (r & w' & n & Hrun & Hfiles & Hn & Hlog & Hfail & Hfinal);
        [lia|lia|];
      exists r, w', (calls_with_backoff pr rq 0 n ++ [EvSynthesize pr rq]);
      split; [exact Hrun|]; split; [done|]; split; [exact Hlog|]; right;
      exists pr, ad, rq, n
  end.
  split; [done|]. split; [lia|]. split; [done|]. split; [exact Hfail|exact Hfinal].
Qed.

End RetryPolicy.

(** ** Silence trimming *)

Lemma subprocess_run_spec (tool : list string → proc_outcome)
    (argv : list string) (cwd : string) (check : bool) (w : world) :
  ∃ w', subprocess_run tool argv cwd check w = (Ok (run_outcome tool argv check), w')
        ∧ w_log w' = w_log w ++ [EvRun argv].
Proof.
  unfold subprocess_run, run_outcome, bind, emit. simpl.
  destruct (tool argv) as [|rc out err written]; [by eexists|].
  destruct written; simpl; destruct (check && negb (rc =? 0)%Z); by eexists.
Qed.

Lemma run_outcome_ok (tool : list string → proc_outcome) (argv : list string)
    (check : bool) :
  exits_ok tool argv → ∃ out err, run_outcome tool argv check = Completed out err.
Proof.
  intros (out & err & written & H). unfold run_outcome. rewrite H.
  rewrite andb_false_r. eauto.
Qed.

Section TrimFacts.
Import Trim.
Variable ffmpeg : list string → proc_outcome.
Variable ffprobe : list string → proc_outcome.
Variable py_float : string → option float.
Variable py_str : float → string.

Abbreviation probed_duration := (probed_duration ffprobe py_float).
Abbreviation probe_trace := (probe_trace ffprobe).
Abbreviation copy_fallback_trace := (copy_fallback_trace ffprobe py_str).
Abbreviation cut_trace := (cut_trace ffprobe py_str).

Lemma get_audio_duration_spec (filepath : string) (w : world) :
  ∃ w', get_audio_duration ffprobe py_float filepath w
          = (probed_duration filepath, w')
        ∧ w_log w' = w_log w ++ probe_trace filepath.
Proof.
  unfold get_audio_duration, probed_duration, probe_trace.
  destruct (subprocess_run_spec ffprobe ["ffprobe"; "-version"] "" true w)
    as (w1 & Hrun1 & Hlog1).
  unfold bind at 1. rewrite Hrun1.
  destruct (run_outcome ffprobe ["ffprobe"; "-version"] true);
    [|by eexists|by eexists].
  destruct (subprocess_run_spec ffprobe (ffprobe_duration_command filepath)
              "" true w1) as (w2 & Hrun2 & Hlog2).
  unfold bind. rewrite Hrun2.
  exists w2. rewrite Hlog2, Hlog1, <- app_assoc.
  destruct (run_outcome ffprobe (ffprobe_duration_command filepath) true); done.
Qed.

Lemma run_checked_spec (argv : list string) (w : world) :
  ∃ r w', run_checked ffmpeg argv w = (r, w')
          ∧ w_log w' = w_log w ++ [EvRun argv]
          ∧ (exits_ok ffmpeg argv → r = Ok tt).
Proof.
  unfold run_checked.
  destruct (subprocess_run_spec ffmpeg argv "" true w) as (w1 & Hrun & Hlog).
  unfold bind. rewrite Hrun.
  destruct (run_outcome ffmpeg argv true) eqn:Hout;
    eexists _, _; (split; [reflexivity|]); (split; [exact Hlog|]);
    intros Hok; destruct (run_outcome_ok ffmpeg argv true Hok) as (o & e & He);
    congruence.
Qed.

(** The run of [trim_audio_silence] with trimming enabled, up to the
    decision between the copy and the cut. *)
Lemma trim_enabled_spec (input_filepath output_filepath : string)
    (duration : option float) (silence_starts silence_ends : list float)
    (rc : Z) (out err : string) (written : option string) (w : world) :
  exits_ok ffmpeg ["ffmpeg"; "-version"] →
  ffmpeg (silencedetect_command py_str input_filepath (-60) 0.5%float)
    = Exited rc out err written →
  silence_points py_float (splitlines err) [] [] = Ok (silence_starts, silence_ends) →
  probed_duration input_filepath = Ok duration →
  let copies :=
    match duration with
    | None => true
    | Some d =>
        window_too_short (trim_window d 0.5%float silence_starts silence_ends)
    end in
  ∃ r w',
    trim_audio_silence_default ffmpeg ffprobe py_float py_str
      input_filepath output_filepath true w = (r, w') ∧
    if copies then
      w_log w' = w_log w ++ copy_fallback_trace input_filepath output_filepath ∧
      (exits_ok ffmpeg (copy_command input_filepath output_filepath) → r = Ok tt)
    else
      ∃ d rest, duration = Some d ∧
        w_log w' = w_log w
          ++ cut_trace input_filepath output_filepath
               (trim_window d 0.5%float silence_starts silence_ends)
          ++ rest.
Proof.
  intros Hver Hdet Hpts Hdur copies.
  unfold trim_audio_silence_default, trim_audio_silence. cbn [negb]. cbv iota.
  destruct (subprocess_run_spec ffmpeg ["ffmpeg"; "-version"] "" true w)
    as (w1 & Hrun1 & Hlog1).
  unfold bind at 1. rewrite Hrun1.
  destruct (run_outcome_ok ffmpeg _ true Hver) as (o1 & e1 & ->).
  unfold try_except, detect_and_trim.
  destruct (subprocess_run_spec ffmpeg
              (silencedetect_command py_str input_filepath (-60) 0.5%float)
              "" false w1) as (w2 & Hrun2 & Hlog2).
  unfold bind at 1. rewrite Hrun2.
  unfold run_outcome at 1. rewrite Hdet. cbn [andb]. cbv iota.
  destruct (get_audio_duration_spec input_filepath w2) as (w3 & Hrun3 & Hlog3).
  unfold bind at 1. rewrite Hrun3, Hdur, Hpts.
  destruct (get_audio_duration_spec input_filepath w3) as (w4 & Hrun4 & Hlog4).
  unfold bind at 1. rewrite Hrun4, Hdur.
  assert (w_log w4 = w_log w ++
            [EvRun ["ffmpeg"; "-version"];
             EvRun (silencedetect_command py_str input_filepath (-60) 0.5%float)]
            ++ probe_trace input_filepath ++ probe_trace input_filepath) as Hlog.
  { rewrite Hlog4, Hlog3, Hlog2, Hlog1, <- !app_assoc. done. }
  destruct duration as [d|]; subst copies; simpl.
  - destruct (window_too_short _) eqn:Hshort.
    + destruct (run_checked_spec (copy_command input_filepath output_filepath) w4)
        as (r & w5 & Hrun5 & Hlog5 & Hok).
      rewrite Hrun5.
      destruct r as [[]|e].
      * eexists _, _. split; [reflexivity|]. split; [|done].
        rewrite Hlog5, Hlog. unfold copy_fallback_trace.
        by rewrite <- !app_assoc.
      * destruct (bool_decide (exn_kind e = CalledProcessError));
          eexists _, _; (split; [reflexivity|]);
          (split; [simpl; rewrite Hlog5, Hlog; unfold copy_fallback_trace;
                   by rewrite <- !app_assoc|]);
          intros H; by specialize (Hok H).
    + set (window := trim_window d 0.5%float silence_starts silence_ends) in *.
      destruct (run_checked_spec
                  (trim_command py_str input_filepath output_filepath
                     (fst window) (snd window)) w4)
        as (r & w5 & Hrun5 & Hlog5 & _).
      unfold bind at 1. rewrite Hrun5.
      destruct r as [[]|e].
      * destruct (get_audio_duration_spec output_filepath w5)
          as (w6 & Hrun6 & Hlog6).
        unfold bind at 1. rewrite Hrun6.
        destruct (probed_duration output_filepath) as [[x|]|e]; simpl;
          [| |destruct (bool_decide _)];
          eexists _, _; (split; [reflexivity|]);
          exists d, (probe_trace output_filepath); (split; [done|]);
          simpl; rewrite Hlog6, Hlog5, Hlog; unfold cut_trace;
          by rewrite <- !app_assoc.
      * destruct (bool_decide (exn_kind e = CalledProcessError));
          eexists _, _; (split; [reflexivity|]);
          exists d, []; (split; [done|]);
          simpl; rewrite Hlog5, Hlog; unfold cut_trace;
          by rewrite <- !app_assoc, app_nil_r.
  - destruct (run_checked_spec (copy_command input_filepath output_filepath) w4)
      as (r & w5 & Hrun5 & Hlog5 & Hok).
    rewrite Hrun5.
    destruct r as [[]|e].
    + eexists _, _. split; [reflexivity|]. split; [|done].
      rewrite Hlog5, Hlog. unfold copy_fallback_trace. by rewrite <- !app_assoc.
    + destruct (bool_decide (exn_kind e = CalledProcessError));
        eexists _, _; (split; [reflexivity|]);
        (split; [simpl; rewrite Hlog5, Hlog; unfold copy_fallback_trace;
                 by rewrite <- !app_assoc|]);
        intros H; by specialize (Hok H).
Qed.

End TrimFacts.

(** *** The decision between the cut and the copy *)

Section TrimDecision.
Import Trim.
Variable ffmpeg : list string → proc_outcome.
Variable ffprobe : list string → proc_outcome.
Variable py_float : string → option float.
Variable py_str : float → string.

Abbreviation probed_duration := (probed_duration ffprobe py_float).
Abbreviation probe_trace := (probe_trace ffprobe).
Abbreviation copy_fallback_trace := (copy_fallback_trace ffprobe py_str).
Abbreviation cut_trace := (cut_trace ffprobe py_str).




End TrimDecision.

Section TrimPolicy.
Import Trim.
Variable ffmpeg : list string → proc_outcome.
Variable ffprobe : list string → proc_outcome.
Variable py_float : string → option float.
Variable py_str : float → string.

(** X21. When the window is longer than 0.01 s, the command that cuts the clip
    runs with the two points of the window. *)
Lemma trim_cuts_to_window (input_filepath output_filepath : string)
    (D : float) (silence_starts silence_ends : list float)
    (rc : Z) (out err : string) (written : option string) (w : world) :
  exits_ok ffmpeg ["ffmpeg"; "-version"] →
  ffmpeg (silencedetect_command py_str input_filepath (-60) 0.5%float)
    = Exited rc out err written →
  silence_points py_float (splitlines err) [] []
    = Ok (silence_starts, silence_ends) →
  probed_duration ffprobe py_float input_filepath = Ok (Some D) →
  window_too_short (trim_window D 0.5%float silence_starts silence_ends) = false →
  ∃ r w' rest,
    trim_audio_silence_default ffmpeg ffprobe py_float py_str
      input_filepath output_filepath true w = (r, w') ∧
    w_log w' = w_log w
      ++ cut_trace ffprobe py_str input_filepath output_filepath
           (trim_window D 0.5%float silence_starts silence_ends)
      ++ rest.
Proof.
  intros Hver Hdet Hpts Hdur Hlong.
  destruct (trim_enabled_spec ffmpeg ffprobe py_float py_str input_filepath
              output_filepath (Some D) silence_starts silence_ends rc out err
              written w Hver Hdet Hpts Hdur) as (r & w' & Hrun & Hcase).
  simpl in Hcase. rewrite Hlong in Hcase.
  destruct Hcase as (d & rest & [= <-] & Hlog). by exists r, w', rest.
Qed.

(** X19. With trimming disabled, the trimmer runs one command, the stream copy
    of ffmpeg from the source to the output: no silence detection and no
    encoder. The output file holds what that command writes. *)
Lemma trim_disabled_runs_only_copy (input_filepath output_filepath : string)
    (w : world) :
  ∃ r w',
    trim_audio_silence_default ffmpeg ffprobe py_float py_str
      input_filepath output_filepath false w = (r, w') ∧
    w_log w' = w_log w ++ [EvRun (copy_command input_filepath output_filepath)] ∧
    (exits_ok ffmpeg (copy_command input_filepath output_filepath) → r = Ok tt) ∧
    (∀ rc out err content,
       ffmpeg (copy_command input_filepath output_filepath)
         = Exited rc out err (Some content) →
       w_files w' !! output_filepath = Some content).
Proof.
  unfold trim_audio_silence_default, trim_audio_silence. cbn [negb]. cbv iota.
  unfold exits_ok, subprocess_run, bind, emit, write_file, ret. simpl.
  assert (PyStr.path_join "" output_filepath = output_filepath) as Hpath.
  { unfold PyStr.path_join. by destruct (PyStr.startswith "/" output_filepath). }
  rewrite Hpath.
  destruct (ffmpeg (copy_command input_filepath output_filepath))
    as [|rc out err written] eqn:Hcopy.
  - eexists _, _. split; [reflexivity|]. simpl. split; [done|].
    split; [by intros (? & ? & ? & ?)|]. intros; done.
  - destruct written as [c|]; simpl; destruct (rc =? 0)%Z eqn:Hrc; simpl;
      eexists _, _; (split; [reflexivity|]); simpl; (split; [done|]);
      (split; [intros (? & ? & ? & [= -> _ _ _]); done|]);
      intros rc' out' err' content [= _ _ _ <-]; apply lookup_insert_eq.
Qed.

End TrimPolicy.

(** ** Script extraction *)

Section StringFacts.

Lemma length_app_string (s1 s2 : string) :
  String.length (s1 +:+ s2) = (String.length s1 + String.length s2)%nat.
Proof. induction s1 as [|c s1 IH]; simpl; [done|by rewrite IH]. Qed.

Lemma drop_length (n : nat) (s : string) :
  String.length (PyStr.drop n s) = (String.length s - n)%nat.
Proof.
  revert s. induction n as [|n IH]; intros [|c s]; simpl; try done.
Qed.

Lemma drop_drop (n m : nat) (s : string) :
  PyStr.drop n (PyStr.drop m s) = PyStr.drop (m + n) s.
Proof.
  revert s. induction m as [|m IH]; intros s; simpl; [done|].
  destruct s as [|c s]; simpl; [by destruct n|apply IH].
Qed.

Lemma drop_app_length (p s : string) (i : nat) :
  PyStr.drop (String.length p + i) (p +:+ s) = PyStr.drop i s.
Proof. induction p as [|c p IH]; simpl; done. Qed.

Lemma find_char_bound (c : ascii) (s : string) (k : nat) :
  PyStr.find_char c s = Some k → (k < String.length s)%nat.
Proof.
  revert k. induction s as [|d s IH]; intros k; simpl; [done|].
  destruct (Ascii.eqb c d); [intros [= <-]; lia|].
  destruct (PyStr.find_char c s) as [j|]; simpl; [|done].
  intros [= <-]. specialize (IH j eq_refl). lia.
Qed.

Lemma find_from_bound (c : ascii) (s : string) (start j : nat) :
  PyStr.find_from c s start = Some j →
  (start ≤ j)%nat ∧ (j < String.length s)%nat.
Proof.
  unfold PyStr.find_from.
  destruct (PyStr.find_char c (PyStr.drop start s)) as [k|] eqn:Hk; simpl; [|done].
  intros [= <-]. apply find_char_bound in Hk. rewrite drop_length in Hk. lia.
Qed.

Lemma find_from_app_length (c : ascii) (p s : string) (i : nat) :
  PyStr.find_from c (p +:+ s) (String.length p + i) =
  (fun j => (String.length p + j)%nat) <$> PyStr.find_from c s i.
Proof.
  unfold PyStr.find_from. rewrite drop_app_length.
  destruct (PyStr.find_char c (PyStr.drop i s)); simpl; [f_equal; lia|done].
Qed.

(** The first brace of a text that has none before position
    [length p]. *)
Lemma find_char_app_first (c : ascii) (p s : string) :
  PyStr.find_char c p = None →
  PyStr.find_char c (p +:+ String c s) = Some (String.length p).
Proof.
  induction p as [|d p IH]; simpl.
  - intros _. by rewrite Ascii.eqb_refl.
  - destruct (Ascii.eqb c d); [done|].
    destruct (PyStr.find_char c p); [done|]. intros _. by rewrite IH.
Qed.

(** Searching from position 1 a text whose first character is not the one
    searched. *)
Lemma find_from_one (c d : ascii) (s : string) :
  Ascii.eqb c d = false →
  PyStr.find_from c (String d s) (0 + 1) = PyStr.find_char c (String d s).
Proof.
  intros Hne. unfold PyStr.find_from. cbn [PyStr.drop PyStr.find_char Nat.add].
  rewrite Hne. by destruct (PyStr.find_char c s).
Qed.

End StringFacts.

Section ScanFacts.
Import Script.
Variable raw_decode : string → option (json * nat).

Abbreviation scan_from := (scan_from raw_decode).

(** A decoded value spans at least one character. *)
Hypothesis raw_decode_progress :
  ∀ s obj end_, raw_decode s = Some (obj, end_) → (0 < end_)%nat.

(** The loop ends within the rounds that separate [idx] from the end of
    the text: more fuel does not change what it gives. *)
Lemma scan_loop_fuel (f1 f2 : nat) (s : string) (idx : nat) :
  (String.length s - idx ≤ f1)%nat → (String.length s - idx ≤ f2)%nat →
  scan_loop raw_decode f1 s idx = scan_loop raw_decode f2 s idx.
Proof.
  revert f2 idx. induction f1 as [|f1 IH]; intros f2 idx H1 H2.
  - destruct f2 as [|f2]; [done|]. simpl.
    destruct (idx <? String.length s)%nat eqn:Hlt; [|done].
    apply Nat.ltb_lt in Hlt. lia.
  - simpl. destruct (idx <? String.length s)%nat eqn:Hlt;
      [|destruct f2; [done|simpl; by rewrite Hlt]].
    apply Nat.ltb_lt in Hlt.
    destruct f2 as [|f2]; [lia|]. simpl.
    apply Nat.ltb_lt in Hlt as Hlt'. rewrite Hlt'.
    destruct (raw_decode (PyStr.drop idx s)) as [[obj end_]|] eqn:Hdec.
    + destruct (Json.is_dict_with "podcast_transcripts" obj); [done|].
      apply raw_decode_progress in Hdec. apply IH; lia.
    + destruct (PyStr.find_from "{" s (idx + 1)) as [j|] eqn:Hfind; [|done].
      apply find_from_bound in Hfind. apply IH; lia.
Qed.

Lemma extract_script_scan_from (s : string) :
  extract_script raw_decode s = scan_from s 0.
Proof. unfold extract_script, scan_from. by rewrite Nat.sub_0_r. Qed.

Lemma scan_from_end (s : string) (idx : nat) :
  (String.length s ≤ idx)%nat → scan_from s idx = None.
Proof.
  intros H. unfold scan_from.
  replace (String.length s - idx)%nat with 0%nat by lia. done.
Qed.

Lemma scan_from_step (s : string) (idx : nat) :
  (idx < String.length s)%nat →
  scan_from s idx =
  match raw_decode (PyStr.drop idx s) with
  | Some (obj, end_) =>
      if Json.is_dict_with "podcast_transcripts" obj
      then Some (obj, PyStr.take end_ (PyStr.drop idx s))
      else scan_from s (idx + end_)
  | None =>
      match PyStr.find_from "{" s (idx + 1) with
      | Some next_brace => scan_from s next_brace
      | None => None
      end
  end.
Proof.
  intros Hlt. unfold scan_from.
  destruct (String.length s - idx)%nat as [|f] eqn:Hf; [lia|]. simpl.
  apply Nat.ltb_lt in Hlt as Hlt'. rewrite Hlt'.
  destruct (raw_decode (PyStr.drop idx s)) as [[obj end_]|] eqn:Hdec.
  - destruct (Json.is_dict_with "podcast_transcripts" obj); [done|].
    apply raw_decode_progress in Hdec. apply scan_loop_fuel; lia.
  - destruct (PyStr.find_from "{" s (idx + 1)) as [j|] eqn:Hfind; [|done].
    apply find_from_bound in Hfind. apply scan_loop_fuel; lia.
Qed.

(** Scanning a text from a position behind a prefix is scanning the rest
    of the text. *)
Lemma scan_loop_shift (f : nat) (p s : string) (i : nat) :
  scan_loop raw_decode f (p +:+ s) (String.length p + i) =
  scan_loop raw_decode f s i.
Proof.
  revert i. induction f as [|f IH]; intros i; [done|]. simpl.
  rewrite length_app_string, drop_app_length.
  replace (String.length p + i <? String.length p + String.length s)%nat
    with (i <? String.length s)%nat
    by (destruct (Nat.ltb_spec i (String.length s));
        destruct (Nat.ltb_spec (String.length p + i)
                    (String.length p + String.length s)); lia || done).
  destruct (i <? String.length s)%nat; [|done].
  destruct (raw_decode (PyStr.drop i s)) as [[obj end_]|].
  - destruct (Json.is_dict_with "podcast_transcripts" obj); [done|].
    rewrite <- Nat.add_assoc. apply IH.
  - rewrite <- Nat.add_assoc, find_from_app_length.
    destruct (PyStr.find_from "{" s (i + 1)) as [j|]; simpl; [apply IH|done].
Qed.

(** Prose before the script object: when it has no brace and the text
    does not start with a value that decodes, the scan gives what it gives
    on the text without the prose. *)
Lemma extract_script_after_prose (prose rest : string) :
  prose ≠ "" →
  PyStr.find_char "{" prose = None →
  raw_decode (prose +:+ String "{" rest) = None →
  extract_script raw_decode (prose +:+ String "{" rest) =
  extract_script raw_decode (String "{" rest).
Proof.
  intros Hne Hnobrace Hfail.
  rewrite !extract_script_scan_from.
  assert (0 < String.length prose)%nat as Hpos by (destruct prose; simpl; [done|lia]).
  rewrite scan_from_step by (rewrite length_app_string; lia).
  simpl PyStr.drop. rewrite Hfail.
  assert (PyStr.find_from "{" (prose +:+ String "{" rest) (0 + 1)
          = Some (String.length prose)) as ->.
  { rewrite <- (find_char_app_first "{" prose rest Hnobrace).
    destruct prose as [|c prose]; [done|].
    apply find_from_one.
    cbn [PyStr.find_char] in Hnobrace.
    by destruct (Ascii.eqb "{" c). }
  unfold scan_from.
  pose proof (scan_loop_shift
                (String.length (prose +:+ String "{" rest) - String.length prose)
                prose (String "{" rest) 0) as Hshift.
  rewrite Nat.add_0_r in Hshift. rewrite Hshift.
  apply scan_loop_fuel; rewrite ?length_app_string; simpl; lia.
Qed.

End ScanFacts.

Lemma demo_raw_decode_progress (s : string) (obj : json) (end_ : nat) :
  Demo.raw_decode s = Some (obj, end_) → (0 < end_)%nat.
Proof.
  unfold Demo.raw_decode, Decoder.raw_decode.
  destruct (Decoder.scan_once _ _ s) as [[v after]|]; [|done].
  destruct (String.length s - String.length after =? 0)%nat eqn:He; [done|].
  intros [= _ <-]. apply Nat.eqb_neq in He. lia.
Qed.

(** C5, as amended. The scan for the script object is total. From a
    position inside the text it decodes a JSON value: a dict with the key
    [podcast_transcripts] is accepted, with the text it was decoded from;
    after another decoded value the scan goes on where that value ends;
    where nothing decodes it goes on at the next brace behind the position,
    and it gives nothing when there is none or when the text is used up.
    Prose before the object does not change what is accepted when it has
    no brace and the text does not start with a value that decodes. *)
Theorem extraction_scan (raw_decode : string → option (json * nat)) :
  (∀ s obj end_, raw_decode s = Some (obj, end_) → (0 < end_)%nat) →
  (∀ s, Script.extract_script raw_decode s = scan_from raw_decode s 0) ∧
  (∀ s idx, (String.length s ≤ idx)%nat → scan_from raw_decode s idx = None) ∧
  (∀ s idx obj end_,
     (idx < String.length s)%nat →
     raw_decode (PyStr.drop idx s) = Some (obj, end_) →
     Json.is_dict_with "podcast_transcripts" obj = true →
     scan_from raw_decode s idx = Some (obj, PyStr.take end_ (PyStr.drop idx s))) ∧
  (∀ s idx obj end_,
     (idx < String.length s)%nat →
     raw_decode (PyStr.drop idx s) = Some (obj, end_) →
     Json.is_dict_with "podcast_transcripts" obj = false →
     scan_from raw_decode s idx = scan_from raw_decode s (idx + end_)) ∧
  (∀ s idx,
     (idx < String.length s)%nat →
     raw_decode (PyStr.drop idx s) = None →
     scan_from raw_decode s idx =
     match PyStr.find_from "{" s (idx + 1) with
     | Some next_brace => scan_from raw_decode s next_brace
     | None => None
     end) ∧
  (∀ prose rest,
     prose ≠ "" →
     PyStr.find_char "{" prose = None →
     raw_decode (prose +:+ String "{" rest) = None →
     Script.extract_script raw_decode (prose +:+ String "{" rest) =
     Script.extract_script raw_decode (String "{" rest)).
Proof.
  intros Hprogress.
  split; [apply extract_script_scan_from|].
  split; [apply scan_from_end|].
  split.
  { intros s idx obj end_ Hlt Hdec Hkey.
    rewrite (scan_from_step raw_decode Hprogress s idx Hlt), Hdec, Hkey. done. }
  split.
  { intros s idx obj end_ Hlt Hdec Hkey.
    rewrite (scan_from_step raw_decode Hprogress s idx Hlt), Hdec, Hkey. done. }
  split.
  { intros s idx Hlt Hdec.
    rewrite (scan_from_step raw_decode Hprogress s idx Hlt), Hdec. done. }
  intros prose rest. apply extract_script_after_prose. exact Hprogress.
Qed.

(** The scan at work: prose around the script object is skipped. *)
Lemma extraction_scan_witness :
  Script.extract_script Demo.raw_decode
    ("Here is your script: " +:+ Demo.script_text)
  = Script.extract_script Demo.raw_decode Demo.script_text
  ∧ Script.extract_script Demo.raw_decode Demo.script_text
    = Some (Demo.script_value, Demo.script_text).
Proof.
  split.
  - apply (proj2 (proj2 (proj2 (proj2 (proj2
             (extraction_scan Demo.raw_decode demo_raw_decode_progress)))))
             "Here is your script: ").
    + discriminate.
    + reflexivity.
    + vm_compute. reflexivity.
  - vm_compute. reflexivity.
Defined.

(** C5 as stated does not hold: what the scan accepts depends on the text
    around the script object. The object alone is accepted. Inside the
    brackets of an array the whole array decodes as one value without the
    key, the scan goes on behind it, and nothing is accepted. Behind a
    quotation mark at the start of the text, the mark and the first brace
    and the mark of the key decode as a string; the scan goes on behind
    that string, finds the object of the transcript, which has not the
    key, and accepts nothing. *)
Lemma extraction_depends_on_surrounding_text :
  Script.extract_script Demo.raw_decode Demo.script_text
    = Some (Demo.script_value, Demo.script_text) ∧
  Script.extract_script Demo.raw_decode ("[" +:+ Demo.script_text +:+ "]")
    = None ∧
  Script.extract_script Demo.raw_decode
    (Demo.quoted "'" +:+ Demo.script_text +:+ Demo.quoted "'") = None.
Proof. repeat split; vm_compute; reflexivity. Qed.

(** ** The retry of the script request *)

Lemma logged_logged (w : world) (t1 t2 : list event) :
  logged (logged w t1) t2 = logged w (t1 ++ t2).
Proof. unfold logged. simpl. by rewrite app_assoc. Qed.

Lemma contains_self (needle : string) : PyStr.contains needle needle = true.
Proof.
  assert (String.prefix needle needle = true) as H.
  { induction needle as [|c n IH]; simpl; [done|].
    destruct (ascii_dec c c); [exact IH|done]. }
  destruct needle; simpl in *; [done|]. by rewrite H.
Qed.

Lemma contains_behind (needle p s : string) :
  PyStr.contains needle s = true → PyStr.contains needle (p +:+ s) = true.
Proof.
  intros H. induction p as [|c p IH]; simpl; [done|].
  rewrite IH. apply orb_true_r.
Qed.

Section ScriptRetryFacts.
Import Script.
Variable raw_decode : string → option (json * nat).
Variable chat_completion : nat → result string.

Abbreviation script_round := (script_round raw_decode chat_completion).
Abbreviation script_loop := (script_loop raw_decode chat_completion).
Abbreviation structural_failure := (structural_failure raw_decode).

Lemma structural_failure_kind (text : string) (e : exn) :
  structural_failure text = Some e → exn_kind e = ValueError.
Proof.
  unfold structural_failure.
  destruct (extract_script raw_decode text) as [[obj valid]|]; [|by intros [= <-]].
  destruct (negb _); [by intros [= <-]|].
  destruct (Json.len _); [|done].
  destruct (_is_content_quality_acceptable _ _ _ _ _) as [[]|]; try done.
  by intros [= <-].
Qed.

Lemma script_round_structural (attempt : nat) (text : string) (e : exn) :
  chat_completion attempt = Ok text →
  structural_failure text = Some e →
  script_round attempt = (text, reject attempt e).
Proof.
  unfold Script.script_round, structural_failure. intros -> H.
  destruct (extract_script raw_decode text) as [[obj valid]|];
    [|by injection H as <-].
  cbv zeta in *.
  destruct (Json.truth (Json.get "podcast_transcripts" obj)) eqn:Ht; simpl in *.
  - destruct (Json.len _); [|done].
    destruct (_is_content_quality_acceptable _ _ _ _ _) as [[]|]; try done.
    by injection H as <-.
  - by injection H as <-.
Qed.

(** One round of the loop, by the way its [try] block ends. *)
Lemma script_loop_step (fuel attempt : nat) (w : world) :
  (attempt < script_max_retries)%nat →
  script_loop (S fuel) attempt w =
  match script_round attempt with
  | (_, (_, BReturn podcast_script)) =>
      (Ok (Some podcast_script), logged w [EvChat])
  | (_, (attempt', BContinue)) => script_loop fuel attempt' (logged w [EvChat])
  | (podscript_json_str, (attempt', BRaise e)) =>
      if (script_max_retries <=? S attempt')%nat then
        (Raise (if bool_decide (exn_kind e = JSONDecodeError)
                then decode_error e podscript_json_str
                else script_failed_error e),
         logged w [EvChat])
      else
        script_loop fuel (S attempt')
          (logged w [EvChat; EvSleep (1 * Z.of_nat (S attempt'))])
  end.
Proof.
  intros Hlt. cbn [Script.script_loop].
  destruct (script_max_retries <=? attempt)%nat eqn:Hle;
    [apply Nat.leb_le in Hle; lia|].
  unfold script_body, bind, emit, ret. cbn [w_files w_log].
  fold (logged w [EvChat]).
  destruct script_round as [raw [attempt' [s| |e]]]; [done|done|].
  destruct (script_max_retries <=? S attempt')%nat.
  - by destruct (bool_decide _).
  - unfold time_sleep, emit. cbn [w_files w_log].
    fold (logged (logged w [EvChat]) [EvSleep (1 * Z.of_nat (S attempt'))]).
    by rewrite logged_logged.
Qed.

Lemma script_round_attempt (attempt : nat) :
  match script_round attempt with
  | (_, (attempt', BContinue)) =>
      attempt' = S attempt ∧ (S attempt < script_max_retries)%nat
  | (_, (attempt', BRaise _)) =>
      attempt' = attempt ∨ (script_max_retries ≤ attempt')%nat
  | (_, (_, BReturn _)) => True
  end.
Proof.
  assert (∀ e, match reject attempt e with
               | (attempt', BContinue) =>
                   attempt' = S attempt ∧ (S attempt < script_max_retries)%nat
               | (attempt', BRaise _) =>
                   attempt' = attempt ∨ (script_max_retries ≤ attempt')%nat
               | (_, BReturn _) => True
               end) as Hreject.
  { intros e. unfold reject.
    destruct (script_max_retries <=? S attempt)%nat eqn:Hle.
    - apply Nat.leb_le in Hle. by right.
    - apply Nat.leb_gt in Hle. done. }
  unfold Script.script_round.
  destruct (chat_completion attempt) as [text|e]; [|by left].
  destruct (extract_script raw_decode text) as [[obj valid]|]; [|apply Hreject].
  cbv zeta. destruct (Json.len _); [|by left].
  destruct (negb _); [apply Hreject|].
  destruct (_is_content_quality_acceptable _ _ _ _ _) as [[]|];
    [done|apply Hreject|by left].
Qed.

(** The loop is total: it makes at most one request for each attempt that
    is left, and it ends with a script or with an exception. *)
Lemma script_loop_total (fuel attempt : nat) (w : world) :
  (script_max_retries - attempt ≤ fuel)%nat →
  (attempt < script_max_retries)%nat →
  ∃ r w' trace,
    script_loop fuel attempt w = (r, w') ∧
    w_log w' = w_log w ++ trace ∧
    (chat_calls trace ≤ script_max_retries - attempt)%nat ∧
    r ≠ Ok None.
Proof.
  revert attempt w. induction fuel as [|fuel IH]; intros attempt w Hfuel Hlt;
    [lia|].
  rewrite script_loop_step by done.
  pose proof (script_round_attempt attempt) as Hround.
  destruct script_round as [raw [attempt' [s| |e]]].
  - exists (Ok (Some s)), (logged w [EvChat]), [EvChat].
    split; [done|]. split; [done|]. split; [unfold chat_calls; simpl; lia|done].
  - destruct Hround as [-> Hnext].
    destruct (IH (S attempt) (logged w [EvChat])) as (r & w' & trace & Hrun & Hlog & Hn & Hr);
      [lia|lia|].
    exists r, w', (EvChat :: trace). split; [done|].
    split; [rewrite Hlog; simpl; by rewrite <- app_assoc|].
    split; [unfold chat_calls in *; simpl; lia|done].
  - destruct (script_max_retries <=? S attempt')%nat eqn:Hle.
    + eexists _, _, [EvChat]. split; [reflexivity|]. split; [done|].
      split; [unfold chat_calls; simpl; lia|done].
    + apply Nat.leb_gt in Hle. destruct Hround as [->|Hge]; [|lia].
      destruct (IH (S attempt)
                  (logged w [EvChat; EvSleep (1 * Z.of_nat (S attempt))]))
        as (r & w' & trace & Hrun & Hlog & Hn & Hr); [lia|lia|].
      exists r, w', (EvChat :: EvSleep (1 * Z.of_nat (S attempt)) :: trace).
      split; [done|].
      split; [rewrite Hlog; simpl; by rewrite <- app_assoc|].
      split; [unfold chat_calls in *; simpl; lia|done].
Qed.

End ScriptRetryFacts.

(** C8, as amended. The script is requested at most 3 times and the run
    of the requests ends with a script or with an error. A response that
    fails for its structure, while attempts are left, is followed by the
    next request at once. A request that raises, while attempts are left,
    is followed by a sleep of as many seconds as attempts have failed, 1
    and then 2, and by the next request. A failure of the third attempt
    raises an error; it carries the text of the response when no script
    object was found in that response. *)
Theorem script_retry_policy (raw_decode : string → option (json * nat))
    (chat_completion : nat → result string) :
  (∀ s obj end_, raw_decode s = Some (obj, end_) → (0 < end_)%nat) →
  (∀ w, ∃ r w' trace,
     Script._generate_podcast_script raw_decode chat_completion w = (r, w') ∧
     w_log w' = w_log w ++ trace ∧
     (chat_calls trace ≤ 3)%nat ∧
     r ≠ Ok None) ∧
  (∀ fuel attempt w text e,
     (S attempt < 3)%nat →
     chat_completion attempt = Ok text →
     structural_failure raw_decode text = Some e →
     Script.script_loop raw_decode chat_completion (S fuel) attempt w =
     Script.script_loop raw_decode chat_completion fuel (S attempt)
       (logged w [EvChat])) ∧
  (∀ fuel attempt w e,
     (S attempt < 3)%nat →
     chat_completion attempt = Raise e →
     Script.script_loop raw_decode chat_completion (S fuel) attempt w =
     Script.script_loop raw_decode chat_completion fuel (S attempt)
       (logged w [EvChat; EvSleep (Z.of_nat (S attempt))])) ∧
  (∀ fuel w text e,
     chat_completion 2%nat = Ok text →
     structural_failure raw_decode text = Some e →
     Script.script_loop raw_decode chat_completion (S fuel) 2 w =
     (Raise (Script.script_failed_error e), logged w [EvChat])) ∧
  (∀ fuel w e,
     chat_completion 2%nat = Raise e →
     Script.script_loop raw_decode chat_completion (S fuel) 2 w =
     (Raise (if bool_decide (exn_kind e = JSONDecodeError)
             then Script.decode_error e ""
             else Script.script_failed_error e),
      logged w [EvChat])) ∧
  (∀ text,
     PyStr.contains text
       (exn_msg (Script.script_failed_error (Script.no_script_error text)))
     = true).
Proof.
  intros _.
  split.
  { intros w. unfold Script._generate_podcast_script.
    destruct (script_loop_total raw_decode chat_completion
                Script.script_max_retries 0 w)
      as (r & w' & trace & Hrun & Hlog & Hn & Hr);
      [unfold Script.script_max_retries; lia..|].
    exists r, w', trace. unfold Script.script_max_retries in *.
    split; [done|]. split; [done|]. split; [lia|done]. }
  split.
  { intros fuel attempt w text e Hlt Hchat Hfail.
    rewrite script_loop_step by (unfold Script.script_max_retries; lia).
    rewrite (script_round_structural _ _ attempt text e Hchat Hfail).
    unfold Script.reject.
    destruct (Script.script_max_retries <=? S attempt)%nat eqn:Hle; [|done].
    apply Nat.leb_le in Hle. unfold Script.script_max_retries in Hle. lia. }
  split.
  { intros fuel attempt w e Hlt Hchat.
    rewrite script_loop_step by (unfold Script.script_max_retries; lia).
    unfold Script.script_round. rewrite Hchat.
    destruct (Script.script_max_retries <=? S attempt)%nat eqn:Hle.
    - apply Nat.leb_le in Hle. unfold Script.script_max_retries in Hle. lia.
    - by rewrite Z.mul_1_l. }
  split.
  { intros fuel w text e Hchat Hfail.
    rewrite script_loop_step by (unfold Script.script_max_retries; lia).
    rewrite (script_round_structural _ _ 2%nat text e Hchat Hfail).
    unfold Script.reject. simpl.
    apply structural_failure_kind in Hfail. rewrite Hfail. done. }
  split.
  { intros fuel w e Hchat.
    rewrite script_loop_step by (unfold Script.script_max_retries; lia).
    unfold Script.script_round. rewrite Hchat. done. }
  intros text. unfold Script.script_failed_error, Script.no_script_error.
  cbn [exn_msg].
  apply contains_behind. apply contains_behind. apply contains_behind.
  apply contains_behind.
  apply contains_self.
Qed.

(** A run with a request that fails, a response that the quality gate
    rejects and a response with a script. *)
Lemma script_retry_policy_witness :
  ∃ r w' trace,
    Script._generate_podcast_script Demo.raw_decode Demo.chat_flaky Demo.world0
      = (r, w') ∧
    w_log w' = w_log Demo.world0 ++ trace ∧
    (chat_calls trace ≤ 3)%nat ∧
    r ≠ Ok None.
Proof.
  exact (proj1 (script_retry_policy Demo.raw_decode Demo.chat_flaky
                  demo_raw_decode_progress) Demo.world0).
Defined.

(** C8 as stated does not hold. When the quality gate rejects the response
    of each of the three attempts, the error that ends the run does not
    carry the text of the response; and the sleeps after failed requests
    are not of one fixed length: 1 second, then 2 seconds. *)
Lemma script_retry_error_and_delays :
  (∃ e w',
     Script._generate_podcast_script Demo.raw_decode Demo.chat_blank Demo.world0
       = (Raise e, w') ∧
     PyStr.contains Demo.blank_text (exn_msg e) = false) ∧
  w_log (snd (Script._generate_podcast_script Demo.raw_decode Demo.chat_down
                Demo.world0))
  = [EvChat; EvSleep 1; EvChat; EvSleep 2; EvChat].
Proof.
  split.
  - eexists _, _. split; [vm_compute; reflexivity|]. vm_compute. reflexivity.
  - vm_compute. reflexivity.
Qed.

(** ** The merge and its cleanup *)

Section CleanupFacts.
Import Concat.

Lemma without_lookup (paths : list string) (files : gmap string string)
    (p : string) :
  without paths files !! p = if bool_decide (p ∈ paths) then None else files !! p.
Proof.
  revert files. induction paths as [|q paths IH]; intros files.
  - unfold without. cbn [foldl].
    case_bool_decide as H; [by apply elem_of_nil in H|done].
  - unfold without in *. cbn [foldl]. rewrite IH.
    case_bool_decide as H1; case_bool_decide as H2; try done.
    + exfalso. apply H2. by right.
    + apply elem_of_cons in H2 as [->|H2]; [apply lookup_delete_eq|done].
    + apply lookup_delete_ne. intros ->. apply H2. left.
Qed.

Lemma remove_if_exists_spec (p : string) (w : world) :
  remove_if_exists p w
  = (Ok tt, {| w_files := delete p (w_files w); w_log := w_log w |}).
Proof.
  unfold remove_if_exists, try_except, bind, path_exists, os_remove, ret.
  destruct (w_files w !! p) as [c|] eqn:Hp; simpl.
  - by rewrite Hp.
  - rewrite delete_id by done. by destruct w.
Qed.

Lemma remove_all_spec (paths : list string) (w : world) :
  remove_all paths w
  = (Ok tt, {| w_files := without paths (w_files w); w_log := w_log w |}).
Proof.
  revert w. induction paths as [|p paths IH]; intros w; simpl.
  - by destruct w.
  - unfold bind. rewrite remove_if_exists_spec, IH. done.
Qed.

Lemma cleanup_spec (file_list_path output_audio_filepath_wav : string)
    (w : world) :
  cleanup file_list_path output_audio_filepath_wav w
  = (Ok tt, {| w_files := cleaned file_list_path output_audio_filepath_wav
                            (w_files w);
               w_log := w_log w |}).
Proof.
  unfold cleanup, cleaned, try_except at 1, bind at 1 2, path_exists, ret.
  destruct (w_files w !! file_list_path) as [content|] eqn:Hfl; simpl.
  - unfold bind at 1, read_file. rewrite Hfl.
    unfold bind at 1. rewrite remove_all_spec.
    unfold try_except, os_remove. simpl.
    destruct (without (listed_paths content) (w_files w) !! file_list_path)
      eqn:Hthere; simpl; rewrite remove_if_exists_spec; simpl; [done|].
    by rewrite (delete_id _ file_list_path).
  - rewrite remove_if_exists_spec. done.
Qed.

(** After the cleanup the file list, the files it named and the WAV file
    are gone. *)
Lemma cleaned_lookup (file_list_path output_audio_filepath_wav content : string)
    (files : gmap string string) :
  files !! file_list_path = Some content →
  cleaned file_list_path output_audio_filepath_wav files !! file_list_path = None ∧
  cleaned file_list_path output_audio_filepath_wav files
    !! output_audio_filepath_wav = None ∧
  ∀ p, p ∈ listed_paths content →
       cleaned file_list_path output_audio_filepath_wav files !! p = None.
Proof.
  intros Hfl. unfold cleaned. rewrite Hfl.
  split; [|split].
  - destruct (decide (output_audio_filepath_wav = file_list_path)) as [->|Hne].
    + apply lookup_delete_eq.
    + rewrite lookup_delete_ne by done. apply lookup_delete_eq.
  - apply lookup_delete_eq.
  - intros p Hp.
    destruct (decide (output_audio_filepath_wav = p)) as [->|Hne1];
      [apply lookup_delete_eq|].
    rewrite lookup_delete_ne by done.
    destruct (decide (file_list_path = p)) as [->|Hne2];
      [apply lookup_delete_eq|].
    rewrite lookup_delete_ne by done.
    rewrite without_lookup. by rewrite bool_decide_eq_true_2.
Qed.

Lemma subprocess_run_files (tool : list string → proc_outcome)
    (argv : list string) (cwd : string) (check : bool) (w : world) (p : string) :
  p ≠ PyStr.path_join cwd (List.last argv "") →
  w_files (snd (subprocess_run tool argv cwd check w)) !! p = w_files w !! p.
Proof.
  intros Hne. unfold subprocess_run, bind, emit, write_file, ret. simpl.
  destruct (tool argv) as [|rc out err written]; [done|].
  destruct written as [c|]; simpl; destruct (check && negb (rc =? 0)%Z); simpl;
    try done; by rewrite lookup_insert_ne.
Qed.

End CleanupFacts.

Section MergeFacts.
Import Concat.
Variable ffmpeg : list string → proc_outcome.

Lemma concat_and_encode_files (file_list_path wav_name mp3_name : string)
    (w : world) (p : string) :
  p ≠ PyStr.path_join module_output_dir wav_name →
  p ≠ PyStr.path_join module_output_dir mp3_name →
  w_files (snd (concat_and_encode ffmpeg file_list_path wav_name mp3_name w)) !! p
  = w_files w !! p.
Proof.
  intros Hwav Hmp3. unfold concat_and_encode.
  pose proof (subprocess_run_files ffmpeg (concat_command file_list_path wav_name)
                module_output_dir true w p Hwav) as H1.
  destruct (subprocess_run_spec ffmpeg (concat_command file_list_path wav_name)
              module_output_dir true w) as (w1 & Hrun1 & _).
  unfold bind at 1. rewrite Hrun1 in *. simpl in H1.
  destruct (run_outcome ffmpeg (concat_command file_list_path wav_name) true);
    [|done|done].
  pose proof (subprocess_run_files ffmpeg (mp3_command wav_name mp3_name)
                module_output_dir true w1 p Hmp3) as H2.
  destruct (subprocess_run_spec ffmpeg (mp3_command wav_name mp3_name)
              module_output_dir true w1) as (w2 & Hrun2 & _).
  unfold bind. rewrite Hrun2 in *. simpl in H2.
  destruct (run_outcome ffmpeg (mp3_command wav_name mp3_name) true);
    simpl; by rewrite H2.
Qed.


End MergeFacts.



(** ** The orchestrator *)

Lemma sorted_seq (start n : nat) : Sorted Nat.le (seq start n).
Proof.
  revert start. induction n as [|n IH]; intros start; simpl; [constructor|].
  constructor; [apply IH|]. destruct n; simpl; constructor. unfold Nat.le. lia.
Qed.

(** The sorted keys of a dict whose keys are the numbers below [n]. *)
Lemma sorted_keys_seq (d : gmap nat string) (n : nat) :
  (∀ i, is_Some (d !! i) ↔ (i < n)%nat) →
  Orchestrator.sorted_keys d = seq 0 n.
Proof.
  intros Hdom. unfold Orchestrator.sorted_keys.
  apply (Sorted_unique Nat.le).
  - apply Sorted_merge_sort. intros x y. unfold Nat.le. lia.
  - apply sorted_seq.
  - rewrite merge_sort_Permutation.
    apply NoDup_Permutation.
    + apply NoDup_fst_map_to_list.
    + apply NoDup_seq.
    + intros i. rewrite elem_of_seq, list_elem_of_fmap. split.
      * intros ([j x] & -> & Hin). apply elem_of_map_to_list in Hin.
        simpl. assert (j < n)%nat by (apply Hdom; eauto). lia.
      * intros [_ Hlt]. destruct (proj2 (Hdom i)) as [x Hx]; [lia|].
        exists (i, x). split; [done|]. by apply elem_of_map_to_list.
Qed.

Lemma omap_lookup_seq {A B} (f : A → B) (g : nat → option B) (l : list A)
    (start : nat) :
  (∀ k, g (start + k)%nat = f <$> l !! k) →
  omap g (seq start (length l)) = f <$> l.
Proof.
  revert start. induction l as [|x l IH]; intros start Hg; simpl; [done|].
  pose proof (Hg 0%nat) as H0. rewrite Nat.add_0_r in H0. simpl in H0.
  rewrite H0. f_equal. apply IH. intros k.
  replace (S start + k)%nat with (start + S k)%nat by lia. apply Hg.
Qed.

(** The files of a dict that holds the file [f p] of every path [p] of a
    list under the position of [p]: the files in the order of the list. *)
Lemma audio_files_of_list (d : gmap nat string) (f : string → string)
    (paths : list string) :
  (∀ i, d !! i = f <$> paths !! i) →
  Orchestrator.audio_files_of d = f <$> paths.
Proof.
  intros Hd. unfold Orchestrator.audio_files_of.
  rewrite (sorted_keys_seq d (length paths)).
  - apply omap_lookup_seq. intros k. apply Hd.
  - intros i. rewrite Hd, fmap_is_Some. apply lookup_lt_is_Some.
Qed.

Lemma remove_caught (p : string) (w : world) :
  ∃ w', try_except (os_remove p) (fun _ => ret tt) w = (Ok tt, w')
        ∧ w_log w' = w_log w.
Proof.
  unfold try_except, os_remove, ret.
  destruct (w_files w !! p); by eexists.
Qed.

Section OrchestratorFacts.
Import Orchestrator.
Variable sanitize : string → string.
Variable ffmpeg : list string → proc_outcome.
Variable ffprobe : list string → proc_outcome.
Variable py_float : string → option float.
Variable py_str : float → string.
Variable transcripts : list transcript.
Variable config_data : config.
Variable tts_adapter : gmap string adapter.
Variable enable_trim_silence : bool.

Abbreviation max_retries := (default 3%Z (cfg_tts_max_retries config_data)).
Abbreviation future_result :=
  (future_result sanitize transcripts config_data tts_adapter max_retries).
Abbreviation trim :=
  (Trim.trim_audio_silence_default ffmpeg ffprobe py_float py_str).
Abbreviation collect_one :=
  (collect_one sanitize ffmpeg ffprobe py_float py_str transcripts config_data
     tts_adapter max_retries enable_trim_silence).
Abbreviation collect :=
  (collect sanitize ffmpeg ffprobe py_float py_str transcripts config_data
     tts_adapter max_retries enable_trim_silence).
Abbreviation drain :=
  (drain sanitize transcripts config_data tts_adapter max_retries).
Abbreviation item_succeeds :=
  (item_succeeds sanitize ffmpeg ffprobe py_float py_str transcripts
     config_data tts_adapter enable_trim_silence).

Lemma collect_one_ok (i : nat) (p : string) (d : gmap nat string) (w : world) :
  item_succeeds i p →
  ∃ w', collect_one d i w = (Ok (<[i := trimmed_path p]> d), w').
Proof.
  intros (Hne & Htask & Htrim).
  destruct (Htask w) as (w1 & Hrun1).
  destruct (Htrim w1) as (w2 & Hrun2).
  destruct (remove_caught p w2) as (w3 & Hrun3 & _).
  exists w3. unfold Orchestrator.collect_one, bind. rewrite Hrun1.
  cbn [truthy default].
  destruct (String.eqb p "") eqn:He; [by apply String.eqb_eq in He|].
  cbn [negb]. unfold id. rewrite Hrun2, Hrun3. done.
Qed.

Lemma collected_lookup (paths : list string) (order : list nat)
    (d : gmap nat string) (i : nat) :
  collected paths order d !! i =
  if bool_decide (i ∈ order ∧ is_Some (paths !! i))
  then trimmed_path <$> paths !! i
  else d !! i.
Proof.
  revert d. induction order as [|j order IH]; intros d.
  - unfold collected. cbn [foldl].
    case_bool_decide as H; [|done]. destruct H as [H _]. by apply elem_of_nil in H.
  - unfold collected in *. cbn [foldl]. rewrite IH.
    case_bool_decide as H1; case_bool_decide as H2; try done.
    + exfalso. apply H2. destruct H1 as [H1 Hs]. split; [by right|done].
    + destruct H2 as [H2 [p Hp]].
      apply elem_of_cons in H2 as [->|H2]; [|exfalso; apply H1; eauto].
      rewrite Hp. simpl. apply lookup_insert_eq.
    + destruct (paths !! j) as [p|] eqn:Hj; [|done].
      apply lookup_insert_ne. intros ->. apply H2. split; [left|eauto].
Qed.

Lemma collect_all_ok (paths : list string) (order : list nat)
    (d : gmap nat string) (consumed : list nat) (w : world) :
  (∀ i p, paths !! i = Some p → item_succeeds i p) →
  (∀ i, i ∈ order → is_Some (paths !! i)) →
  ∃ w', collect order d consumed w
        = (Ok (collected paths order d, consumed ++ order, None), w').
Proof.
  intros Hall. revert d consumed w.
  induction order as [|i order IH]; intros d consumed w Hin.
  - exists w. cbn [Orchestrator.collect]. unfold collected. cbn [foldl].
    by rewrite app_nil_r.
  - destruct (Hin i) as [p Hp]; [left|].
    destruct (collect_one_ok i p d w (Hall i p Hp)) as (w1 & Hrun1).
    destruct (IH (<[i := trimmed_path p]> d) (consumed ++ [i]) w1)
      as (w2 & Hrun2); [intros j Hj; apply Hin; by right|].
    exists w2. cbn [Orchestrator.collect]. rewrite Hrun1, Hrun2.
    unfold collected. cbn [foldl]. rewrite Hp. by rewrite <- app_assoc.
Qed.

Lemma drain_consumed (started : nat → bool) (consumed indices : list nat)
    (w : world) :
  (∀ i, i ∈ indices → i ∈ consumed) →
  drain started consumed indices w = (Ok tt, w).
Proof.
  revert w. induction indices as [|i indices IH]; intros w Hin; [done|].
  cbn [Orchestrator.drain]. unfold bind.
  rewrite (bool_decide_eq_true_2 (i ∈ consumed)) by (apply Hin; left).
  cbn [negb]. rewrite andb_false_r. unfold ret at 1.
  apply IH. intros j Hj. apply Hin. by right.
Qed.

(** The successful run: the trimmed files, in the order of the items. *)
Lemma generate_all_ordered (paths : list string) (threads : Z)
    (sched : schedule) (w : world) :
  (0 < threads)%Z →
  length paths = length transcripts →
  completion_order sched ≡ₚ seq 0 (length transcripts) →
  (∀ i p, paths !! i = Some p → item_succeeds i p) →
  ∃ w',
    _generate_all_audio_files sanitize ffmpeg ffprobe py_float py_str
      transcripts config_data tts_adapter threads enable_trim_silence sched w
    = (Ok (trimmed_path <$> paths), w').
Proof.
  intros Hthreads Hlen Hperm Hall.
  assert (∀ i, i ∈ completion_order sched ↔ (i < length transcripts)%nat) as Hmem.
  { intros i. rewrite Hperm, elem_of_seq. lia. }
  destruct (collect_all_ok paths (completion_order sched) ∅ [] w Hall)
    as (w1 & Hrun1).
  { intros i Hi. apply lookup_lt_is_Some. rewrite Hlen. by apply Hmem. }
  exists w1. unfold _generate_all_audio_files.
  destruct (threads <=? 0)%Z eqn:Ht; [apply Z.leb_le in Ht; lia|].
  unfold bind at 1. rewrite Hrun1. cbn [app].
  unfold bind. rewrite drain_consumed.
  - unfold ret. f_equal. f_equal. apply audio_files_of_list.
    intros i. rewrite collected_lookup, lookup_empty.
    case_bool_decide as H; [done|].
    destruct (paths !! i) as [p|] eqn:Hp; [|done].
    exfalso. apply H. split; [|eauto].
    apply Hmem. rewrite <- Hlen. apply lookup_lt_is_Some. eauto.
  - intros i Hi. apply Hmem. apply elem_of_seq in Hi. lia.
Qed.

End OrchestratorFacts.

Lemma create_file_list_spec (unique_id : string) (audio_files : list string)
    (expected_count : Z) (w : world) :
  Concat._create_ffmpeg_file_list unique_id audio_files expected_count w =
  match audio_files with
  | [] => (Raise Concat.no_audio_files_error, w)
  | _ :: _ =>
      if (Z.of_nat (length audio_files) =? expected_count)%Z then
        let path := PyStr.path_join module_output_dir
                      ("file_list_" +:+ unique_id +:+ ".txt") in
        (Ok path,
         {| w_files := <[path := Concat.file_list_content audio_files]> (w_files w);
            w_log := w_log w |})
      else
        (Raise (Concat.count_mismatch_error expected_count (length audio_files)), w)
  end.
Proof.
  unfold Concat._create_ffmpeg_file_list.
  destruct audio_files as [|f fs]; [done|].
  by destruct (Z.of_nat (length (f :: fs)) =? expected_count)%Z.
Qed.

(** C1, as amended. For a script of [N >= 1] transcripts, when the task
    of every item gives a clip and the trimming of every clip succeeds, the
    run collects the [N] trimmed clips in the order of the items, whatever
    the order in which the workers complete, and the file list names them
    in that order. When the number of collected clips differs from the
    expected count, no file list is written and its creation fails: with
    the error that no audio files were generated when no clip was
    collected, with the count-mismatch error otherwise. *)
Theorem clips_in_script_order :
  (∀ (sanitize : string → string) (ffmpeg ffprobe : list string → proc_outcome)
     (py_float : string → option float) (py_str : float → string)
     (transcripts : list transcript) (config_data : config)
     (tts_adapter : gmap string adapter) (enable_trim_silence : bool)
     (paths : list string) (threads : Z) (sched : Orchestrator.schedule)
     (unique_id : string) (w : world),
     (0 < threads)%Z →
     transcripts ≠ [] →
     length paths = length transcripts →
     Orchestrator.completion_order sched ≡ₚ seq 0 (length transcripts) →
     (∀ i p, paths !! i = Some p →
             item_succeeds sanitize ffmpeg ffprobe py_float py_str transcripts
               config_data tts_adapter enable_trim_silence i p) →
     let clips := Orchestrator.trimmed_path <$> paths in
     let file_list_path :=
       PyStr.path_join module_output_dir ("file_list_" +:+ unique_id +:+ ".txt") in
     ∃ w1 w2,
       Orchestrator._generate_all_audio_files sanitize ffmpeg ffprobe py_float
         py_str transcripts config_data tts_adapter threads enable_trim_silence
         sched w = (Ok clips, w1) ∧
       length clips = length transcripts ∧
       Concat._create_ffmpeg_file_list unique_id clips
         (Z.of_nat (length transcripts)) w1 = (Ok file_list_path, w2) ∧
       w_files w2 !! file_list_path
         = Some (foldr (fun clip rest => Concat.file_line clip +:+ rest) "" clips)) ∧
  (∀ (unique_id : string) (audio_files : list string) (expected_count : Z)
     (w : world),
     Z.of_nat (length audio_files) ≠ expected_count →
     Concat._create_ffmpeg_file_list unique_id audio_files expected_count w =
     (Raise (match audio_files with
             | [] => Concat.no_audio_files_error
             | _ :: _ =>
                 Concat.count_mismatch_error expected_count (length audio_files)
             end), w)).
Proof.
  split.
  - intros sanitize ffmpeg ffprobe py_float py_str transcripts config_data
      tts_adapter enable_trim_silence paths threads sched unique_id w
      Hthreads Hne Hlen Hperm Hall clips file_list_path.
    destruct (generate_all_ordered sanitize ffmpeg ffprobe py_float py_str
                transcripts config_data tts_adapter enable_trim_silence paths
                threads sched w Hthreads Hlen Hperm Hall) as (w1 & Hrun).
    eexists w1, _. split; [exact Hrun|].
    assert (length clips = length transcripts) as Hclips
      by (subst clips; by rewrite length_fmap).
    split; [exact Hclips|].
    rewrite create_file_list_spec.
    destruct clips as [|c cs] eqn:Hc.
    { destruct transcripts; [done|]. simpl in Hclips. lia. }
    rewrite <- Hc in *. rewrite Hclips, Z.eqb_refl.
    split; [reflexivity|]. cbn [w_files]. apply lookup_insert_eq.
  - intros unique_id audio_files expected_count w Hne.
    rewrite create_file_list_spec.
    destruct audio_files as [|f fs]; [done|].
    destruct (Z.of_nat (length (f :: fs)) =? expected_count)%Z eqn:He; [|done].
    apply Z.eqb_eq in He. done.
Qed.

Lemma demo_items_succeed (i : nat) (p : string) :
  Demo.two_clips !! i = Some p →
  item_succeeds Demo.sanitize_plain Demo.ffmpeg_ok Demo.ffprobe_ok
    Demo.float_of_decimal Demo.str_of_float Demo.two_lines
    (Demo.configuration None) (Demo.adapters Demo.adapter_ok) true i p.
Proof.
  intros Hp. destruct i as [|[|i]]; [| |done]; injection Hp as <-;
    (split; [discriminate|]);
    (split; intros w; eexists; vm_compute; reflexivity).
Qed.

(** The two lines of the script, the second one done first: the clips and
    the file list are in the order of the lines. *)
Lemma clips_in_script_order_witness :
  let clips := Orchestrator.trimmed_path <$> Demo.two_clips in
  let file_list_path :=
    PyStr.path_join module_output_dir ("file_list_" +:+ "f11e" +:+ ".txt") in
  ∃ w1 w2,
    Orchestrator._generate_all_audio_files Demo.sanitize_plain Demo.ffmpeg_ok
      Demo.ffprobe_ok Demo.float_of_decimal Demo.str_of_float Demo.two_lines
      (Demo.configuration None) (Demo.adapters Demo.adapter_ok) 2%Z true
      Demo.second_first Demo.world0 = (Ok clips, w1) ∧
    length clips = length Demo.two_lines ∧
    Concat._create_ffmpeg_file_list "f11e" clips
      (Z.of_nat (length Demo.two_lines)) w1 = (Ok file_list_path, w2) ∧
    w_files w2 !! file_list_path
      = Some (foldr (fun clip rest => Concat.file_line clip +:+ rest) "" clips).
Proof.
  apply (proj1 clips_in_script_order Demo.sanitize_plain Demo.ffmpeg_ok
           Demo.ffprobe_ok Demo.float_of_decimal Demo.str_of_float
           Demo.two_lines (Demo.configuration None)
           (Demo.adapters Demo.adapter_ok) true Demo.two_clips 2%Z
           Demo.second_first "f11e" Demo.world0).
  - lia.
  - discriminate.
  - reflexivity.
  - simpl. apply Permutation_swap.
  - apply demo_items_succeed.
Defined.

(** C1 as stated does not hold in its second part. With [tts_max_retries]
    set to 0 no task makes a request or raises, no clip is collected for
    the two lines of the script, and the creation of the file list fails
    with the error that no audio files were generated, which is not the
    count-mismatch error. *)
Lemma empty_collection_is_not_a_count_mismatch :
  fst (Orchestrator._generate_all_audio_files Demo.sanitize_plain Demo.ffmpeg_ok
         Demo.ffprobe_ok Demo.float_of_decimal Demo.str_of_float Demo.two_lines
         (Demo.configuration (Some 0%Z)) (Demo.adapters Demo.adapter_ok) 2%Z
         true Demo.second_first Demo.world0) = Ok [] ∧
  fst (Concat._create_ffmpeg_file_list "f11e" [] 2%Z Demo.world0)
    = Raise Concat.no_audio_files_error ∧
  Concat.no_audio_files_error ≠ Concat.count_mismatch_error 2%Z 0%nat.
Proof.
  split; [vm_compute; reflexivity|]. split; [reflexivity|].
  vm_compute. discriminate.
Qed.

(** ** Runs of the stand-ins *)

(** A roster without owners, loaded from the configuration file of
    another provider: the provider is edge-tts. *)
Lemma load_configuration_path_provider_witness :
  ∃ cfg',
    Configuration._load_configuration_path Demo.load_json_config
      "../config/fish-audio.json" (Some Demo.roster_without_owners) = Ok cfg' ∧
    cfg_tts_provider cfg' = Some "edge-tts".
Proof.
  destruct (load_configuration_path_provider Demo.load_json_config
              "../config/fish-audio.json" (Some Demo.roster_without_owners)
              (Demo.configuration None) eq_refl)
    as (cfg' & Hload & Hnone & _).
  exists cfg'. split; [exact Hload|]. apply Hnone.
  intros u Hu. vm_compute in Hu.
  apply elem_of_cons in Hu as [->|Hu]; [reflexivity|].
  apply elem_of_cons in Hu as [->|Hu]; [reflexivity|].
  by apply elem_of_nil in Hu.
Defined.



(** C4 as stated does not hold: the number of attempts is the
    [tts_max_retries] of the configuration. With 5 there, the task of an
    item whose adapter is down makes 5 requests. *)
Lemma retry_count_follows_configuration :
  synth_calls
    (w_log (snd (Orchestrator._generate_all_audio_files Demo.sanitize_plain
                   Demo.ffmpeg_ok Demo.ffprobe_ok Demo.float_of_decimal
                   Demo.str_of_float Demo.two_lines
                   (Demo.configuration (Some 5%Z))
                   (Demo.adapters Demo.adapter_down) 1%Z true
                   {| Orchestrator.completion_order := [0%nat];
                      Orchestrator.at_abort :=
                        fun i => match i with
                                 | 0%nat => Orchestrator.Finished
                                 | _ => Orchestrator.Pending
                                 end |}
                   Demo.world0)))
  = 5%nat.
Proof. vm_compute. reflexivity. Qed.

(** ** The first failure aborts the run *)

Lemma calls_with_backoff_worker (provider : string) (rq : tts_request)
    (start n : nat) :
  forallb is_worker_event (calls_with_backoff provider rq start n) = true.
Proof. revert start. induction n as [|n IH]; intros start; simpl; [done|apply IH]. Qed.

Lemma cancel_outstanding_spec (at_abort : nat → Orchestrator.future_state)
    (indices : list nat) (w : world) :
  Orchestrator.cancel_outstanding at_abort indices w
  = (Ok tt, logged w (EvCancel <$> pending_indices at_abort indices)).
Proof.
  revert w. induction indices as [|i indices IH]; intros w.
  - unfold logged. simpl. rewrite app_nil_r. by destruct w.
  - cbn [Orchestrator.cancel_outstanding pending_indices List.filter].
    unfold bind. destruct (at_abort i); simpl; rewrite IH; try done.
    unfold logged. simpl. by rewrite <- app_assoc.
Qed.

Section AbortFacts.
Import Orchestrator.
Variable sanitize : string → string.
Variable ffmpeg : list string → proc_outcome.
Variable ffprobe : list string → proc_outcome.
Variable py_float : string → option float.
Variable py_str : float → string.
Variable transcripts : list transcript.
Variable config_data : config.
Variable tts_adapter : gmap string adapter.
Variable enable_trim_silence : bool.

Abbreviation max_retries := (default 3%Z (cfg_tts_max_retries config_data)).
Abbreviation future_result :=
  (future_result sanitize transcripts config_data tts_adapter max_retries).
Abbreviation collect_one :=
  (collect_one sanitize ffmpeg ffprobe py_float py_str transcripts config_data
     tts_adapter max_retries enable_trim_silence).
Abbreviation collect :=
  (collect sanitize ffmpeg ffprobe py_float py_str transcripts config_data
     tts_adapter max_retries enable_trim_silence).
Abbreviation drain :=
  (drain sanitize transcripts config_data tts_adapter max_retries).

(** The work of a future logs requests and sleeps only, and touches no
    file. *)
Lemma future_result_events (i : nat) (w : world) :
  ∃ r w' trace,
    future_result i w = (r, w') ∧
    w_files w' = w_files w ∧
    w_log w' = w_log w ++ trace ∧
    forallb is_worker_event trace = true.
Proof.
  unfold Orchestrator.future_result.
  destruct (transcripts !! i) as [item|];
    [|eexists _, _, []; split; [reflexivity|]; split; [done|];
      split; [apply app_nil_log|done]].
  unfold Synthesis.generate_audio_for_item.
  destruct (speaker_id item) as [sid|].
  - destruct (generate_audio_for_speaker_spec sanitize sid (dialog item)
                config_data tts_adapter max_retries w)
      as (r & w' & trace & Hrun & Hfiles & Hlog & Hshape).
    exists r, w', trace. split; [done|]. split; [done|]. split; [done|].
    destruct Hshape as [->|(provider & a & rq & n & _ & _ & -> & _)]; [done|].
    rewrite forallb_app, calls_with_backoff_worker. done.
  - destruct (cfg_podUsers config_data);
      eexists _, _, []; rewrite raise_run;
      (split; [reflexivity|]); (split; [done|]);
      (split; [apply app_nil_log|done]).
Qed.

Lemma drain_spec (started : nat → bool) (consumed indices : list nat)
    (w : world) :
  ∃ w' trace,
    drain started consumed indices w = (Ok tt, w') ∧
    w_files w' = w_files w ∧
    w_log w' = w_log w ++ trace ∧
    forallb is_worker_event trace = true.
Proof.
  revert w. induction indices as [|i indices IH]; intros w.
  - exists w, []. split; [done|]. split; [done|]. split; [apply app_nil_log|done].
  - cbn [Orchestrator.drain]. unfold bind at 1.
    destruct (started i && negb (bool_decide (i ∈ consumed))).
    + destruct (future_result_events i w) as (r & w1 & t1 & Hrun & Hf1 & Hl1 & Hw1).
      destruct (IH w1) as (w2 & t2 & Hrun2 & Hf2 & Hl2 & Hw2).
      exists w2, (t1 ++ t2). unfold try_except, bind. rewrite Hrun.
      destruct r as [x|e]; unfold ret at 1; simpl; rewrite Hrun2;
        (split; [done|]); (split; [congruence|]);
        (split; [rewrite Hl2, Hl1; by rewrite app_assoc|]);
        rewrite forallb_app, Hw1, Hw2; done.
    + unfold ret at 1. apply IH.
Qed.

(** The loop over the completed futures, when the round of [k] is the
    first that fails: the rounds behind it are not made. *)
Lemma collect_first_failure (pre post : list nat) (k : nat) (e : exn)
    (d : gmap nat string) (consumed : list nat) (w : world) :
  (∀ i, i ∈ pre → ∀ d w, is_ok (fst (collect_one d i w)) = true) →
  (∀ d w, fst (collect_one d k w) = Raise e) →
  ∃ d' w',
    collect (pre ++ k :: post) d consumed w
    = (Ok (d', consumed ++ pre ++ [k], Some (item_error k e)), w') ∧
    collect (pre ++ [k]) d consumed w
    = (Ok (d', consumed ++ pre ++ [k], Some (item_error k e)), w').
Proof.
  intros Hpre Hk. revert d consumed w.
  induction pre as [|i pre IH]; intros d consumed w.
  - cbn [app Orchestrator.collect].
    pose proof (Hk d w) as Hfail.
    destruct (collect_one d k w) as [r w1]. simpl in Hfail. subst r.
    by exists d, w1.
  - cbn [app Orchestrator.collect].
    pose proof (Hpre i ltac:(left) d w) as Hok.
    destruct (collect_one d i w) as [[d1|e1] w1]; [|done].
    destruct (IH ltac:(intros j Hj; apply Hpre; by right) d1 (consumed ++ [i]) w1)
      as (d' & w' & H1 & H2).
    exists d', w'. rewrite H1, H2. by rewrite <- !app_assoc.
Qed.

(** The run of the orchestrator when the round of [k] is the first that
    fails. *)
Lemma generate_all_aborts (threads : Z) (sched : schedule)
    (pre post : list nat) (k : nat) (e : exn) (w : world) :
  (0 < threads)%Z →
  completion_order sched = pre ++ k :: post →
  (∀ i, i ∈ pre → ∀ d w, is_ok (fst (collect_one d i w)) = true) →
  (∀ d w, fst (collect_one d k w) = Raise e) →
  ∃ w_rounds w' workers,
    snd (collect (pre ++ [k]) ∅ [] w) = w_rounds ∧
    _generate_all_audio_files sanitize ffmpeg ffprobe py_float py_str
      transcripts config_data tts_adapter threads enable_trim_silence sched w
    = (Raise (item_error k e), w') ∧
    w_log w' = w_log w_rounds
               ++ (EvCancel <$> pending_indices (at_abort sched)
                                  (seq 0 (length transcripts)))
               ++ workers ∧
    forallb is_worker_event workers = true ∧
    w_files w' = w_files w_rounds.
Proof.
  intros Hthreads Horder Hpre Hk.
  destruct (collect_first_failure pre post k e ∅ [] w Hpre Hk)
    as (d' & w1 & Hrun & Hrun').
  unfold _generate_all_audio_files.
  destruct (threads <=? 0)%Z eqn:Ht; [apply Z.leb_le in Ht; lia|].
  rewrite Horder. unfold bind at 1. rewrite Hrun. cbv iota beta.
  unfold bind at 1. rewrite cancel_outstanding_spec.
  destruct (drain_spec (fun i => is_started (at_abort sched i))
              ([] ++ pre ++ [k]) (seq 0 (length transcripts))
              (logged w1 (EvCancel <$> pending_indices (at_abort sched)
                                         (seq 0 (length transcripts)))))
    as (w2 & workers & Hdrain & Hf & Hl & Hw).
  exists w1, w2, workers. rewrite Hrun'. split; [done|].
  unfold bind. rewrite Hdrain. split; [done|].
  split; [rewrite Hl; unfold logged; simpl; by rewrite <- app_assoc|].
  split; [done|]. rewrite Hf. done.
Qed.

End AbortFacts.

(** ** The retry of the task, in the orchestrator *)

(** ** Computations that only add to the log *)

Section LogFacts.

Lemma extends_ret {A} (a : A) : extends_log (ret a).
Proof. intros w. exists []. simpl. by rewrite app_nil_r. Qed.

Lemma extends_raise {A} (e : exn) : extends_log (raise (A := A) e).
Proof. intros w. exists []. simpl. by rewrite app_nil_r. Qed.

Lemma extends_emit (e : event) : extends_log (emit e).
Proof. intros w. by exists [e]. Qed.

Lemma extends_bind {A B} (m : M A) (k : A → M B) :
  extends_log m → (∀ a, extends_log (k a)) → extends_log (bind m k).
Proof.
  intros Hm Hk w. unfold bind. destruct (Hm w) as [t1 H1].
  destruct (m w) as [[a|e] w1]; simpl in *.
  - destruct (Hk a w1) as [t2 H2]. exists (t1 ++ t2).
    by rewrite H2, H1, app_assoc.
  - by exists t1.
Qed.

Lemma extends_try_except {A} (m : M A) (h : exn → M A) :
  extends_log m → (∀ e, extends_log (h e)) → extends_log (try_except m h).
Proof.
  intros Hm Hh w. unfold try_except. destruct (Hm w) as [t1 H1].
  destruct (m w) as [[a|e] w1]; simpl in *.
  - by exists t1.
  - destruct (Hh e w1) as [t2 H2]. exists (t1 ++ t2).
    by rewrite H2, H1, app_assoc.
Qed.

Lemma extends_write_file (p content : string) : extends_log (write_file p content).
Proof. intros w. exists []. simpl. by rewrite app_nil_r. Qed.

Lemma extends_os_remove (p : string) : extends_log (os_remove p).
Proof.
  intros w. exists []. unfold os_remove.
  destruct (w_files w !! p); simpl; by rewrite app_nil_r.
Qed.

End LogFacts.

Ltac extends_step :=
  first
    [ apply extends_ret | apply extends_raise | apply extends_emit
    | apply extends_write_file | apply extends_os_remove
    | apply extends_bind; [|intros ?]
    | apply extends_try_except; [|intros ?]
    | match goal with
      | |- extends_log (match ?x with _ => _ end) => destruct x
      end ].

Section RetryOfTheTask.
Import Synthesis Orchestrator.
Variable sanitize : string → string.
Variable ffmpeg : list string → proc_outcome.
Variable ffprobe : list string → proc_outcome.
Variable py_float : string → option float.
Variable py_str : float → string.

Lemma extends_trim (input_filepath output_filepath : string) (enable_trim : bool) :
  extends_log (Trim.trim_audio_silence_default ffmpeg ffprobe py_float py_str
                 input_filepath output_filepath enable_trim).
Proof.
  unfold Trim.trim_audio_silence_default, Trim.trim_audio_silence,
    Trim.detect_and_trim, Trim.run_checked, Trim.get_audio_duration,
    subprocess_run.
  repeat extends_step.
Qed.

Lemma extends_task (item : transcript) (config_data : config)
    (tts_adapter : gmap string adapter) (max_retries : Z) :
  extends_log (generate_audio_for_item sanitize item config_data tts_adapter
                 max_retries).
Proof.
  unfold generate_audio_for_item, generate_audio_for_speaker.
  repeat extends_step.
  generalize (py_range max_retries). intros attempts.
  induction attempts as [|attempt rest IH]; cbn [attempt_loop]; [extends_step|].
  unfold time_sleep. repeat extends_step. exact IH.
Qed.

Section Rounds.
Variable transcripts : list transcript.
Variable config_data : config.
Variable tts_adapter : gmap string adapter.
Variable max_retries : Z.
Variable enable_trim_silence : bool.

Abbreviation task item :=
  (generate_audio_for_item sanitize item config_data tts_adapter max_retries).
Abbreviation round :=
  (collect_one sanitize ffmpeg ffprobe py_float py_str transcripts config_data
     tts_adapter max_retries enable_trim_silence).
Abbreviation rounds :=
  (collect sanitize ffmpeg ffprobe py_float py_str transcripts config_data
     tts_adapter max_retries enable_trim_silence).

(** A round begins with the task of its item. *)
Lemma round_begins_with_task (d : gmap nat string) (k : nat) (item : transcript)
    (w : world) :
  transcripts !! k = Some item →
  ∃ more, w_log (snd (round d k w)) = w_log (snd (task item w)) ++ more.
Proof.
  intros Hk. unfold collect_one, future_result, bind at 1. rewrite Hk.
  destruct (task item w) as [[original|e] w1]; simpl;
    [|exists []; by rewrite app_nil_r].
  assert (extends_log
            (if truthy original
             then
               do _ <- Trim.trim_audio_silence_default ffmpeg ffprobe py_float
                         py_str (default "" original)
                         (trimmed_path (default "" original))
                         enable_trim_silence ;;
               do _ <- try_except (os_remove (default "" original))
                         (fun _ => ret tt) ;;
               ret (<[k := trimmed_path (default "" original)]> d)
             else ret d)) as H.
  { destruct (truthy original); [|extends_step].
    apply extends_bind; [apply extends_trim|intros _]. repeat extends_step. }
  apply H.
Qed.

Lemma extends_round (d : gmap nat string) (k : nat) : extends_log (round d k).
Proof.
  unfold collect_one, future_result.
  apply extends_bind.
  - destruct (transcripts !! k); [apply extends_task|extends_step].
  - intros original. destruct (truthy original); [|extends_step].
    apply extends_bind; [apply extends_trim|intros _]. repeat extends_step.
Qed.

Lemma extends_rounds (order : list nat) (d : gmap nat string) (consumed : list nat) :
  extends_log (rounds order d consumed).
Proof.
  revert d consumed. induction order as [|k order IH]; intros d consumed w.
  - exists []. simpl. by rewrite app_nil_r.
  - cbn [collect]. destruct (extends_round d k w) as [t1 H1].
    destruct (round d k w) as [[d1|e] w1]; simpl in *.
    + destruct (IH d1 (consumed ++ [k]) w1) as [t2 H2].
      exists (t1 ++ t2). by rewrite H2, H1, app_assoc.
    + by exists t1.
Qed.

(** The rounds behind rounds that made no error. *)
Lemma rounds_app (pre rest : list nat) (d d' : gmap nat string)
    (consumed consumed' : list nat) (w w' : world) :
  rounds pre d consumed w = (Ok (d', consumed', None), w') →
  rounds (pre ++ rest) d consumed w = rounds rest d' consumed' w'.
Proof.
  revert d consumed w. induction pre as [|k pre IH]; intros d consumed w.
  - cbn [collect app]. unfold ret. by intros [= -> -> ->].
  - cbn [collect app]. destruct (round d k w) as [[d1|e] w1]; [apply IH|done].
Qed.

Lemma extends_drain (started : nat → bool) (consumed indices : list nat) :
  extends_log (drain sanitize transcripts config_data tts_adapter max_retries
                 started consumed indices).
Proof.
  induction indices as [|i indices IH]; cbn [drain]; [extends_step|].
  apply extends_bind; [|intros _; exact IH].
  destruct (started i && negb (bool_decide (i ∈ consumed))); [|extends_step].
  apply extends_try_except; [|intros; extends_step].
  apply extends_bind; [|intros; extends_step].
  unfold future_result.
  destruct (transcripts !! i); [apply extends_task|extends_step].
Qed.

End Rounds.

Lemma extends_cancel (at_abort : nat → future_state) (indices : list nat) :
  extends_log (cancel_outstanding at_abort indices).
Proof.
  induction indices as [|i indices IH]; cbn [cancel_outstanding]; [extends_step|].
  apply extends_bind; [|intros _; exact IH]. destruct (at_abort i); extends_step.
Qed.

(** The task of an item whose speaker has a voice code and an adapter. *)
Lemma task_retry_spec (item : transcript) (config_data : config)
    (tts_adapter : gmap string adapter) (max_retries sid : Z)
    (entry : pod_user) (code provider : string) (a : adapter) (w : world) :
  let voice :=
    Speakers.voice_map (default [] (cfg_voices config_data)) !! code in
  let rq :=
    {| rq_text := sanitize (dialog item);
       rq_voice_code := code;
       rq_volume_adjustment := default 0%float (voice ≫= v_volume_adjustment);
       rq_speed_adjustment := default 0%float (voice ≫= v_speed_adjustment) |} in
  speaker_id item = Some sid →
  pod_user_entry config_data sid = Some entry →
  pu_code entry = Some code → code ≠ "" →
  pu_owner entry = Some provider →
  tts_adapter !! provider = Some a →
  generate_audio_for_item sanitize item config_data tts_adapter max_retries w
  = attempt_loop provider a rq sid max_retries (py_range max_retries) w.
Proof.
  intros voice rq Hsid Hentry Hcode Hne Howner Ha.
  unfold generate_audio_for_item. rewrite Hsid.
  unfold generate_audio_for_speaker. rewrite Hentry. cbn [mbind option_bind].
  rewrite Hcode, Howner. cbn [truthy].
  destruct (String.eqb code "") eqn:He; [by apply String.eqb_eq in He|].
  cbn [negb mbind option_bind]. rewrite Ha.
  cbn [fmap option_fmap option_map Speakers.voice_map_get Speakers.str_opt default].
  subst rq voice. unfold id in *. done.
Qed.

(** The run of the orchestrator goes on from the task of every round that
    is reached. *)
Lemma run_goes_on_from_task (transcripts : list transcript)
    (config_data : config) (tts_adapter : gmap string adapter) (threads : Z)
    (enable_trim_silence : bool) (sched : schedule)
    (pre post : list nat) (k : nat) (item : transcript)
    (d : gmap nat string) (consumed : list nat) (w w_k : world) :
  let max_retries := default 3%Z (cfg_tts_max_retries config_data) in
  (0 < threads)%Z →
  completion_order sched = pre ++ k :: post →
  transcripts !! k = Some item →
  collect sanitize ffmpeg ffprobe py_float py_str transcripts config_data
    tts_adapter max_retries enable_trim_silence pre ∅ [] w
  = (Ok (d, consumed, None), w_k) →
  ∃ more,
    w_log (snd (_generate_all_audio_files sanitize ffmpeg ffprobe py_float
                  py_str transcripts config_data tts_adapter threads
                  enable_trim_silence sched w))
    = w_log (snd (generate_audio_for_item sanitize item config_data
                    tts_adapter max_retries w_k))
      ++ more.
Proof.
  intros max_retries Hthreads Horder Hk Hpre.
  unfold _generate_all_audio_files. fold max_retries.
  destruct (threads <=? 0)%Z eqn:Ht; [apply Z.leb_le in Ht; lia|].
  rewrite Horder. unfold bind at 1.
  rewrite (rounds_app transcripts config_data tts_adapter max_retries
             enable_trim_silence pre (k :: post) ∅ d [] consumed w w_k Hpre).
  cbn [collect].
  destruct (round_begins_with_task transcripts config_data tts_adapter
              max_retries enable_trim_silence d k item w_k Hk) as [t1 H1].
  destruct (collect_one sanitize ffmpeg ffprobe py_float py_str transcripts
              config_data tts_adapter max_retries enable_trim_silence d k w_k)
    as [[d1|e] w1]; simpl in H1.
  + destruct (extends_rounds transcripts config_data tts_adapter max_retries
                enable_trim_silence post d1 (consumed ++ [k]) w1) as [t2 H2].
    destruct (collect sanitize ffmpeg ffprobe py_float py_str transcripts
                config_data tts_adapter max_retries enable_trim_silence post
                d1 (consumed ++ [k]) w1) as [[[[d2 c2] exc]|e2] w2];
      simpl in H2; [|exists (t1 ++ t2); simpl; by rewrite H2, H1, app_assoc].
    destruct exc as [e|].
    * destruct (extends_bind
                  (cancel_outstanding (at_abort sched) (seq 0 (length transcripts)))
                  (fun _ =>
                     do _ <- drain sanitize transcripts config_data tts_adapter
                               max_retries
                               (fun i => is_started (at_abort sched i)) c2
                               (seq 0 (length transcripts)) ;;
                     raise (A := list string) e)
                  (extends_cancel _ _)
                  ltac:(intros ?; apply extends_bind;
                        [apply extends_drain|intros ?; apply extends_raise])
                  w2) as [t3 H3].
      exists (t1 ++ t2 ++ t3). rewrite H3, H2, H1. by rewrite <- !app_assoc.
    * destruct (extends_bind
                  (drain sanitize transcripts config_data tts_adapter
                     max_retries (fun _ => true) c2
                     (seq 0 (length transcripts)))
                  (fun _ => ret (audio_files_of d2))
                  (extends_drain _ _ _ _ _ _ _)
                  ltac:(intros ?; apply extends_ret) w2) as [t3 H3].
      exists (t1 ++ t2 ++ t3). rewrite H3, H2, H1. by rewrite <- !app_assoc.
  + destruct (extends_bind
                (cancel_outstanding (at_abort sched) (seq 0 (length transcripts)))
                (fun _ =>
                   do _ <- drain sanitize transcripts config_data tts_adapter
                             max_retries
                             (fun i => is_started (at_abort sched i))
                             (consumed ++ [k])
                             (seq 0 (length transcripts)) ;;
                   raise (A := list string) (item_error k e))
                (extends_cancel _ _)
                ltac:(intros ?; apply extends_bind;
                      [apply extends_drain|intros ?; apply extends_raise])
                w1) as [t3 H3].
    exists (t1 ++ t3). rewrite H3, H1. by rewrite <- !app_assoc.
Qed.

(** A task that fails in a round that is reached fails the run, with the
    error of its item. *)
Lemma failed_task_fails_the_run (transcripts : list transcript)
    (config_data : config) (tts_adapter : gmap string adapter) (threads : Z)
    (enable_trim_silence : bool) (sched : schedule)
    (pre post : list nat) (k : nat) (item : transcript)
    (d : gmap nat string) (consumed : list nat) (w w_k w_k' : world) (e : exn) :
  let max_retries := default 3%Z (cfg_tts_max_retries config_data) in
  (0 < threads)%Z →
  completion_order sched = pre ++ k :: post →
  transcripts !! k = Some item →
  collect sanitize ffmpeg ffprobe py_float py_str transcripts config_data
    tts_adapter max_retries enable_trim_silence pre ∅ [] w
  = (Ok (d, consumed, None), w_k) →
  generate_audio_for_item sanitize item config_data tts_adapter max_retries w_k
  = (Raise e, w_k') →
  fst (_generate_all_audio_files sanitize ffmpeg ffprobe py_float py_str
         transcripts config_data tts_adapter threads enable_trim_silence sched w)
  = Raise (item_error k e).
Proof.
  intros max_retries Hthreads Horder Hk Hpre Htask. subst max_retries.
  unfold _generate_all_audio_files.
  destruct (threads <=? 0)%Z eqn:Ht; [apply Z.leb_le in Ht; lia|].
  rewrite Horder. unfold bind at 1.
  rewrite (rounds_app transcripts config_data tts_adapter _
             enable_trim_silence pre (k :: post) ∅ d [] consumed w w_k Hpre).
  cbn [collect].
  assert (collect_one sanitize ffmpeg ffprobe py_float py_str transcripts
            config_data tts_adapter (default 3%Z (cfg_tts_max_retries config_data))
            enable_trim_silence d k w_k
          = (Raise e, w_k')) as ->.
  { unfold collect_one, future_result, bind at 1. by rewrite Hk, Htask. }
  cbv iota beta. unfold bind at 1. rewrite cancel_outstanding_spec.
  destruct (drain_spec sanitize transcripts config_data tts_adapter
              (fun i => is_started (at_abort sched i)) (consumed ++ [k])
              (seq 0 (length transcripts))
              (logged w_k' (EvCancel <$> pending_indices (at_abort sched)
                                          (seq 0 (length transcripts)))))
    as (w2 & workers & Hdrain & _).
  unfold bind. by rewrite Hdrain.
Qed.

(** C4, as amended. The number of attempts of a synthesis task is
    [max_retries], which the orchestrator takes from [tts_max_retries] of
    the configuration, 3 when the key is absent. For every item the task
    makes at most [max_retries] requests. For an item whose speaker has a
    voice code and an adapter: with [max_retries] at most 0 the task makes
    no request and returns [None]; otherwise it makes the requests number
    0 to [n] for an [n] below [max_retries], every request before the last
    was failed by the adapter with a [RuntimeError] and request number [k]
    was followed by a sleep of [2 ^ k] seconds, and the last request
    decides: its file is returned, its [RuntimeError] ends the task with
    the error of the used-up retries, which only happens at request number
    [max_retries - 1], and another exception ends the task at once with an
    error, whatever attempts are left. Every round of the orchestrator that
    is reached begins with the task of its item, run with
    [tts_max_retries] of the configuration, or 3, and an error of that
    task is the error of the run, with the index of the item. With three
    attempts, an adapter that fails with a [RuntimeError] on the first two
    requests and succeeds on the third gives the file of the third request
    after exactly three requests, with sleeps of 1 and 2 seconds. *)
Theorem synthesis_retry_policy :
  (∀ (item : transcript) (config_data : config)
     (tts_adapter : gmap string adapter) (max_retries : Z) (w : world),
     ∃ r w' trace,
       generate_audio_for_item sanitize item config_data tts_adapter
         max_retries w = (r, w') ∧
       w_log w' = w_log w ++ trace ∧
       (Z.of_nat (synth_calls trace) ≤ Z.max 0 max_retries)%Z) ∧
  (∀ (item : transcript) (config_data : config)
     (tts_adapter : gmap string adapter) (max_retries sid : Z)
     (entry : pod_user) (code provider : string) (a : adapter) (w : world),
     let voice :=
       Speakers.voice_map (default [] (cfg_voices config_data)) !! code in
     let rq :=
       {| rq_text := sanitize (dialog item);
          rq_voice_code := code;
          rq_volume_adjustment := default 0%float (voice ≫= v_volume_adjustment);
          rq_speed_adjustment := default 0%float (voice ≫= v_speed_adjustment) |} in
     speaker_id item = Some sid →
     pod_user_entry config_data sid = Some entry →
     pu_code entry = Some code → code ≠ "" →
     pu_owner entry = Some provider →
     tts_adapter !! provider = Some a →
     ∃ r w' trace,
       generate_audio_for_item sanitize item config_data tts_adapter
         max_retries w = (r, w') ∧
       w_files w' = w_files w ∧
       w_log w' = w_log w ++ trace ∧
       (Z.of_nat (synth_calls trace) ≤ Z.max 0 max_retries)%Z ∧
       ((max_retries ≤ 0)%Z ∧ trace = [] ∧ r = Ok None
        ∨
        ∃ n,
          (Z.of_nat n < max_retries)%Z ∧
          trace = calls_with_backoff provider rq 0 n
                  ++ [EvSynthesize provider rq] ∧
          (∀ k, (k < n)%nat →
                ∃ e, a rq k = Raise e ∧ is_RuntimeError e = true) ∧
          final_outcome a rq sid max_retries n r)) ∧
  (∀ (transcripts : list transcript) (config_data : config)
     (tts_adapter : gmap string adapter) (threads : Z)
     (enable_trim_silence : bool) (sched : schedule)
     (pre post : list nat) (k : nat) (item : transcript)
     (d : gmap nat string) (consumed : list nat) (w w_k : world),
     let max_retries := default 3%Z (cfg_tts_max_retries config_data) in
     (0 < threads)%Z →
     completion_order sched = pre ++ k :: post →
     transcripts !! k = Some item →
     collect sanitize ffmpeg ffprobe py_float py_str transcripts config_data
       tts_adapter max_retries enable_trim_silence pre ∅ [] w
     = (Ok (d, consumed, None), w_k) →
     ∃ r_k w_k' r w' more,
       generate_audio_for_item sanitize item config_data tts_adapter
         max_retries w_k = (r_k, w_k') ∧
       _generate_all_audio_files sanitize ffmpeg ffprobe py_float py_str
         transcripts config_data tts_adapter threads enable_trim_silence
         sched w = (r, w') ∧
       w_log w' = w_log w_k' ++ more ∧
       (∀ e, r_k = Raise e → r = Raise (item_error k e))) ∧
  (∀ (item : transcript) (config_data : config)
     (tts_adapter : gmap string adapter) (sid : Z)
     (entry : pod_user) (code provider : string) (a : adapter)
     (e0 e1 : exn) (f : string) (w : world),
     let voice :=
       Speakers.voice_map (default [] (cfg_voices config_data)) !! code in
     let rq :=
       {| rq_text := sanitize (dialog item);
          rq_voice_code := code;
          rq_volume_adjustment := default 0%float (voice ≫= v_volume_adjustment);
          rq_speed_adjustment := default 0%float (voice ≫= v_speed_adjustment) |} in
     speaker_id item = Some sid →
     pod_user_entry config_data sid = Some entry →
     pu_code entry = Some code → code ≠ "" →
     pu_owner entry = Some provider →
     tts_adapter !! provider = Some a →
     a rq 0%nat = Raise e0 → is_RuntimeError e0 = true →
     a rq 1%nat = Raise e1 → is_RuntimeError e1 = true →
     a rq 2%nat = Ok f →
     ∃ w',
       generate_audio_for_item sanitize item config_data tts_adapter 3 w
       = (Ok (Some f), w') ∧
       w_files w' = w_files w ∧
       w_log w' = w_log w ++ [EvSynthesize provider rq; EvSleep 1;
                              EvSynthesize provider rq; EvSleep 2;
                              EvSynthesize provider rq] ∧
       synth_calls (w_log w') = (synth_calls (w_log w) + 3)%nat).
Proof.
  split; [|split; [|split]].
  - intros item config_data tts_adapter max_retries w.
    unfold generate_audio_for_item.
    destruct (speaker_id item) as [sid|] eqn:Hsid.
    + destruct (generate_audio_for_speaker_spec sanitize sid (dialog item)
                  config_data tts_adapter max_retries w)
        as (r & w' & trace & Hrun & _ & Hlog & Hshape).
      exists r, w', trace. split; [exact Hrun|]. split; [exact Hlog|].
      destruct Hshape as [->|(provider & a & rq & n & Ha & Hn & -> & Hfail & Hfin)].
      * unfold synth_calls; simpl; lia.
      * rewrite synth_calls_app, synth_calls_backoff.
        unfold synth_calls. simpl. lia.
    + destruct (cfg_podUsers config_data);
        eexists _, _, []; rewrite raise_run; (split; [reflexivity|]);
        (split; [apply app_nil_log|]); unfold synth_calls; simpl; lia.
  - intros item config_data tts_adapter max_retries sid entry code provider a w
      voice rq Hsid Hentry Hcode Hne Howner Ha.
    rewrite (task_retry_spec item config_data tts_adapter max_retries sid entry
               code provider a w Hsid Hentry Hcode Hne Howner Ha).
    fold voice. fold rq. unfold py_range.
    destruct (Z.to_nat max_retries) as [|m] eqn:Hm.
    { exists (Ok None), w, []. split; [done|]. split; [done|].
      split; [by rewrite app_nil_r|]. split; [unfold synth_calls; simpl; lia|].
      left. split; [lia|done]. }
    destruct (attempt_loop_spec provider a rq sid max_retries (S m) 0 w)
      as (r & w' & n & Hrun & Hfiles & Hn & Hlog & Hfail & Hfinal); [lia|lia|].
    exists r, w', (calls_with_backoff provider rq 0 n ++ [EvSynthesize provider rq]).
    split; [exact Hrun|]. split; [exact Hfiles|]. split; [exact Hlog|].
    split.
    { rewrite synth_calls_app, synth_calls_backoff. unfold synth_calls. simpl. lia. }
    right. exists n. split; [lia|]. split; [done|]. split; [exact Hfail|exact Hfinal].
  - intros transcripts config_data tts_adapter threads enable_trim_silence sched
      pre post k item d consumed w w_k max_retries Hthreads Horder Hk Hpre.
    destruct (run_goes_on_from_task transcripts config_data tts_adapter threads
                enable_trim_silence sched pre post k item d consumed w w_k
                Hthreads Horder Hk Hpre) as [more Hmore].
    fold max_retries in Hmore.
    destruct (generate_audio_for_item sanitize item config_data tts_adapter
                max_retries w_k) as [r_k w_k'] eqn:Htask.
    destruct (_generate_all_audio_files sanitize ffmpeg ffprobe py_float py_str
                transcripts config_data tts_adapter threads enable_trim_silence
                sched w) as [r w'] eqn:Hrun.
    exists r_k, w_k', r, w', more. split; [done|]. split; [done|].
    split; [exact Hmore|]. intros e ->.
    pose proof (failed_task_fails_the_run transcripts config_data tts_adapter
                  threads enable_trim_silence sched pre post k item d consumed
                  w w_k w_k' e Hthreads Horder Hk Hpre Htask) as Hfail.
    by rewrite Hrun in Hfail.
  - intros item config_data tts_adapter sid entry code provider a e0 e1 f w
      voice rq Hsid Hentry Hcode Hne Howner Ha H0 Hr0 H1 Hr1 H2.
    rewrite (task_retry_spec item config_data tts_adapter 3 sid entry
               code provider a w Hsid Hentry Hcode Hne Howner Ha).
    fold voice. fold rq.
    eexists. unfold py_range. simpl.
    unfold bind, emit, time_sleep, emit, ret. simpl.
    rewrite H0, Hr0. simpl. rewrite H1, Hr1. simpl. rewrite H2.
    split; [reflexivity|]. simpl. split; [done|].
    rewrite <- !app_assoc. simpl.
    split; [reflexivity|].
    rewrite synth_calls_app. reflexivity.
Qed.

End RetryOfTheTask.

(** The task of the first line with an adapter that fails twice and then
    succeeds: three requests, the sleeps of 1 and 2 seconds between them,
    and the clip. *)
Lemma synthesis_retry_policy_witness :
  let rq := {| rq_text := "Hello"; rq_voice_code := "zh-CN-XiaoxiaoNeural";
               rq_volume_adjustment := 0.5%float;
               rq_speed_adjustment := 0%float |} in
  ∃ w',
    Synthesis.generate_audio_for_item Demo.sanitize_plain
      {| speaker_id := Some 0%Z; dialog := "Hello" |}
      (Demo.configuration None) (Demo.adapters Demo.adapter_flaky) 3
      Demo.world0 = (Ok (Some (Demo.clip_of rq)), w') ∧
    w_files w' = w_files Demo.world0 ∧
    w_log w' = w_log Demo.world0
               ++ [EvSynthesize "edge-tts" rq; EvSleep 1;
                   EvSynthesize "edge-tts" rq; EvSleep 2;
                   EvSynthesize "edge-tts" rq] ∧
    synth_calls (w_log w') = (synth_calls (w_log Demo.world0) + 3)%nat.
Proof.
  intros rq.
  apply (proj2 (proj2 (proj2
           (synthesis_retry_policy Demo.sanitize_plain Demo.ffmpeg_ok
              Demo.ffprobe_ok Demo.float_of_decimal Demo.str_of_float)))
           {| speaker_id := Some 0%Z; dialog := "Hello" |}
           (Demo.configuration None) (Demo.adapters Demo.adapter_flaky) 0%Z
           {| pu_code := Some "zh-CN-XiaoxiaoNeural"; pu_owner := Some "edge-tts";
              pu_role := Some "host" |}
           "zh-CN-XiaoxiaoNeural" "edge-tts" Demo.adapter_flaky
           (Exn RuntimeError "TTS API request failed")
           (Exn RuntimeError "TTS API request failed")
           (Demo.clip_of rq) Demo.world0);
    first [reflexivity|discriminate].
Defined.

(** C2. When the round of item [k] is the first round of the loop over
    the completed futures that fails, in its task or in its trimming: the
    rounds behind it are not made; every future that no worker has started
    is cancelled, and after that only workers that had started go on, with
    requests and sleeps, no process is run; the orchestrator raises one
    error, which names the index [k]; and the pipeline ends with that error
    in the world in which the orchestrator ended, without file list and
    without merge. *)
Theorem first_failure_aborts_run
    (sanitize : string → string) (ffmpeg ffprobe : list string → proc_outcome)
    (py_float : string → option float) (py_str : float → string)
    (file_list_id merge_id : string) (timestamp : Z)
    (podcast_script : json) (config_data : config)
    (tts_adapter : gmap string adapter) (threads : Z)
    (sched : Orchestrator.schedule)
    (pre post : list nat) (k : nat) (e : exn) (w : world) :
  let transcripts := Pipeline.transcripts_of podcast_script in
  let max_retries := default 3%Z (cfg_tts_max_retries config_data) in
  let round :=
    Orchestrator.collect_one sanitize ffmpeg ffprobe py_float py_str
      transcripts config_data tts_adapter max_retries true in
  let rounds :=
    Orchestrator.collect sanitize ffmpeg ffprobe py_float py_str
      transcripts config_data tts_adapter max_retries true in
  (0 < threads)%Z →
  Orchestrator.completion_order sched = pre ++ k :: post →
  (∀ i, i ∈ pre → ∀ d w, is_ok (fst (round d i w)) = true) →
  (∀ d w, fst (round d k w) = Raise e) →
  ∃ w' workers,
    rounds (pre ++ k :: post) ∅ [] w = rounds (pre ++ [k]) ∅ [] w ∧
    Orchestrator._generate_all_audio_files sanitize ffmpeg ffprobe py_float
      py_str transcripts config_data tts_adapter threads true sched w
    = (Raise (Orchestrator.item_error k e), w') ∧
    exn_msg (Orchestrator.item_error k e)
    = "Error generating or trimming audio for item " +:+ pretty k
      +:+ ": " +:+ exn_msg e ∧
    w_log w' = w_log (snd (rounds (pre ++ [k]) ∅ [] w))
               ++ (EvCancel <$> pending_indices (Orchestrator.at_abort sched)
                                  (seq 0 (length transcripts)))
               ++ workers ∧
    forallb is_worker_event workers = true ∧
    w_files w' = w_files (snd (rounds (pre ++ [k]) ∅ [] w)) ∧
    Pipeline.synthesize_and_merge sanitize ffmpeg ffprobe py_float py_str
      file_list_id merge_id timestamp podcast_script config_data tts_adapter
      threads sched w
    = (Raise (Orchestrator.item_error k e), w').
Proof.
  intros transcripts max_retries round rounds Hthreads Horder Hpre Hk.
  destruct (collect_first_failure sanitize ffmpeg ffprobe py_float py_str
              transcripts config_data tts_adapter true pre post k e ∅ [] w
              Hpre Hk) as (d' & w1 & Hrun & Hrun').
  destruct (generate_all_aborts sanitize ffmpeg ffprobe py_float py_str
              transcripts config_data tts_adapter true threads sched
              pre post k e w Hthreads Horder Hpre Hk)
    as (w_rounds & w' & workers & Hw & Hgen & Hlog & Hworkers & Hfiles).
  exists w', workers. subst rounds round max_retries.
  split; [by rewrite Hrun, Hrun'|]. split; [exact Hgen|].
  split; [reflexivity|].
  rewrite Hw. split; [exact Hlog|]. split; [exact Hworkers|].
  split; [exact Hfiles|].
  unfold Pipeline.synthesize_and_merge. fold transcripts.
  unfold bind at 1. rewrite Hgen. done.
Qed.

(** A run of one worker whose adapter is down: the first line fails after
    its three requests, the future of the second line is cancelled, and
    the run ends with the error of item 0. *)
Lemma first_failure_aborts_run_witness :
  let e := Synthesis.max_retries_error 3 0 "zh-CN-XiaoxiaoNeural" in
  ∃ w',
    Pipeline.synthesize_and_merge Demo.sanitize_plain Demo.ffmpeg_ok
      Demo.ffprobe_ok Demo.float_of_decimal Demo.str_of_float "f11e" "0a1b"
      1700000000 Demo.two_lines_value (Demo.configuration None)
      (Demo.adapters Demo.adapter_down) 1 Demo.fails_at_first Demo.world0
    = (Raise (Orchestrator.item_error 0 e), w') ∧
    EvCancel 1 ∈ w_log w' ∧
    synth_calls (w_log w') = 3%nat.
Proof.
  intros e.
  destruct (first_failure_aborts_run Demo.sanitize_plain Demo.ffmpeg_ok
              Demo.ffprobe_ok Demo.float_of_decimal Demo.str_of_float
              "f11e" "0a1b" 1700000000 Demo.two_lines_value
              (Demo.configuration None) (Demo.adapters Demo.adapter_down) 1
              Demo.fails_at_first [] [1%nat] 0%nat e Demo.world0)
    as (w' & workers & _ & _ & _ & _ & _ & _ & Hrun).
  - lia.
  - reflexivity.
  - intros i Hi. by apply elem_of_nil in Hi.
  - intros d w. vm_compute. reflexivity.
  - exists w'. split; [exact Hrun|].
    assert (w' = snd (Pipeline.synthesize_and_merge Demo.sanitize_plain
                        Demo.ffmpeg_ok Demo.ffprobe_ok Demo.float_of_decimal
                        Demo.str_of_float "f11e" "0a1b" 1700000000
                        Demo.two_lines_value (Demo.configuration None)
                        (Demo.adapters Demo.adapter_down) 1 Demo.fails_at_first
                        Demo.world0)) as -> by (by rewrite Hrun).
    split; [vm_compute; do 5 right; left|vm_compute; reflexivity].
Defined.

(** ** Speaker resolution comes before synthesis *)

Section ResolutionFacts.
Import Speakers.

Lemma voice_map_absent (voices_list : list voice) (code : string) :
  (∀ v, v ∈ voices_list → v_code v ≠ Some code) →
  voice_map voices_list !! code = None.
Proof.
  unfold voice_map.
  assert (∀ m : gmap string voice,
            m !! code = None →
            (∀ v, v ∈ voices_list → v_code v ≠ Some code) →
            foldl (fun m v =>
                     match v_code v with
                     | Some c => if truthy (Some c) then <[c := v]> m else m
                     | None => m
                     end) m voices_list !! code = None) as H.
  { induction voices_list as [|v l IH]; intros m Hm Hall; [done|].
    cbn [foldl]. apply IH.
    - pose proof (Hall v ltac:(left)) as Hv.
      destruct (v_code v) as [c|]; [|done].
      destruct (truthy (Some c)); [|done].
      rewrite lookup_insert_ne; [done|]. intros ->. done.
    - intros v' Hv'. apply Hall. by right. }
  intros Hall. apply H; [apply lookup_empty|done].
Qed.

Lemma speaker_clause_unresolved (voices_list : list voice) (i : nat)
    (pu : pod_user) :
  resolves voices_list pu = false →
  speaker_clause (voice_map voices_list) i pu
  = Raise (missing_name_error (pu_code pu) i).
Proof.
  unfold resolves, speaker_clause.
  destruct (voice_map_get (voice_map voices_list) (pu_code pu)) as [v|].
  - intros ->. done.
  - done.
Qed.

Lemma speaker_clause_resolved (voices_list : list voice) (i : nat)
    (pu : pod_user) :
  resolves voices_list pu = true →
  ∃ clause, speaker_clause (voice_map voices_list) i pu = Ok clause.
Proof.
  unfold resolves, speaker_clause.
  destruct (voice_map_get (voice_map voices_list) (pu_code pu)) as [v|]; [|done].
  intros ->. destruct (negb _); by eexists.
Qed.

Lemma speaker_info_unresolved (voices_list : list voice)
    (pod_users : list pod_user) (start : nat) :
  (∃ pu, pu ∈ pod_users ∧ resolves voices_list pu = false) →
  ∃ i pu, pod_users !! i = Some pu ∧ resolves voices_list pu = false ∧
          speaker_info (voice_map voices_list) start pod_users
          = Raise (missing_name_error (pu_code pu) (start + i)).
Proof.
  revert start. induction pod_users as [|pu0 l IH]; intros start (pu & Hin & Hun).
  - by apply elem_of_nil in Hin.
  - cbn [speaker_info].
    destruct (resolves voices_list pu0) eqn:Hr0.
    + assert (∃ pu, pu ∈ l ∧ resolves voices_list pu = false) as Hrest.
      { apply elem_of_cons in Hin as [->|Hin]; [congruence|eauto]. }
      destruct (IH (S start) Hrest) as (i & pu' & Hi & Hun' & Hrun).
      exists (S i), pu'. split; [done|]. split; [done|].
      destruct (speaker_clause_resolved voices_list start pu0 Hr0) as [c ->].
      rewrite Hrun. by replace (start + S i)%nat with (S start + i)%nat by lia.
    + exists 0%nat, pu0. split; [done|]. split; [done|].
      rewrite speaker_clause_unresolved by done. by rewrite Nat.add_0_r.
Qed.

End ResolutionFacts.

Lemma read_file_content_world (filepath : string) (w : world) :
  ∃ r, Pipeline.read_file_content filepath w = (r, w).
Proof.
  unfold Pipeline.read_file_content, try_except, read_file, raise.
  destruct (w_files w !! filepath); by eexists.
Qed.

Lemma read_prompt_files_world (w : world) :
  ∃ r, Pipeline._read_prompt_files w = (r, w).
Proof.
  unfold Pipeline._read_prompt_files.
  repeat (match goal with
          | |- context [Pipeline.read_file_content ?p] =>
              let r := fresh "r" in
              let H := fresh "H" in
              destruct (read_file_content_world p w) as [r H];
              unfold bind at 1; rewrite H; destruct r; [|by eexists]
          end).
  by eexists.
Qed.

Lemma prepare_prompts_unresolved (config_data : config)
    (original_podscript_prompt custom_content : string)
    (usetime output_language : option string) :
  (∃ pu, pu ∈ default [] (cfg_podUsers config_data) ∧
         Speakers.resolves (default [] (cfg_voices config_data)) pu = false) →
  ∃ e, Pipeline._prepare_podcast_prompts config_data original_podscript_prompt
         custom_content usetime output_language = Raise e.
Proof.
  intros Hun. unfold Pipeline._prepare_podcast_prompts,
    Speakers.generate_speaker_id_text.
  destruct (speaker_info_unresolved _ _ 0 Hun) as (i & pu & _ & _ & ->).
  by eexists.
Qed.

(** C3, as amended. When some entry of the roster does not resolve to a
    voice of the catalogue with a non-empty display name, as an entry does
    whose voice code the catalogue does not have, the run of the pipeline
    raises in the world in which it started: before the script is
    requested and before any request to an adapter. An utterance whose
    speaker id has no roster entry with a voice code ends its own task
    with an error before that task makes a request. *)
Theorem resolution_precedes_synthesis :
  (∀ (load : string → result config) (getenv : string → option string)
     (generate_overview : string → string → result (string * string * string))
     (chat_completion : string → string → nat → result string)
     (raw_decode : string → option (json * nat))
     (make_adapter : config → string → result adapter)
     (sanitize : string → string) (ffmpeg ffprobe : list string → proc_outcome)
     (py_float : string → option float) (py_str : float → string)
     (file_list_id merge_id : string) (timestamp : Z)
     (args : Pipeline.arguments) (config_path input_txt_content : string)
     (podUsers : list pod_user) (sched : Orchestrator.schedule)
     (cfg : config) (w : world),
     load config_path = Ok cfg →
     (∃ pu, pu ∈ podUsers ∧
            Speakers.resolves (default [] (cfg_voices cfg)) pu = false) →
     ∃ e,
       Pipeline.generate_podcast_audio_api load getenv generate_overview
         chat_completion raw_decode make_adapter sanitize ffmpeg ffprobe
         py_float py_str file_list_id merge_id timestamp args config_path
         input_txt_content podUsers sched w = (Raise e, w)) ∧
  (∀ (voices_list : list voice) (pu : pod_user) (code : string),
     pu_code pu = Some code →
     (∀ v, v ∈ voices_list → v_code v ≠ Some code) →
     Speakers.resolves voices_list pu = false) ∧
  (∀ (sanitize : string → string) (item : transcript) (config_data : config)
     (tts_adapter : gmap string adapter) (max_retries : Z) (sid : Z) (w : world),
     speaker_id item = Some sid →
     truthy (Synthesis.pod_user_entry config_data sid ≫= pu_code) = false →
     Synthesis.generate_audio_for_item sanitize item config_data tts_adapter
       max_retries w = (Raise (Synthesis.no_voice_code_error sid), w)).
Proof.
  split; [|split].
  - intros load getenv generate_overview chat_completion raw_decode
      make_adapter sanitize ffmpeg ffprobe py_float py_str file_list_id
      merge_id timestamp args config_path input_txt_content podUsers sched
      cfg w Hload Hun.
    unfold Pipeline.generate_podcast_audio_api,
      Configuration._load_configuration_path.
    rewrite Hload. cbv zeta. unfold Pipeline.lift at 1, bind at 1, ret at 1.
    match goal with
    | |- context [Pipeline._prepare_openai_settings ?g ?a ?c] =>
        destruct (Pipeline._prepare_openai_settings g a c) as [settings|e0]
    end; [|by eexists].
    unfold Pipeline.lift at 1, bind at 1, ret at 1. unfold bind at 1.
    destruct (read_prompt_files_world w) as [r ->].
    destruct r as [[[[[p1 p2] p3] p4] p5]|e1]; [|by eexists].
    destruct (Pipeline._extract_custom_content input_txt_content)
      as [custom_content input_prompt].
    match goal with
    | |- context [Pipeline._prepare_podcast_prompts ?c ?p ?cc ?u ?o] =>
        destruct (prepare_prompts_unresolved c p cc u o) as [e2 He2]
    end.
    { exact Hun. }
    rewrite He2. by eexists.
  - intros voices_list pu code Hcode Habsent.
    unfold Speakers.resolves. rewrite Hcode. cbn [Speakers.voice_map_get].
    by rewrite voice_map_absent.
  - intros sanitize item config_data tts_adapter max_retries sid w Hsid Hnone.
    unfold Synthesis.generate_audio_for_item. rewrite Hsid.
    unfold Synthesis.generate_audio_for_speaker. rewrite Hnone. done.
Qed.

(** A roster whose second speaker has a voice that the catalogue does not
    have: the pipeline raises without a request of any kind. *)
Lemma resolution_precedes_synthesis_witness :
  ∃ e,
    Pipeline.generate_podcast_audio_api Demo.load_json_config Demo.getenv
      Demo.generate_overview (Demo.chat_with Demo.two_lines_text)
      Demo.raw_decode (Demo.make_adapter Demo.adapter_ok) Demo.sanitize_plain
      Demo.ffmpeg_ok Demo.ffprobe_ok Demo.float_of_decimal Demo.str_of_float
      "f11e" "0a1b" 1700000000 Demo.arguments_one_thread
      "../config/edge-tts.json" "A text about AI."
      Demo.roster_with_unknown_voice Demo.in_order Demo.world_with_prompts
    = (Raise e, Demo.world_with_prompts).
Proof.
  apply (proj1 resolution_precedes_synthesis Demo.load_json_config Demo.getenv
           Demo.generate_overview (Demo.chat_with Demo.two_lines_text)
           Demo.raw_decode (Demo.make_adapter Demo.adapter_ok)
           Demo.sanitize_plain Demo.ffmpeg_ok Demo.ffprobe_ok
           Demo.float_of_decimal Demo.str_of_float "f11e" "0a1b" 1700000000%Z
           Demo.arguments_one_thread "../config/edge-tts.json"
           "A text about AI." Demo.roster_with_unknown_voice Demo.in_order
           (Demo.configuration None) Demo.world_with_prompts).
  - reflexivity.
  - exists {| pu_code := Some "zh-CN-UnknownNeural";
              pu_owner := Some "edge-tts"; pu_role := None |}.
    split; [right; left|vm_compute; reflexivity].
Defined.

(** C3 as stated does not hold for an utterance whose speaker id the
    roster does not have. The roster resolves, the script is accepted, and
    with one worker the task of the first line requests its clip before
    the task of the second line fails for speaker 5: the run fails after
    one request to an adapter, not after none. *)
Lemma stray_speaker_fails_after_a_request :
  Synthesis.pod_user_entry (Demo.configuration None) 5 = None ∧
  ∃ e w',
    Pipeline.generate_podcast_audio_api Demo.load_json_config Demo.getenv
      Demo.generate_overview (Demo.chat_with Demo.stray_speaker_text)
      Demo.raw_decode (Demo.make_adapter Demo.adapter_ok) Demo.sanitize_plain
      Demo.ffmpeg_ok Demo.ffprobe_ok Demo.float_of_decimal Demo.str_of_float
      "f11e" "0a1b" 1700000000 Demo.arguments_one_thread
      "../config/edge-tts.json" "A text about AI."
      Demo.roster Demo.in_order Demo.world_with_prompts
    = (Raise e, w') ∧
    synth_calls (w_log w') = 1%nat.
Proof.
  split; [reflexivity|].
  eexists _, _. split; [vm_compute; reflexivity|]. vm_compute. reflexivity.
Qed.

(** * Further properties

    Properties of the functions around the ones above, read off the
    code: the settings and the prompt files, the custom block of the
    input, the speaker briefing, the prompt, the quality gate, the
    overview, the adapters, the synthesis task, the trimmer, and the file
    list with the merge. *)

(** ** Strings *)

Section MoreStringFacts.

Lemma append_cons (c : ascii) (a b : string) :
  String c a +:+ b = String c (a +:+ b).
Proof. reflexivity. Qed.

Lemma append_nil_r (a : string) : a +:+ "" = a.
Proof. induction a as [|c a IH]; [done|]. by rewrite append_cons, IH. Qed.

Lemma app_string_assoc (a b c : string) : (a +:+ b) +:+ c = a +:+ (b +:+ c).
Proof. induction a as [|x a IH]; [done|]. by rewrite !append_cons, IH. Qed.

Lemma rev_app_append (s t : string) :
  String.rev_app s t = String.rev_app s "" +:+ t.
Proof.
  revert t. induction s as [|c s IH]; intros t; [done|].
  cbn [String.rev_app]. rewrite (IH (String c t)), (IH (String c "")).
  by rewrite app_string_assoc.
Qed.

Lemma string_rev_cons (c : ascii) (s : string) :
  String.rev (String c s) = String.rev s +:+ String c "".
Proof. unfold String.rev. cbn [String.rev_app]. apply rev_app_append. Qed.

Lemma string_rev_append (a b : string) :
  String.rev (a +:+ b) = String.rev b +:+ String.rev a.
Proof.
  induction a as [|c a IH]; [by rewrite append_nil_r|].
  by rewrite append_cons, !string_rev_cons, IH, app_string_assoc.
Qed.

Lemma rev_involutive_string (s : string) : String.rev (String.rev s) = s.
Proof.
  induction s as [|c s IH]; [done|].
  by rewrite string_rev_cons, string_rev_append, IH.
Qed.

Lemma prefix_app (t rest : string) : String.prefix t (t +:+ rest) = true.
Proof.
  induction t as [|c t IH]; [by destruct rest|]. rewrite append_cons.
  cbn [String.prefix]. destruct (ascii_dec c c); [exact IH|done].
Qed.

Lemma drop_app_exact (p s : string) : PyStr.drop (String.length p) (p +:+ s) = s.
Proof.
  pose proof (drop_app_length p s 0) as H. rewrite Nat.add_0_r in H.
  rewrite H. by destruct s.
Qed.

(** Stripping at the right end. *)
Lemma rstrip_by_snoc_true (p : ascii → bool) (s : string) (c : ascii) :
  p c = true → PyStr.rstrip_by p (s +:+ String c "") = PyStr.rstrip_by p s.
Proof.
  intros Hc. unfold PyStr.rstrip_by. rewrite string_rev_append.
  change (String.rev (String c "")) with (String c "").
  rewrite append_cons. cbn [PyStr.lstrip_by]. by rewrite Hc.
Qed.

Lemma rstrip_by_snoc_false (p : ascii → bool) (s : string) (c : ascii) :
  p c = false → PyStr.rstrip_by p (s +:+ String c "") = s +:+ String c "".
Proof.
  intros Hc. unfold PyStr.rstrip_by. rewrite string_rev_append.
  change (String.rev (String c "")) with (String c "").
  rewrite append_cons. cbn [PyStr.lstrip_by]. rewrite Hc.
  change ("" +:+ String.rev s) with (String.rev s).
  by rewrite string_rev_cons, rev_involutive_string.
Qed.

(** Stripping white space: a character of ASCII that is no white space
    stops it, at either end. *)
Lemma two_byte_space_ascii_l (c c2 : ascii) :
  (nat_of_ascii c < 128)%nat → PyStr.two_byte_space c c2 = false.
Proof.
  intros Hc. unfold PyStr.two_byte_space.
  destruct (Nat.eqb_spec (nat_of_ascii c) 194); [lia|done].
Qed.

Lemma three_byte_space_ascii_l (c c2 c3 : ascii) :
  (nat_of_ascii c < 128)%nat → PyStr.three_byte_space c c2 c3 = false.
Proof.
  intros Hc. unfold PyStr.three_byte_space.
  destruct (Nat.eqb_spec (nat_of_ascii c) 225); [lia|].
  destruct (Nat.eqb_spec (nat_of_ascii c) 226); [lia|].
  destruct (Nat.eqb_spec (nat_of_ascii c) 227); [lia|done].
Qed.

Lemma two_byte_space_ascii_r (c2 c : ascii) :
  (nat_of_ascii c < 128)%nat → PyStr.two_byte_space c2 c = false.
Proof.
  intros Hc. unfold PyStr.two_byte_space.
  destruct (Nat.eqb_spec (nat_of_ascii c) 133); [lia|].
  destruct (Nat.eqb_spec (nat_of_ascii c) 160); [lia|].
  by rewrite andb_false_r.
Qed.

Lemma three_byte_space_ascii_r (c3 c2 c : ascii) :
  (nat_of_ascii c < 128)%nat → PyStr.three_byte_space c3 c2 c = false.
Proof.
  intros Hc. unfold PyStr.three_byte_space.
  destruct (Nat.eqb_spec (nat_of_ascii c) 128); [lia|].
  destruct (Nat.leb_spec 128 (nat_of_ascii c)); [lia|].
  destruct (Nat.eqb_spec (nat_of_ascii c) 168); [lia|].
  destruct (Nat.eqb_spec (nat_of_ascii c) 169); [lia|].
  destruct (Nat.eqb_spec (nat_of_ascii c) 175); [lia|].
  destruct (Nat.eqb_spec (nat_of_ascii c) 159); [lia|].
  by rewrite !andb_false_r.
Qed.

Lemma lstrip_ascii (c : ascii) (s : string) :
  PyStr.is_space c = false → (nat_of_ascii c < 128)%nat →
  PyStr.lstrip (String c s) = String c s.
Proof.
  intros Hs Hc. cbn [PyStr.lstrip]. rewrite Hs.
  destruct s as [|c2 [|c3 s]]; [done| |];
    rewrite two_byte_space_ascii_l by done; [done|].
  by rewrite three_byte_space_ascii_l.
Qed.

Lemma rstrip_rev_ascii (c : ascii) (r : string) :
  PyStr.is_space c = false → (nat_of_ascii c < 128)%nat →
  PyStr.rstrip_rev (String c r) = String c r.
Proof.
  intros Hs Hc. cbn [PyStr.rstrip_rev]. rewrite Hs.
  destruct r as [|c2 [|c3 r]]; [done| |];
    rewrite two_byte_space_ascii_r by done; [done|].
  by rewrite three_byte_space_ascii_r.
Qed.

Lemma rstrip_snoc_space (s : string) (c : ascii) :
  PyStr.is_space c = true → PyStr.rstrip (s +:+ String c "") = PyStr.rstrip s.
Proof.
  intros Hc. unfold PyStr.rstrip. rewrite string_rev_append.
  change (String.rev (String c "")) with (String c "").
  rewrite append_cons. cbn [PyStr.rstrip_rev]. by rewrite Hc.
Qed.

Lemma rstrip_snoc_ascii (s : string) (c : ascii) :
  PyStr.is_space c = false → (nat_of_ascii c < 128)%nat →
  PyStr.rstrip (s +:+ String c "") = s +:+ String c "".
Proof.
  intros Hs Hc. unfold PyStr.rstrip. rewrite string_rev_append.
  change (String.rev (String c "")) with (String c "").
  rewrite append_cons. change ("" +:+ String.rev s) with (String.rev s).
  rewrite rstrip_rev_ascii by done.
  by rewrite string_rev_cons, rev_involutive_string.
Qed.

Lemma lstrip_by_app (p : ascii → bool) (b t : string) :
  PyStr.lstrip_by p (b +:+ t) =
  if String.eqb (PyStr.lstrip_by p b) "" then PyStr.lstrip_by p t
  else PyStr.lstrip_by p b +:+ t.
Proof.
  induction b as [|c b IH]; [done|].
  rewrite append_cons. cbn [PyStr.lstrip_by]. by destruct (p c).
Qed.

(** A text between two characters that are stripped. *)
Lemma strip_by_wrapped (p : ascii → bool) (b : string) (c : ascii) :
  p c = true →
  PyStr.strip_by p (String c (b +:+ String c "")) = PyStr.strip_by p b.
Proof.
  intros Hc. unfold PyStr.strip_by. cbn [PyStr.lstrip_by]. rewrite Hc.
  rewrite lstrip_by_app.
  destruct (String.eqb (PyStr.lstrip_by p b) "") eqn:He.
  - apply String.eqb_eq in He. rewrite He. cbn [PyStr.lstrip_by]. by rewrite Hc.
  - by rewrite rstrip_by_snoc_true.
Qed.

End MoreStringFacts.

Lemma contains_at_head (needle s : string) :
  PyStr.contains needle (needle +:+ s) = true.
Proof.
  destruct needle as [|c needle]; [by destruct s|].
  rewrite append_cons. cbn [PyStr.contains].
  rewrite <- append_cons. by rewrite prefix_app.
Qed.

(** ** The settings and the prompt files *)

Section SettingsFacts.
Import Pipeline.
Variable getenv : string → option string.

(** X1. The settings of the LLM client. The API key is the first of the
    command line, the configuration and the environment that is not empty,
    and the call raises when all three are missing or empty; the model is
    the first of the command line and the configuration that is not empty,
    and the default model otherwise. *)
Theorem openai_settings_precedence (args : arguments) (config_data : config) :
  let sources :=
    [arg_api_key args; cfg_api_key config_data; getenv "OPENAI_API_KEY"] in
  let models := [arg_model args; cfg_model config_data] in
  match List.find truthy sources with
  | Some key =>
      ∃ base_url,
        _prepare_openai_settings getenv args config_data
        = Ok (default "" key, base_url,
              default "gpt-3.5-turbo" (default None (List.find truthy models)))
  | None =>
      ∃ e, _prepare_openai_settings getenv args config_data = Raise e
           ∧ exn_kind e = ValueError
  end.
Proof.
  unfold _prepare_openai_settings, Speakers.py_or. cbn [List.find].
  destruct (truthy (arg_api_key args)) eqn:H1;
    destruct (truthy (cfg_api_key config_data)) eqn:H2;
    destruct (truthy (getenv "OPENAI_API_KEY")) eqn:H3;
    rewrite ?H1, ?H2, ?H3;
    destruct (truthy (arg_model args)) eqn:M1;
    destruct (truthy (cfg_model config_data)) eqn:M2;
    rewrite ?M1, ?M2; cbn [default];
    try (destruct (arg_model args); [|done]);
    try (destruct (cfg_model config_data); [|done]);
    by eexists.
Qed.

End SettingsFacts.


Section PromptFileFacts.
Import Pipeline.

Lemma read_file_content_spec (filepath : string) (w : world) :
  read_file_content filepath w =
  (match w_files w !! filepath with
   | Some content => Ok content
   | None => Raise (Exn FileNotFoundError ("Error: File not found at " +:+ filepath))
   end, w).
Proof.
  unfold read_file_content, try_except, read_file, raise.
  by destruct (w_files w !! filepath).
Qed.

(** X2. The prompt files. The five files are read in a fixed order, and the
    world stays as it is. When all five are there, their contents are
    returned in that order; otherwise the call raises for the first file
    in the order that is missing, with the path of that file in the
    message. *)
Theorem read_prompt_files_in_order (w : world) :
  let paths :=
    ["input.txt"; "prompt/prompt-overview.txt"; "prompt/prompt-podscript.txt";
     "prompt/prompt-story-overview.txt"; "prompt/prompt-story-podscript.txt"] in
  match List.find (fun p => bool_decide (w_files w !! p = None)) paths with
  | Some missing =>
      _read_prompt_files w
      = (Raise (Exn FileNotFoundError ("Error: File not found at " +:+ missing)), w)
  | None =>
      ∃ c1 c2 c3 c4 c5,
        (w_files w !!.) <$> paths = [Some c1; Some c2; Some c3; Some c4; Some c5] ∧
        _read_prompt_files w = (Ok (c1, c2, c3, c4, c5), w)
  end.
Proof.
  cbv zeta. cbn [List.find fmap list_fmap]. unfold _read_prompt_files.
  destruct (w_files w !! "input.txt") as [c1|] eqn:H1;
    [rewrite bool_decide_false by done|];
    [destruct (w_files w !! "prompt/prompt-overview.txt") as [c2|] eqn:H2;
       [rewrite bool_decide_false by done|]|];
    [destruct (w_files w !! "prompt/prompt-podscript.txt") as [c3|] eqn:H3;
       [rewrite bool_decide_false by done|]| |];
    [destruct (w_files w !! "prompt/prompt-story-overview.txt") as [c4|] eqn:H4;
       [rewrite bool_decide_false by done|]| | |];
    [destruct (w_files w !! "prompt/prompt-story-podscript.txt") as [c5|] eqn:H5;
       [rewrite bool_decide_false by done|]| | | |];
    [exists c1, c2, c3, c4, c5; split; [done|]| | | | |];
    try rewrite bool_decide_true by done;
    repeat (unfold bind at 1; rewrite read_file_content_spec;
            first [rewrite H1|rewrite H2|rewrite H3|rewrite H4|rewrite H5]);
    reflexivity.
Qed.

Lemma py_or_truthy (a b : option string) :
  truthy (Speakers.py_or a b) = truthy a || truthy b.
Proof. unfold Speakers.py_or. by destruct (truthy a) eqn:Ha; rewrite ?Ha. Qed.

Section ApiNeedsInputFile.
Variable _load_json_config : string → result config.
Variable getenv : string → option string.
Variable generate_overview : string → string → result (string * string * string).
Variable chat_completion : string → string → nat → result string.
Variable raw_decode : string → option (json * nat).
Variable make_adapter : config → string → result adapter.
Variable sanitize : string → string.
Variable ffmpeg ffprobe : list string → proc_outcome.
Variable py_float : string → option float.
Variable py_str : float → string.
Variable file_list_id merge_id : string.
Variable timestamp : Z.

(** X3. The pipeline of the API takes the input text as an argument, and it
    still reads the file [input.txt] with the prompt files: when the
    configuration loads and an API key is given, on the command line, in
    the configuration or in the environment, a run in a world without
    that file raises for the missing file before any request, whatever
    the input text is. *)
Theorem api_needs_the_input_file (args : arguments) (config_path : string)
    (input_txt_content : string) (podUsers : list pod_user)
    (sched : Orchestrator.schedule) (cfg : config) (w : world) :
  _load_json_config config_path = Ok cfg →
  truthy (arg_api_key args) || truthy (cfg_api_key cfg)
    || truthy (getenv "OPENAI_API_KEY") = true →
  w_files w !! "input.txt" = None →
  generate_podcast_audio_api _load_json_config getenv generate_overview
    chat_completion raw_decode make_adapter sanitize ffmpeg ffprobe py_float
    py_str file_list_id merge_id timestamp args config_path input_txt_content
    podUsers sched w
  = (Raise (Exn FileNotFoundError "Error: File not found at input.txt"), w).
Proof.
  intros Hload Hkey Hmissing.
  unfold generate_podcast_audio_api, Configuration._load_configuration_path.
  rewrite Hload. cbv zeta. unfold lift at 1, bind at 1, ret at 1.
  match goal with
  | |- context [_prepare_openai_settings ?g ?a ?c] =>
      assert (∃ s, _prepare_openai_settings g a c = Ok s) as [s ->]
  end.
  { unfold _prepare_openai_settings. cbv zeta.
    rewrite !py_or_truthy.
    change (cfg_api_key (set_podUsers podUsers (set_tts_provider ?p cfg)))
      with (cfg_api_key cfg).
    rewrite Hkey. by eexists. }
  unfold lift at 1, bind at 1, ret at 1. unfold bind at 1.
  unfold _read_prompt_files. unfold bind at 1.
  by rewrite read_file_content_spec, Hmissing.
Qed.

End ApiNeedsInputFile.

End PromptFileFacts.


(** ** The custom block of the input *)

Section CustomContentFacts.

(** A text without the first character of [sub] does not have [sub]. *)
Lemma find_sub_absent (c : ascii) (sub s : string) :
  PyStr.find_char c s = None → PyStr.find_sub (String c sub) s = None.
Proof.
  induction s as [|d s IH]; [done|].
  cbn [PyStr.find_char]. destruct (Ascii.eqb c d) eqn:Hcd; [done|].
  destruct (PyStr.find_char c s); [done|]. intros _.
  cbn [PyStr.find_sub String.prefix].
  destruct (ascii_dec c d) as [->|_]; [by rewrite Ascii.eqb_refl in Hcd|].
  by rewrite IH.
Qed.

(** The first occurrence of [sub] behind a text without its first
    character. *)
Lemma find_sub_app_first (c : ascii) (sub p rest : string) :
  PyStr.find_char c p = None →
  PyStr.find_sub (String c sub) (p +:+ String c sub +:+ rest)
  = Some (String.length p).
Proof.
  induction p as [|d p IH].
  - intros _. change ("" +:+ String c sub +:+ rest) with (String c (sub +:+ rest)).
    cbn [PyStr.find_sub String.prefix String.length].
    destruct (ascii_dec c c); [|done]. by rewrite prefix_app.
  - cbn [PyStr.find_char]. destruct (Ascii.eqb c d) eqn:Hcd; [done|].
    destruct (PyStr.find_char c p) eqn:Hp; [done|]. intros _.
    rewrite append_cons. cbn [PyStr.find_sub String.prefix String.length].
    destruct (ascii_dec c d) as [->|_]; [by rewrite Ascii.eqb_refl in Hcd|].
    by rewrite IH.
Qed.

Lemma take_app_length (p s : string) : PyStr.take (String.length p) (p +:+ s) = p.
Proof.
  induction p as [|c p IH]; [by destruct s|].
  rewrite append_cons. cbn [String.length PyStr.take]. by rewrite IH.
Qed.

(** X4. A custom block in the input. When no "`"%char stands before the block
    or inside it, the custom content is the stripped inside of the block
    and the input that remains is the stripped text behind the block: the
    text before the block is dropped. *)
Theorem custom_block_extracted (before inside behind : string) :
  PyStr.find_char "`"%char before = None →
  PyStr.find_char "`"%char inside = None →
  Pipeline._extract_custom_content
    (before +:+ "```custom-begin" +:+ inside +:+ "```custom-end" +:+ behind)
  = (PyStr.strip inside, PyStr.strip behind).
Proof.
  intros Hbefore Hinside. unfold Pipeline._extract_custom_content.
  cbv zeta.
  rewrite (find_sub_app_first "`"%char "``custom-begin" before
             (inside +:+ "```custom-end" +:+ behind) Hbefore).
  unfold PyStr.find_sub_from.
  replace (before +:+ "```custom-begin" +:+ inside +:+ "```custom-end" +:+ behind)
    with ((before +:+ "```custom-begin") +:+ inside +:+ "```custom-end" +:+ behind)
    by (by rewrite app_string_assoc).
  replace (String.length before + String.length "```custom-begin")%nat
    with (String.length (before +:+ "```custom-begin"))
    by (by rewrite length_app_string).
  rewrite drop_app_exact.
  rewrite (find_sub_app_first "`"%char "``custom-end" inside behind Hinside).
  cbn [fmap option_fmap option_map].
  replace (String.length (before +:+ "```custom-begin") + String.length inside
           - String.length (before +:+ "```custom-begin"))%nat
    with (String.length inside) by lia.
  rewrite take_app_length.
  replace ((before +:+ "```custom-begin") +:+ inside +:+ "```custom-end" +:+ behind)
    with (((before +:+ "```custom-begin") +:+ inside +:+ "```custom-end") +:+ behind)
    by (by rewrite !app_string_assoc).
  replace (String.length (before +:+ "```custom-begin") + String.length inside
           + String.length "```custom-end")%nat
    with (String.length ((before +:+ "```custom-begin") +:+ inside +:+ "```custom-end"))
    by (rewrite !length_app_string; lia).
  by rewrite drop_app_exact.
Qed.

(** X5. Without a complete block the input is returned as it is, not
    stripped, and the custom content is empty: when the input has no
    "`"%char at all, and when a block is opened and no "`"%char follows
    its opening tag. *)
Theorem custom_block_incomplete :
  (∀ input, PyStr.find_char "`"%char input = None →
            Pipeline._extract_custom_content input = ("", input)) ∧
  (∀ before behind,
     PyStr.find_char "`"%char before = None →
     PyStr.find_char "`"%char behind = None →
     Pipeline._extract_custom_content (before +:+ "```custom-begin" +:+ behind)
     = ("", before +:+ "```custom-begin" +:+ behind)).
Proof.
  split.
  - intros input H. unfold Pipeline._extract_custom_content. cbv zeta.
    by rewrite (find_sub_absent "`"%char "``custom-begin" input H).
  - intros before behind Hbefore Hbehind.
    unfold Pipeline._extract_custom_content. cbv zeta.
    rewrite (find_sub_app_first "`"%char "``custom-begin" before behind Hbefore).
    unfold PyStr.find_sub_from.
    replace (before +:+ "```custom-begin" +:+ behind)
      with ((before +:+ "```custom-begin") +:+ behind)
      by (by rewrite app_string_assoc).
    replace (String.length before + String.length "```custom-begin")%nat
      with (String.length (before +:+ "```custom-begin"))
      by (by rewrite length_app_string).
    rewrite drop_app_exact.
    by rewrite (find_sub_absent "`"%char "``custom-end" behind Hbehind).
Qed.

End CustomContentFacts.


(** ** The speaker briefing and the prompt *)

Section SpeakerTextFacts.
Import Speakers.

Lemma voice_map_fold_last (l2 : list voice) (m : gmap string voice)
    (c : string) (v : voice) :
  m !! c = Some v →
  (∀ v', v' ∈ l2 → v_code v' ≠ Some c) →
  foldl (fun m v =>
           match v_code v with
           | Some c => if truthy (Some c) then <[c := v]> m else m
           | None => m
           end) m l2 !! c = Some v.
Proof.
  revert m. induction l2 as [|v' l IH]; intros m Hm Hall; [done|].
  cbn [foldl]. apply IH.
  - pose proof (Hall v' ltac:(left)) as Hv.
    destruct (v_code v') as [c'|]; [|done].
    destruct (truthy (Some c')); [|done].
    rewrite lookup_insert_ne; [done|]. intros ->. done.
  - intros v'' Hv''. apply Hall. by right.
Qed.

(** X7. When several voices of the catalogue have the same code, the last of
    them is the one that the resolution and the synthesis use. *)
Theorem voice_map_last_wins (l1 l2 : list voice) (v : voice) (c : string) :
  v_code v = Some c → c ≠ "" →
  (∀ v', v' ∈ l2 → v_code v' ≠ Some c) →
  voice_map (l1 ++ v :: l2) !! c = Some v.
Proof.
  intros Hc Hne Hall. unfold voice_map. rewrite foldl_app. cbn [foldl].
  apply voice_map_fold_last; [|done].
  rewrite Hc. cbn [truthy].
  destruct (String.eqb c "") eqn:He; [by apply String.eqb_eq in He|].
  cbn [negb]. apply lookup_insert_eq.
Qed.

Lemma speaker_info_resolved (voices_list : list voice)
    (pod_users : list pod_user) (start : nat) :
  forallb (resolves voices_list) pod_users = true →
  ∃ clauses, speaker_info (voice_map voices_list) start pod_users = Ok clauses
             ∧ length clauses = length pod_users.
Proof.
  revert start. induction pod_users as [|pu l IH]; intros start Hall.
  - by exists [].
  - cbn [forallb] in Hall. apply andb_prop in Hall as [Hpu Hl].
    destruct (speaker_clause_resolved voices_list start pu Hpu) as [c Hc].
    destruct (IH (S start) Hl) as (cs & Hcs & Hlen).
    exists (c :: cs). cbn [speaker_info]. rewrite Hc, Hcs. split; [done|].
    simpl. by rewrite Hlen.
Qed.

Lemma speaker_info_first_unresolved (voices_list : list voice)
    (pod_users : list pod_user) (start i : nat) (pu : pod_user) :
  pod_users !! i = Some pu →
  resolves voices_list pu = false →
  (∀ j pu', (j < i)%nat → pod_users !! j = Some pu' →
            resolves voices_list pu' = true) →
  speaker_info (voice_map voices_list) start pod_users
  = Raise (missing_name_error (pu_code pu) (start + i)).
Proof.
  revert start i. induction pod_users as [|pu0 l IH]; intros start i Hi Hun Hbefore;
    [done|].
  destruct i as [|i].
  - injection Hi as ->. cbn [speaker_info].
    rewrite speaker_clause_unresolved by done. by rewrite Nat.add_0_r.
  - cbn [speaker_info].
    assert (resolves voices_list pu0 = true) as Hr0
      by (apply (Hbefore 0%nat); [lia|done]).
    destruct (speaker_clause_resolved voices_list start pu0 Hr0) as [c ->].
    rewrite (IH (S start) i); [|done|done|].
    + by replace (start + S i)%nat with (S start + i)%nat by lia.
    + intros j pu' Hj Hpu'. apply (Hbefore (S j)); [lia|done].
Qed.

(** X6. The speaker briefing. When every entry of the roster resolves, the
    briefing has one clause for each speaker, joined and ended by the
    ideographic full stop; for the empty roster it is that full stop
    alone. Otherwise the call raises the error of the first entry that
    does not resolve, with the position of the entry as its speaker id. *)
Theorem speaker_briefing (pod_users : list pod_user) (voices_list : list voice) :
  (forallb (resolves voices_list) pod_users = true →
   ∃ clauses,
     generate_speaker_id_text pod_users voices_list
       = Ok (PyStr.join "。" clauses +:+ "。")
     ∧ length clauses = length pod_users) ∧
  (∀ i pu,
     pod_users !! i = Some pu →
     resolves voices_list pu = false →
     (∀ j pu', (j < i)%nat → pod_users !! j = Some pu' →
               resolves voices_list pu' = true) →
     generate_speaker_id_text pod_users voices_list
       = Raise (missing_name_error (pu_code pu) i)).
Proof.
  split.
  - intros Hall. destruct (speaker_info_resolved voices_list pod_users 0 Hall)
      as (cs & Hcs & Hlen).
    exists cs. unfold generate_speaker_id_text. by rewrite Hcs.
  - intros i pu Hi Hun Hbefore. unfold generate_speaker_id_text.
    by rewrite (speaker_info_first_unresolved voices_list pod_users 0 i pu).
Qed.

End SpeakerTextFacts.


Section ReplaceFacts.

(** A text without the first character of [old] is left as it is. *)
Lemma replace_aux_absent (c : ascii) (old new s : string) (fuel : nat) :
  PyStr.find_char c s = None →
  PyStr.replace_aux fuel (String c old) new s = s.
Proof.
  revert fuel. induction s as [|d s IH]; intros fuel.
  - intros _. by destruct fuel.
  - cbn [PyStr.find_char]. destruct (Ascii.eqb c d) eqn:Hcd; [done|].
    destruct (PyStr.find_char c s) eqn:Hs; [done|]. intros _.
    destruct fuel as [|fuel]; [done|]. cbn [PyStr.replace_aux String.prefix].
    destruct (ascii_dec c d) as [->|_]; [by rewrite Ascii.eqb_refl in Hcd|].
    by rewrite IH.
Qed.

(** The replacement goes over a head that has not the first character of
    [old]. *)
Lemma replace_aux_skip (c : ascii) (old new a rest : string) (fuel : nat) :
  PyStr.find_char c a = None →
  PyStr.replace_aux (String.length a + fuel) (String c old) new (a +:+ rest)
  = a +:+ PyStr.replace_aux fuel (String c old) new rest.
Proof.
  induction a as [|d a IH]; [done|].
  cbn [PyStr.find_char]. destruct (Ascii.eqb c d) eqn:Hcd; [done|].
  destruct (PyStr.find_char c a) eqn:Ha; [done|]. intros _.
  rewrite !append_cons. cbn [String.length Nat.add PyStr.replace_aux String.prefix].
  destruct (ascii_dec c d) as [->|_]; [by rewrite Ascii.eqb_refl in Hcd|].
  by rewrite IH.
Qed.

(** One step over a character at which [old] does not start. *)
Lemma replace_aux_step (old new : string) (d : ascii) (s : string) (fuel : nat) :
  String.prefix old (String d s) = false →
  PyStr.replace_aux (S fuel) old new (String d s)
  = String d (PyStr.replace_aux fuel old new s).
Proof. intros H. cbn [PyStr.replace_aux]. by rewrite H. Qed.

End ReplaceFacts.

Section PromptFacts.
Import Pipeline.

Lemma replace_aux_step_other (c d : ascii) (old new s : string) (fuel : nat) :
  Ascii.eqb c d = false →
  PyStr.replace_aux (S fuel) (String c old) new (String d s)
  = String d (PyStr.replace_aux fuel (String c old) new s).
Proof.
  intros Hcd. apply replace_aux_step. cbn [String.prefix].
  destruct (ascii_dec c d) as [->|_]; [by rewrite Ascii.eqb_refl in Hcd|done].
Qed.

(** A placeholder that is not the one of the output language leaves a
    template with that one placeholder as it is. *)
Lemma replace_other_placeholder (c3 : ascii) (old new a b : string) :
  PyStr.find_char "{" a = None →
  PyStr.find_char "{" b = None →
  Ascii.eqb c3 "o" = false →
  PyStr.replace (String "{" (String "{" (String c3 old))) new
    (a +:+ "{{outlang}}" +:+ b)
  = a +:+ "{{outlang}}" +:+ b.
Proof.
  intros Ha Hb Hc3. unfold PyStr.replace. cbn [String.eqb].
  replace (String.length (a +:+ "{{outlang}}" +:+ b))
    with (String.length a + (11 + String.length b))%nat
    by (by rewrite !length_app_string).
  rewrite replace_aux_skip by done. f_equal.
  change ("{{outlang}}" +:+ b)
    with (String "{" (String "{" (String "o" (String "u" (String "t"
           (String "l" (String "a" (String "n" (String "g" (String "}"
           (String "}" b))))))))))).
  cbn [Nat.add].
  rewrite replace_aux_step.
  2:{ cbn [String.prefix]. destruct (ascii_dec "{" "{"); [|done].
      destruct (ascii_dec c3 "o") as [->|]; done. }
  rewrite replace_aux_step.
  2:{ cbn [String.prefix]. destruct (ascii_dec "{" "{"); [|done].
      by destruct (ascii_dec "{" "o"). }
  do 9 (rewrite replace_aux_step_other by done).
  by rewrite replace_aux_absent.
Qed.

(** X8. The placeholder of the output language. In a template that has this
    one placeholder and no other brace, the placeholder is replaced by the
    output language, or by the sentence that asks for the language of the
    input when no language is given; the prompt is the speaker briefing,
    the custom content and the template, with an empty line between
    them. *)
Theorem output_language_placeholder (config_data : config)
    (a b custom_content speaker_id_info : string)
    (usetime output_language : option string) :
  PyStr.find_char "{" a = None →
  PyStr.find_char "{" b = None →
  Speakers.generate_speaker_id_text (default [] (cfg_podUsers config_data))
    (default [] (cfg_voices config_data)) = Ok speaker_id_info →
  _prepare_podcast_prompts config_data (a +:+ "{{outlang}}" +:+ b)
    custom_content usetime output_language
  = Ok (speaker_id_info +:+ Concat.newline +:+ Concat.newline
        +:+ custom_content +:+ Concat.newline +:+ Concat.newline
        +:+ a
        +:+ default "Make sure the input language is set as the output language"
              output_language
        +:+ b).
Proof.
  intros Ha Hb Hinfo. unfold _prepare_podcast_prompts. cbv zeta.
  rewrite Hinfo.
  rewrite (replace_other_placeholder "n" "umSpeakers}}") by done.
  rewrite (replace_other_placeholder "t" "urnPattern}}") by done.
  rewrite (replace_other_placeholder "u" "setime}}") by done.
  do 6 f_equal.
  unfold PyStr.replace. cbn [String.eqb].
  replace (String.length (a +:+ "{{outlang}}" +:+ b))
    with (String.length a + S (10 + String.length b))%nat
    by (by rewrite !length_app_string).
  rewrite (replace_aux_skip "{" "{outlang}}") by done. f_equal.
  cbn [PyStr.replace_aux]. rewrite prefix_app.
  change (String.length "{{outlang}}") with 11%nat.
  change 11%nat with (String.length "{{outlang}}").
  rewrite drop_app_exact. by rewrite (replace_aux_absent "{" "{outlang}}").
Qed.

End PromptFacts.


(** ** The quality gate *)

Section QualityGateFacts.
Import Script.
Variable raw_decode : string → option (json * nat).

Lemma nonblank_spec (dialog : string) :
  negb (String.eqb dialog "" || (PyStr.len dialog <? 1)%nat) = true ↔
  (1 ≤ PyStr.len dialog)%nat.
Proof.
  destruct dialog as [|c r]; [cbn; split; [done|lia]|].
  cbn [String.eqb orb]. rewrite negb_true_iff, Nat.ltb_ge. done.
Qed.

Lemma transcript_acceptable_spec (transcript : json) :
  transcript_acceptable transcript = Ok true ↔
  ∃ members d,
    transcript = JObj members ∧
    is_Some (Json.dict_get members "speaker_id") ∧
    Json.dict_get members "dialog" = Some (JStr d) ∧
    (1 ≤ PyStr.len (PyStr.strip d))%nat.
Proof.
  unfold transcript_acceptable. split.
  - destruct transcript as [| | | |s|items|members]; cbn [Json.contains]; try done.
    + destruct (PyStr.contains "speaker_id" s); [|done].
      by destruct (PyStr.contains "dialog" s).
    + destruct (existsb (Json.is_str "speaker_id") items); [|done].
      by destruct (existsb (Json.is_str "dialog") items).
    + case_bool_decide as Hs; [|done]. case_bool_decide as Hd; [|done].
      destruct (Json.dict_get members "dialog") as [[| | | |d| |]|] eqn:Hdialog;
        try done.
      intros [= H]. exists members, d. split; [done|]. split; [done|].
      split; [done|]. by apply nonblank_spec.
  - intros (members & d & -> & Hs & Hd & Hne). cbn [Json.contains].
    rewrite bool_decide_true by done. rewrite Hd.
    rewrite bool_decide_true by done.
    f_equal. by apply nonblank_spec.
Qed.

Lemma transcripts_acceptable_spec (transcripts : list json) :
  transcripts_acceptable transcripts = Ok true ↔
  Forall (fun t => transcript_acceptable t = Ok true) transcripts.
Proof.
  induction transcripts as [|t l IH]; cbn [transcripts_acceptable].
  - split; [by constructor|done].
  - destruct (transcript_acceptable t) as [[|]|e] eqn:Ht.
    + rewrite IH. split; [intros H; by constructor|by inversion 1].
    + split; [done|]. inversion 1; congruence.
    + split; [done|]. inversion 1; congruence.
Qed.

(** X10. The quality gate on a script. It accepts a text exactly when the text
    is one JSON object whose [podcast_transcripts] is a list with at least
    one entry and every entry is an object with a [speaker_id] and with a
    [dialog] that is a string with at least one character left when the
    white space at its ends, that of Unicode, is taken off. The gate does
    not look at the type or the range of a speaker id. *)
Theorem accepted_script_shape (content title tags : string) :
  _is_content_quality_acceptable raw_decode content title tags "script" = Ok true ↔
  ∃ members items,
    json_loads raw_decode content = Some (JObj members) ∧
    Json.dict_get members "podcast_transcripts" = Some (JArr items) ∧
    items ≠ [] ∧
    Forall (fun t =>
              ∃ ms d,
                t = JObj ms ∧
                is_Some (Json.dict_get ms "speaker_id") ∧
                Json.dict_get ms "dialog" = Some (JStr d) ∧
                (1 ≤ PyStr.len (PyStr.strip d))%nat) items.
Proof.
  unfold _is_content_quality_acceptable.
  change (String.eqb "script" "overview") with false.
  change (String.eqb "script" "script") with true. cbv iota.
  split.
  - destruct (json_loads raw_decode content) as [obj|]; [|done].
    destruct obj as [| | | |s|l|members]; cbn [Json.contains]; try done.
    + by destruct (PyStr.contains "podcast_transcripts" s).
    + by destruct (existsb (Json.is_str "podcast_transcripts") l).
    + case_bool_decide as Hkey; [|done]. cbn [Json.get].
      destruct (Json.dict_get members "podcast_transcripts") as [v|] eqn:Hv;
        [|by destruct Hkey].
      cbn [default]. unfold id.
      destruct v as [|b|n|x|s|items|ms]; cbn [Json.truth negb Json.len Json.iterate];
        try done.
      * by destruct b.
      * by destruct (n =? 0)%Z.
      * by destruct (PrimFloat.eqb x 0).
      * destruct (String.eqb s "") eqn:Hs; [done|]. cbn [negb].
        destruct (String.length s =? 0)%nat; [done|].
        destruct s as [|c s]; [done|].
        cbn [list_ascii_of_string fmap list_fmap transcripts_acceptable].
        unfold transcript_acceptable. cbn [Json.contains].
        destruct (PyStr.contains "speaker_id" (String c "")); [|done].
        by destruct (PyStr.contains "dialog" (String c "")).
      * case_bool_decide as Hitems; [done|]. cbn [negb].
        destruct (length items =? 0)%nat; [done|].
        rewrite transcripts_acceptable_spec. intros Hall.
        exists members, items. split; [done|]. split; [done|]. split; [done|].
        eapply Forall_impl; [exact Hall|].
        intros t Ht. by apply transcript_acceptable_spec.
      * case_bool_decide as Hms; [done|]. cbn [negb].
        destruct (length ms =? 0)%nat; [done|].
        destruct ms as [|[k v] ms]; [done|].
        cbn [fmap list_fmap transcripts_acceptable].
        unfold transcript_acceptable. cbn [Json.contains fst].
        destruct (PyStr.contains "speaker_id" k); [|done].
        by destruct (PyStr.contains "dialog" k).
  - intros (members & items & -> & Hget & Hne & Hall). cbn [Json.contains].
    rewrite bool_decide_true by (by rewrite Hget). cbn [Json.get].
    rewrite Hget. cbn [default]. unfold id. cbn [Json.truth Json.len Json.iterate].
    rewrite bool_decide_false by done. cbn [negb].
    destruct items as [|t l]; [done|]. cbn [length Nat.eqb].
    apply transcripts_acceptable_spec.
    eapply Forall_impl; [exact Hall|].
    intros t' Ht'. by apply transcript_acceptable_spec.
Qed.

End QualityGateFacts.


(** ** The overview *)

Section OverviewGateFacts.
Variable raw_decode : string → option (json * nat).

Lemma overview_gate_spec (content title tags : string) :
  Script._is_content_quality_acceptable raw_decode content title tags "overview"
  = Ok ((20 <=? PyStr.len (PyStr.strip content))%nat
        && (2 <=? PyStr.len (PyStr.strip title))%nat
        && (1 <=? PyStr.len (PyStr.strip tags))%nat).
Proof.
  unfold Script._is_content_quality_acceptable.
  change (String.eqb "overview" "overview") with true. cbv iota.
  assert (∀ s n, (0 < n)%nat →
            String.eqb s "" || (PyStr.len (PyStr.strip s) <? n)%nat
            = negb (n <=? PyStr.len (PyStr.strip s))%nat) as Hlen.
  { intros s n Hn. destruct s as [|c s].
    - cbn. destruct n; [lia|done].
    - cbn [String.eqb orb]. rewrite Nat.ltb_antisym. done. }
  rewrite !Hlen by lia.
  destruct (20 <=? _)%nat; [|done]. destruct (2 <=? _)%nat; [|done].
  by destruct (1 <=? _)%nat.
Qed.

(** X9. The quality gate on an overview never raises: it accepts exactly
    when the overview, the title and the tags, each stripped of white
    space, have at least 20, 2 and 1 characters, counted as characters and
    not as bytes; and a content type that is neither of the two that the
    gate knows is never accepted. *)
Theorem overview_gate (content title tags content_type : string) :
  (∃ accepted,
     Script._is_content_quality_acceptable raw_decode content title tags
       "overview" = Ok accepted ∧
     (accepted = true ↔
      (20 ≤ PyStr.len (PyStr.strip content))%nat ∧
      (2 ≤ PyStr.len (PyStr.strip title))%nat ∧
      (1 ≤ PyStr.len (PyStr.strip tags))%nat)) ∧
  (content_type ≠ "overview" → content_type ≠ "script" →
   Script._is_content_quality_acceptable raw_decode content title tags content_type
   = Ok false).
Proof.
  split.
  - eexists. split; [apply overview_gate_spec|].
    rewrite !andb_true_iff, !Nat.leb_le. tauto.
  - intros H1 H2. unfold Script._is_content_quality_acceptable.
    apply String.eqb_neq in H1, H2. by rewrite H1, H2.
Qed.

End OverviewGateFacts.

Section OverviewRetryFacts.
Import Overview.
Variable raw_decode : string → option (json * nat).
Variable chat_completion : nat → result string.

Lemma overview_loop_spec (fuel attempt : nat) (w : world) :
  (attempt < 3)%nat → (3 - attempt ≤ fuel)%nat →
  ∃ r w' trace,
    overview_loop raw_decode chat_completion fuel attempt w = (r, w') ∧
    w_files w' = w_files w ∧
    w_log w' = w_log w ++ trace ∧
    (chat_calls trace ≤ 3 - attempt)%nat ∧
    (is_ok r = false → chat_calls trace = 3 - attempt)%nat ∧
    overview_outcome chat_completion r.
Proof.
  revert attempt w. induction fuel as [|fuel IH]; intros attempt w Hlt Hfuel;
    [lia|].
  cbn [overview_loop]. unfold overview_max_retries.
  destruct (3 <=? attempt)%nat eqn:Hle; [apply Nat.leb_le in Hle; lia|].
  unfold bind at 1, emit. cbn [w_files w_log].
  unfold overview_round, overview_max_retries.
  destruct (chat_completion attempt) as [response|e] eqn:Hchat.
  - destruct (parse_overview response) as [[content title] tags] eqn:Hparse.
    rewrite overview_gate_spec.
    destruct (20 <=? _)%nat eqn:H20; cbn [andb];
      [destruct (2 <=? _)%nat eqn:H2; cbn [andb];
         [destruct (1 <=? _)%nat eqn:H1|]|].
    1:{ eexists _, _, [EvChat]. split; [reflexivity|]. cbn [w_files w_log].
        split; [done|]. split; [done|]. split; [unfold chat_calls; simpl; lia|].
        split; [done|]. cbn [overview_outcome].
        apply Nat.leb_le in H20, H2, H1. repeat (split; [done|]).
        exists attempt, response. done. }
    all: destruct (3 <=? S attempt)%nat eqn:Hle'.
      all: try (apply Nat.leb_le in Hle';
                assert ((3 <=? S (S attempt))%nat = true) as ->
                  by (apply Nat.leb_le; lia);
                eexists _, _, [EvChat]; split; [reflexivity|]; cbn [w_files w_log];
                split; [done|]; split; [done|];
                split; [unfold chat_calls; simpl; lia|];
                split; [intros _; unfold chat_calls; simpl; lia|reflexivity]).
      all: apply Nat.leb_gt in Hle';
        destruct (IH (S attempt)
                    {| w_files := w_files w; w_log := w_log w ++ [EvChat] |})
          as (r & w' & trace & Hrun & Hfiles & Hlog & Hn & Hfail & Hout);
          [lia|lia|];
        exists r, w', (EvChat :: trace); split; [exact Hrun|];
        split; [done|];
        split; [rewrite Hlog; cbn [w_log]; by rewrite <- app_assoc|];
        split; [unfold chat_calls in *; simpl; lia|];
        split; [intros Hr; specialize (Hfail Hr); unfold chat_calls in *; simpl; lia
               |done].
  - destruct (3 <=? S attempt)%nat eqn:Hle'.
    + eexists _, _, [EvChat]. split; [reflexivity|]. cbn [w_files w_log].
      apply Nat.leb_le in Hle'.
      split; [done|]. split; [done|]. split; [unfold chat_calls; simpl; lia|].
      split; [intros _; unfold chat_calls; simpl; lia|reflexivity].
    + apply Nat.leb_gt in Hle'.
      unfold bind at 1, time_sleep, emit. cbn [w_files w_log].
      destruct (IH (S attempt)
                  {| w_files := w_files w;
                     w_log := (w_log w ++ [EvChat])
                              ++ [EvSleep (1 * Z.of_nat (S attempt))] |})
        as (r & w' & trace & Hrun & Hfiles & Hlog & Hn & Hfail & Hout);
        [lia|lia|].
      exists r, w', (EvChat :: EvSleep (1 * Z.of_nat (S attempt)) :: trace).
      split; [exact Hrun|]. split; [done|].
      split; [rewrite Hlog; cbn [w_log]; by rewrite <- !app_assoc|].
      split; [unfold chat_calls in *; simpl; lia|].
      split; [intros Hr; specialize (Hfail Hr); unfold chat_calls in *; simpl; lia
             |done].
Qed.

End OverviewRetryFacts.

Section OverviewParseFacts.
Import Overview.

Lemma split_on_aux_piece (sep : ascii) (cur o s : string) :
  PyStr.find_char sep o = None →
  split_on_aux sep cur (o +:+ String sep s)
  = (String.rev cur +:+ o) :: split_on_aux sep "" s.
Proof.
  revert cur. induction o as [|c o IH]; intros cur.
  - intros _. change ("" +:+ String sep s) with (String sep s).
    cbn [split_on_aux]. rewrite Ascii.eqb_refl. by rewrite append_nil_r.
  - cbn [PyStr.find_char]. destruct (Ascii.eqb sep c) eqn:Hc; [done|].
    destruct (PyStr.find_char sep o) eqn:Ho; [done|]. intros _.
    rewrite append_cons. cbn [split_on_aux].
    rewrite Ascii.eqb_sym, Hc. rewrite IH by done.
    by rewrite string_rev_cons, app_string_assoc.
Qed.

Lemma split_on_aux_last (sep : ascii) (cur o : string) :
  PyStr.find_char sep o = None →
  split_on_aux sep cur o = [String.rev cur +:+ o].
Proof.
  revert cur. induction o as [|c o IH]; intros cur.
  - intros _. cbn [split_on_aux]. by rewrite append_nil_r.
  - cbn [PyStr.find_char]. destruct (Ascii.eqb sep c) eqn:Hc; [done|].
    destruct (PyStr.find_char sep o) eqn:Ho; [done|]. intros _.
    cbn [split_on_aux]. rewrite Ascii.eqb_sym, Hc. rewrite IH by done.
    by rewrite string_rev_cons, app_string_assoc.
Qed.

Lemma split_on_aux_nonempty (sep : ascii) (cur s : string) :
  split_on_aux sep cur s ≠ [].
Proof.
  revert cur. induction s as [|c s IH]; intros cur; cbn [split_on_aux]; [done|].
  destruct (Ascii.eqb c sep); [done|apply IH].
Qed.

(** Joining the pieces of a text gives the text back. *)
Lemma join_split_on_aux (sep : ascii) (cur s : string) :
  PyStr.join (String sep "") (split_on_aux sep cur s) = String.rev cur +:+ s.
Proof.
  revert cur. induction s as [|c s IH]; intros cur; cbn [split_on_aux].
  - by rewrite append_nil_r.
  - destruct (Ascii.eqb c sep) eqn:Hc.
    + apply Ascii.eqb_eq in Hc as ->.
      pose proof (split_on_aux_nonempty sep "" s) as Hne.
      destruct (split_on_aux sep "" s) as [|x l] eqn:Hs; [done|].
      change (PyStr.join (String sep "") (String.rev cur :: x :: l))
        with (String.rev cur +:+ String sep "" +:+ PyStr.join (String sep "") (x :: l)).
      rewrite <- Hs, IH. done.
    + rewrite IH. by rewrite string_rev_cons, app_string_assoc.
Qed.

(** X11. Reading a response. When the response, stripped of white space, is a
    line of title, a line of tags that is not blank, and a body, the
    overview is the stripped body, the title the stripped first line and
    the tags the stripped second line. A response of one line has no tags
    and no overview, so that the gate rejects it. *)
Theorem overview_parse :
  (∀ response title tags body,
     PyStr.strip response
       = title +:+ Concat.newline +:+ tags +:+ Concat.newline +:+ body →
     PyStr.find_char "010" title = None →
     PyStr.find_char "010" tags = None →
     PyStr.strip tags ≠ "" →
     parse_overview response
     = (PyStr.strip body, PyStr.strip title, PyStr.strip tags)) ∧
  (∀ response,
     PyStr.find_char "010" (PyStr.strip response) = None →
     parse_overview response = ("", PyStr.strip (PyStr.strip response), "")).
Proof.
  split.
  - intros response title tags body Hshape Htitle Htags Hne.
    unfold parse_overview. rewrite Hshape. unfold split_on.
    change (title +:+ Concat.newline +:+ tags +:+ Concat.newline +:+ body)
      with (title +:+ String "010" (tags +:+ String "010" body)).
    rewrite split_on_aux_piece by done. rewrite split_on_aux_piece by done.
    change (String.rev "" +:+ title) with title.
    change (String.rev "" +:+ tags) with tags.
    pose proof (split_on_aux_nonempty "010" "" body) as Hrest.
    pose proof (join_split_on_aux "010" "" body) as Hjoin.
    destruct (split_on_aux "010" "" body) as [|b bs] eqn:Hb; [done|].
    cbv zeta.
    assert (∃ k, Nat.min (length (title :: tags :: b :: bs)) 4 - 1 = S (S k))%nat
      as [k ->].
    { cbn [length]. destruct bs; cbn; eauto. }
    cbn [seq tags_loop lookup list_lookup default]. unfold id.
    destruct (String.eqb (PyStr.strip tags) "") eqn:He;
      [by apply String.eqb_eq in He|].
    cbn [negb Nat.add drop]. unfold Concat.newline.
    change (ascii_of_nat 10) with "010"%char. by rewrite Hjoin.
  - intros response Hline. unfold parse_overview, split_on.
    rewrite split_on_aux_last by done.
    change (String.rev "" +:+ PyStr.strip response) with (PyStr.strip response).
    reflexivity.
Qed.

End OverviewParseFacts.


Section OverviewPolicy.
Import Overview.
Variable raw_decode : string → option (json * nat).
Variable chat_completion : nat → result string.

(** X12. The retry of the overview request. The overview is requested at most
    3 times, the files stay as they are, and the run ends with an overview
    that the gate accepts, read from the response to one of the requests,
    or, after exactly 3 requests, with a [RuntimeError]. While attempts are
    left, a response that the gate rejects is followed by the next request
    at once, and a request that raises by a sleep of as many seconds as
    attempts have failed and then by the next request. *)
Theorem overview_retry_policy :
  (∀ w, ∃ r w' trace,
     _generate_overview_content raw_decode chat_completion w = (r, w') ∧
     w_files w' = w_files w ∧
     w_log w' = w_log w ++ trace ∧
     (chat_calls trace ≤ 3)%nat ∧
     (is_ok r = false → chat_calls trace = 3%nat) ∧
     overview_outcome chat_completion r) ∧
  (∀ fuel attempt w response content title tags,
     (S attempt < 3)%nat →
     chat_completion attempt = Ok response →
     parse_overview response = (content, title, tags) →
     Script._is_content_quality_acceptable raw_decode content title tags
       "overview" = Ok false →
     overview_loop raw_decode chat_completion (S fuel) attempt w =
     overview_loop raw_decode chat_completion fuel (S attempt)
       (logged w [EvChat])) ∧
  (∀ fuel attempt w e,
     (S attempt < 3)%nat →
     chat_completion attempt = Raise e →
     overview_loop raw_decode chat_completion (S fuel) attempt w =
     overview_loop raw_decode chat_completion fuel (S attempt)
       (logged w [EvChat; EvSleep (Z.of_nat (S attempt))])).
Proof.
  split; [|split].
  - intros w. unfold _generate_overview_content, overview_max_retries.
    destruct (overview_loop_spec raw_decode chat_completion 3 0 w)
      as (r & w' & trace & Hrun & Hfiles & Hlog & Hn & Hfail & Hout); [lia..|].
    exists r, w', trace. repeat (split; [done|]). done.
  - intros fuel attempt w response content title tags Hlt Hchat Hparse Hgate.
    cbn [overview_loop]. unfold overview_max_retries.
    destruct (3 <=? attempt)%nat eqn:Hle; [apply Nat.leb_le in Hle; lia|].
    unfold bind at 1, emit. cbn [w_files w_log].
    unfold overview_round, overview_max_retries. rewrite Hchat, Hparse, Hgate.
    destruct (3 <=? S attempt)%nat eqn:Hle'; [apply Nat.leb_le in Hle'; lia|].
    done.
  - intros fuel attempt w e Hlt Hchat.
    cbn [overview_loop]. unfold overview_max_retries.
    destruct (3 <=? attempt)%nat eqn:Hle; [apply Nat.leb_le in Hle; lia|].
    unfold bind at 1, emit. cbn [w_files w_log].
    unfold overview_round. rewrite Hchat.
    destruct (3 <=? S attempt)%nat eqn:Hle'; [apply Nat.leb_le in Hle'; lia|].
    unfold bind, time_sleep, emit, logged. cbn [w_files w_log].
    by rewrite Z.mul_1_l, <- app_assoc.
Qed.

End OverviewPolicy.

(** ** The script that is returned *)

Section ScriptReturnFacts.
Import Script.
Variable raw_decode : string → option (json * nat).
Variable chat_completion : nat → result string.

Lemma script_round_return (attempt attempt' : nat) (raw : string) (s : json) :
  script_round raw_decode chat_completion attempt = (raw, (attempt', BReturn s)) →
  chat_completion attempt = Ok raw ∧
  ∃ valid_json_str,
    extract_script raw_decode raw = Some (s, valid_json_str) ∧
    _is_content_quality_acceptable raw_decode valid_json_str "" "" "script"
      = Ok true.
Proof.
  unfold script_round, reject.
  destruct (chat_completion attempt) as [response|e]; [|done].
  intros H. injection H as <- H. split; [done|]. revert H.
  destruct (extract_script raw_decode response) as [[obj valid]|].
  - cbv zeta. destruct (Json.len _).
    + destruct (negb _).
      * by destruct attempt as [|[|?]].
      * destruct (_is_content_quality_acceptable _ _ _ _ _) as [[]|] eqn:Hq.
        -- intros [= _ <-]. by exists valid.
        -- by destruct attempt as [|[|?]].
        -- done.
    + done.
  - by destruct attempt as [|[|?]].
Qed.

Lemma script_loop_files (fuel attempt : nat) (w : world) :
  w_files (snd (script_loop raw_decode chat_completion fuel attempt w))
  = w_files w.
Proof.
  revert attempt w. induction fuel as [|fuel IH]; intros attempt w; [done|].
  destruct (script_max_retries <=? attempt)%nat eqn:Hle.
  { cbn [script_loop]. by rewrite Hle. }
  apply Nat.leb_gt in Hle. rewrite script_loop_step by done.
  destruct (script_round raw_decode chat_completion attempt)
    as [raw [attempt' [s| |e]]]; [done|by rewrite IH|].
  destruct (script_max_retries <=? S attempt')%nat; [done|by rewrite IH].
Qed.

Lemma script_loop_return (fuel attempt : nat) (w w' : world) (s : json) :
  script_loop raw_decode chat_completion fuel attempt w = (Ok (Some s), w') →
  ∃ k text valid_json_str,
    (k < script_max_retries)%nat ∧
    chat_completion k = Ok text ∧
    extract_script raw_decode text = Some (s, valid_json_str) ∧
    _is_content_quality_acceptable raw_decode valid_json_str "" "" "script"
      = Ok true.
Proof.
  revert attempt w. induction fuel as [|fuel IH]; intros attempt w; [done|].
  destruct (script_max_retries <=? attempt)%nat eqn:Hle.
  { cbn [script_loop]. by rewrite Hle. }
  apply Nat.leb_gt in Hle. rewrite script_loop_step by done.
  destruct (script_round raw_decode chat_completion attempt)
    as [raw [attempt' [s'| |e]]] eqn:Hround.
  - intros [= -> _]. apply script_round_return in Hround as (Hchat & valid & He & Hq).
    exists attempt, raw, valid. done.
  - apply IH.
  - destruct (script_max_retries <=? S attempt')%nat; [|apply IH].
    by destruct (bool_decide _).
Qed.

(** X13. A script that is returned was accepted. When the generator returns a
    script, the script is the object that the scan found in the response
    to one of the three requests, the quality gate accepted the text that
    the object was decoded from, and the files are as they were. *)
Theorem returned_script_passed_the_gate (w w' : world) (podcast_script : json) :
  _generate_podcast_script raw_decode chat_completion w
    = (Ok (Some podcast_script), w') →
  w_files w' = w_files w ∧
  ∃ k text valid_json_str,
    (k < 3)%nat ∧
    chat_completion k = Ok text ∧
    extract_script raw_decode text = Some (podcast_script, valid_json_str) ∧
    _is_content_quality_acceptable raw_decode valid_json_str "" "" "script"
      = Ok true.
Proof.
  unfold _generate_podcast_script. intros Hrun. split.
  - pose proof (script_loop_files script_max_retries 0 w) as H.
    by rewrite Hrun in H.
  - by apply script_loop_return in Hrun.
Qed.

End ScriptReturnFacts.


(** ** The adapters and the synthesis task *)

Section TaskEdgeFacts.
Import Synthesis.
Variable sanitize : string → string.

(** X16. A task whose speaker has a voice code and no adapter: when the entry
    of the speaker has no owner, or an owner for which the adapter map has
    no adapter, the task raises a [KeyError] and makes no request. *)
Theorem task_without_adapter (item : transcript) (config_data : config)
    (tts_adapter : gmap string adapter) (max_retries sid : Z)
    (entry : pod_user) (w : world) :
  speaker_id item = Some sid →
  pod_user_entry config_data sid = Some entry →
  truthy (pu_code entry) = true →
  pu_owner entry ≫= (tts_adapter !!.) = None →
  generate_audio_for_item sanitize item config_data tts_adapter max_retries w
  = (Raise (Exn KeyError (Speakers.str_opt (pu_owner entry))), w).
Proof.
  intros Hsid Hentry Hcode Hnone.
  unfold generate_audio_for_item. rewrite Hsid.
  unfold generate_audio_for_speaker. rewrite Hentry. cbn [mbind option_bind].
  rewrite Hcode. cbn [negb].
  destruct (pu_owner entry) as [p|]; cbn [mbind option_bind] in *; [|done].
  by rewrite Hnone.
Qed.

(** X17. A task that may make no attempt: with [max_retries] at most 0 the
    loop over the attempts is empty, and the task of a speaker who has a
    voice code and an adapter returns [None] without a request and without
    an error. *)
Theorem task_without_attempts (item : transcript) (config_data : config)
    (tts_adapter : gmap string adapter) (max_retries sid : Z)
    (entry : pod_user) (provider : string) (a : adapter) (w : world) :
  speaker_id item = Some sid →
  pod_user_entry config_data sid = Some entry →
  truthy (pu_code entry) = true →
  pu_owner entry = Some provider →
  tts_adapter !! provider = Some a →
  (max_retries ≤ 0)%Z →
  generate_audio_for_item sanitize item config_data tts_adapter max_retries w
  = (Ok None, w).
Proof.
  intros Hsid Hentry Hcode Howner Ha Hmax.
  unfold generate_audio_for_item. rewrite Hsid.
  unfold generate_audio_for_speaker. rewrite Hentry. cbn [mbind option_bind].
  rewrite Hcode, Howner. cbn [negb mbind option_bind]. rewrite Ha.
  cbn [fmap option_fmap option_map]. unfold py_range.
  by replace (Z.to_nat max_retries) with 0%nat by lia.
Qed.

(** X18. The first request of a task. The adapter of the owner of the speaker
    is asked for the dialog after the substitution, with the voice code of
    the speaker and with the adjustments of the last voice of the catalogue
    that has that code, 0.0 for an adjustment that is not given; when the
    adapter gives a file at once, the task returns it after that one
    request. *)
Theorem task_first_request (item : transcript) (config_data : config)
    (tts_adapter : gmap string adapter) (max_retries sid : Z)
    (entry : pod_user) (code provider file : string) (a : adapter) (w : world) :
  let voice :=
    Speakers.voice_map (default [] (cfg_voices config_data)) !! code in
  let rq :=
    {| rq_text := sanitize (dialog item);
       rq_voice_code := code;
       rq_volume_adjustment := default 0%float (voice ≫= v_volume_adjustment);
       rq_speed_adjustment := default 0%float (voice ≫= v_speed_adjustment) |} in
  speaker_id item = Some sid →
  pod_user_entry config_data sid = Some entry →
  pu_code entry = Some code → code ≠ "" →
  pu_owner entry = Some provider →
  tts_adapter !! provider = Some a →
  (0 < max_retries)%Z →
  a rq 0%nat = Ok file →
  generate_audio_for_item sanitize item config_data tts_adapter max_retries w
  = (Ok (Some file),
     {| w_files := w_files w;
        w_log := w_log w ++ [EvSynthesize provider rq] |}).
Proof.
  intros voice rq Hsid Hentry Hcode Hne Howner Ha Hmax Hcall.
  unfold generate_audio_for_item. rewrite Hsid.
  unfold generate_audio_for_speaker. rewrite Hentry. cbn [mbind option_bind].
  rewrite Hcode, Howner. cbn [truthy].
  destruct (String.eqb code "") eqn:He; [by apply String.eqb_eq in He|].
  cbn [negb mbind option_bind]. rewrite Ha.
  cbn [fmap option_fmap option_map Speakers.voice_map_get Speakers.str_opt default].
  subst rq voice. unfold id in *. unfold py_range.
  destruct (Z.to_nat max_retries) as [|m] eqn:Hm; [lia|].
  cbn [seq attempt_loop]. unfold bind, emit. by rewrite Hcall.
Qed.

End TaskEdgeFacts.

Section AdapterMapFacts.
Import Pipeline.
Variable make_adapter : config → string → result adapter.

Lemma adapters_for_keys (config_data : config) (providers : list string)
    (m0 m : gmap string adapter) :
  adapters_for make_adapter config_data providers m0 = Ok m →
  (∀ k, is_Some (m !! k) →
        is_Some (m0 !! k) ∨ (k ∈ providers ∧ k ∈ supported_providers)) ∧
  (∀ k, is_Some (m0 !! k) ∨ k ∈ providers → is_Some (m !! k)).
Proof.
  revert m0. induction providers as [|p l IH]; intros m0.
  - intros [= ->]. split; [by left|]. intros k [H|H]; [done|].
    by apply elem_of_nil in H.
  - cbn [adapters_for]. case_bool_decide as Hsup; [|done].
    destruct (make_adapter config_data p) as [a|e]; [|done].
    intros Hrun. destruct (IH _ Hrun) as [Hkeys Hcover]. split.
    + intros k Hk. destruct (Hkeys k Hk) as [Hk0|[Hin Hs]].
      * destruct (decide (p = k)) as [->|Hpk].
        -- right. split; [by left|done].
        -- left. by rewrite lookup_insert_ne in Hk0.
      * right. split; [by right|done].
    + intros k [Hk0|Hin]; apply Hcover.
      * left. destruct (decide (p = k)) as [->|Hpk].
        -- rewrite lookup_insert_eq. by eexists.
        -- by rewrite lookup_insert_ne.
      * apply elem_of_cons in Hin as [->|Hin]; [|by right].
        left. rewrite lookup_insert_eq. by eexists.
Qed.

Section Ownerless.
Variable sanitize : string → string.

(** X15. A speaker without owner cannot be synthesized. Whatever providers the
    adapter map was initialised for, the task of a speaker whose roster
    entry has a voice code and no owner, or an empty one, raises a
    [KeyError] before any request: the provider that the configuration
    names is not used in the place of a missing owner. *)
Theorem ownerless_speaker_has_no_adapter (provider_config : config)
    (item : transcript) (config_data : config)
    (tts_adapter : gmap string adapter) (max_retries sid : Z)
    (entry : pod_user) (w : world) :
  _initialize_tts_adapter make_adapter provider_config = Ok tts_adapter →
  speaker_id item = Some sid →
  Synthesis.pod_user_entry config_data sid = Some entry →
  truthy (pu_code entry) = true →
  truthy (pu_owner entry) = false →
  Synthesis.generate_audio_for_item sanitize item config_data tts_adapter
    max_retries w
  = (Raise (Exn KeyError (Speakers.str_opt (pu_owner entry))), w).
Proof.
  intros Hinit Hsid Hentry Hcode Howner.
  unfold Synthesis.generate_audio_for_item. rewrite Hsid.
  unfold Synthesis.generate_audio_for_speaker. rewrite Hentry.
  cbn [mbind option_bind]. rewrite Hcode. cbn [negb].
  destruct (pu_owner entry) as [o|]; cbn [mbind option_bind]; [|done].
  assert (o = "") as ->.
  { cbn [truthy] in Howner. destruct (String.eqb o "") eqn:He; [|done].
    by apply String.eqb_eq in He. }
  assert (tts_adapter !! "" = None) as ->; [|done].
  unfold _initialize_tts_adapter in Hinit.
  destruct (negb (truthy (cfg_tts_provider provider_config))); [done|].
  destruct (adapters_for_keys _ _ _ _ Hinit) as [Hkeys _].
  destruct (tts_adapter !! "") as [a|] eqn:Ha; [|done].
  destruct (Hkeys "" ltac:(by eexists)) as [H0|[_ Hs]].
  - rewrite lookup_empty in H0. by destruct H0.
  - unfold supported_providers in Hs.
    repeat (apply elem_of_cons in Hs as [Hs|Hs]; [done|]).
    by apply elem_of_nil in Hs.
Qed.

End Ownerless.

End AdapterMapFacts.


Section SplitFacts.

Lemma split_commas_aux_piece (cur o s : string) :
  PyStr.find_char "," o = None →
  PyStr.split_commas_aux cur (o +:+ String "," s)
  = (String.rev cur +:+ o) :: PyStr.split_commas_aux "" s.
Proof.
  revert cur. induction o as [|c o IH]; intros cur.
  - intros _. change ("" +:+ String "," s) with (String "," s).
    cbn [PyStr.split_commas_aux]. rewrite Ascii.eqb_refl. by rewrite append_nil_r.
  - cbn [PyStr.find_char]. destruct (Ascii.eqb "," c) eqn:Hc; [done|].
    destruct (PyStr.find_char "," o) eqn:Ho; [done|]. intros _.
    rewrite append_cons. cbn [PyStr.split_commas_aux].
    rewrite Ascii.eqb_sym, Hc. rewrite IH by done.
    by rewrite string_rev_cons, app_string_assoc.
Qed.

Lemma split_commas_aux_last (cur o : string) :
  PyStr.find_char "," o = None →
  PyStr.split_commas_aux cur o = [String.rev cur +:+ o].
Proof.
  revert cur. induction o as [|c o IH]; intros cur.
  - intros _. cbn [PyStr.split_commas_aux]. by rewrite append_nil_r.
  - cbn [PyStr.find_char]. destruct (Ascii.eqb "," c) eqn:Hc; [done|].
    destruct (PyStr.find_char "," o) eqn:Ho; [done|]. intros _.
    cbn [PyStr.split_commas_aux]. rewrite Ascii.eqb_sym, Hc. rewrite IH by done.
    by rewrite string_rev_cons, app_string_assoc.
Qed.

Lemma split_commas_aux_behind (cur a s x : string) :
  x ∈ PyStr.split_commas_aux "" s →
  x ∈ PyStr.split_commas_aux cur (a +:+ String "," s).
Proof.
  intros Hx. revert cur. induction a as [|c a IH]; intros cur.
  - change ("" +:+ String "," s) with (String "," s).
    cbn [PyStr.split_commas_aux]. rewrite Ascii.eqb_refl. by right.
  - rewrite append_cons. cbn [PyStr.split_commas_aux].
    destruct (Ascii.eqb c ","); [right|]; apply IH.
Qed.

(** A comma-free element of a list is a piece of the joined list. *)
Lemma elem_of_split_join (l : list string) (o : string) :
  o ∈ l → PyStr.find_char "," o = None →
  o ∈ PyStr.split_commas (PyStr.join "," l).
Proof.
  unfold PyStr.split_commas. intros Hin Ho.
  induction l as [|x l IH]; [by apply elem_of_nil in Hin|].
  destruct l as [|y l].
  - apply list_elem_of_singleton in Hin as ->. cbn [PyStr.join].
    rewrite split_commas_aux_last by done. left.
  - assert (PyStr.join "," (x :: y :: l)
            = x +:+ String "," (PyStr.join "," (y :: l))) as -> by reflexivity.
    apply elem_of_cons in Hin as [->|Hin].
    + rewrite split_commas_aux_piece by done. left.
    + apply split_commas_aux_behind. by apply IH.
Qed.

End SplitFacts.

Section OwnersGetAdapters.
Import Pipeline.
Variable load : string → result config.
Variable make_adapter : config → string → result adapter.

(** X14. From the roster to the adapter map. When the configuration is loaded
    for a roster and the adapters are initialised from it, the map has an
    adapter under every owner that an entry of the roster names, for
    owners that have no comma and no white space, that of Unicode
    included, at either end. *)
Theorem owners_have_adapters (config_path : string) (roster : list pod_user)
    (cfg : config) (tts_adapter : gmap string adapter)
    (entry : pod_user) (owner : string) :
  Configuration._load_configuration_path load config_path (Some roster) = Ok cfg →
  _initialize_tts_adapter make_adapter (set_podUsers roster cfg) = Ok tts_adapter →
  entry ∈ roster →
  pu_owner entry = Some owner →
  owner ≠ "" →
  PyStr.find_char "," owner = None →
  PyStr.strip owner = owner →
  is_Some (tts_adapter !! owner).
Proof.
  intros Hload Hinit Hentry Howner Hne Hcomma Hstrip.
  unfold Configuration._load_configuration_path in Hload.
  destruct (load config_path) as [cfg0|e]; [|done].
  assert (owner ∈ Configuration.owners roster) as Hin.
  { apply owners_spec. eauto. }
  destruct roster as [|u0 r0]; [by apply elem_of_nil in Hentry|].
  destruct (Configuration.owners (u0 :: r0)) as [|o1 os] eqn:Hos;
    [by apply elem_of_nil in Hin|].
  assert (cfg = set_tts_provider (PyStr.join "," (o1 :: os)) cfg0) as ->
    by (by injection Hload as <-).
  unfold _initialize_tts_adapter in Hinit.
  change (cfg_tts_provider
            (set_podUsers (u0 :: r0)
               (set_tts_provider (PyStr.join "," (o1 :: os)) cfg0)))
    with (Some (PyStr.join "," (o1 :: os))) in Hinit.
  destruct (negb (truthy (Some (PyStr.join "," (o1 :: os))))); [done|].
  destruct (adapters_for_keys make_adapter _ _ _ _ Hinit) as [_ Hcover].
  apply Hcover. right.
  change (default "" (Some (PyStr.join "," (o1 :: os))))
    with (PyStr.join "," (o1 :: os)).
  apply list_elem_of_fmap. exists owner. split; [done|].
  by apply elem_of_split_join.
Qed.

End OwnersGetAdapters.


(** ** The trimmer *)

Section WindowFacts.
Import Trim.

Lemma float_ltb_leb (x y : float) :
  PrimFloat.ltb x y = true → PrimFloat.leb x y = true.
Proof.
  rewrite FloatAxioms.ltb_spec, FloatAxioms.leb_spec. unfold SFltb, SFleb.
  by destruct (SFcompare (Prim2SF x) (Prim2SF y)) as [[| |]|].
Qed.

Lemma float_leb_refl (x : float) :
  PrimFloat.is_nan x = false → PrimFloat.leb x x = true.
Proof.
  unfold PrimFloat.is_nan. rewrite FloatAxioms.eqb_spec, FloatAxioms.leb_spec. unfold SFeqb, SFleb.
  by destruct (SFcompare (Prim2SF x) (Prim2SF x)) as [[| |]|].
Qed.

Lemma py_max_lower (a b : float) :
  PrimFloat.is_nan a = false → PrimFloat.leb a (py_max a b) = true.
Proof.
  intros Ha. unfold py_max. destruct (PrimFloat.ltb a b) eqn:Hlt.
  - by apply float_ltb_leb.
  - by apply float_leb_refl.
Qed.

Lemma py_min_upper (a b : float) :
  PrimFloat.is_nan a = false → PrimFloat.leb (py_min a b) a = true.
Proof.
  intros Ha. unfold py_min. destruct (PrimFloat.ltb b a) eqn:Hlt.
  - by apply float_ltb_leb.
  - by apply float_leb_refl.
Qed.

(** X20. The trim window lies inside the clip. For a duration that is a
    number, whatever silences the report names, the trim-in point is not
    below 0 and the trim-out point is not above the duration: the cut
    never seeks before the start of the clip or behind its end. *)
Theorem trim_window_within_clip (current_audio_duration min_silence_duration : float)
    (silence_starts silence_ends : list float) :
  PrimFloat.is_nan current_audio_duration = false →
  let window :=
    trim_window current_audio_duration min_silence_duration
      silence_starts silence_ends in
  PrimFloat.leb 0 (fst window) = true ∧
  PrimFloat.leb (snd window) current_audio_duration = true.
Proof.
  intros HD window. subst window. unfold trim_window.
  destruct silence_starts as [|s0 Ss]; [by split; [|apply float_leb_refl]|].
  destruct silence_ends as [|e0 Es]; [by split; [|apply float_leb_refl]|].
  cbn [fst snd]. split.
  - destruct (PrimFloat.eqb s0 0); [by apply py_max_lower|done].
  - destruct (PrimFloat.leb (PrimFloat.sub _ _) _);
      [by apply py_min_upper|by apply float_leb_refl].
Qed.

End WindowFacts.


Section TrimErrorFacts.
Import Trim.
Variable ffmpeg : list string → proc_outcome.
Variable ffprobe : list string → proc_outcome.
Variable py_float : string → option float.
Variable py_str : float → string.

(** X22. Errors of the trimming. With trimming enabled and ffmpeg installed,
    whatever fails behind the version check, in the silence detection, in
    reading its report, in ffprobe, in the copy or in the cut, the error
    that leaves the trimmer is a [RuntimeError] whose message has the path
    of the input clip. *)
Theorem trim_errors_name_the_clip (input_filepath output_filepath : string)
    (e : exn) (w w' : world) :
  exits_ok ffmpeg ["ffmpeg"; "-version"] →
  trim_audio_silence_default ffmpeg ffprobe py_float py_str input_filepath
    output_filepath true w = (Raise e, w') →
  exn_kind e = RuntimeError ∧
  PyStr.contains input_filepath (exn_msg e) = true.
Proof.
  intros Hver.
  unfold trim_audio_silence_default, trim_audio_silence. cbn [negb]. cbv iota.
  destruct (subprocess_run_spec ffmpeg ["ffmpeg"; "-version"] "" true w)
    as (w0 & Hrun & _).
  destruct (run_outcome_ok ffmpeg ["ffmpeg"; "-version"] true Hver)
    as (out & err & Hout).
  unfold bind at 1. rewrite Hrun, Hout. unfold try_except.
  destruct (detect_and_trim ffmpeg ffprobe py_float py_str input_filepath
              output_filepath (-60) 0.5 w0) as [[|e0] w1]; [done|].
  destruct (bool_decide (exn_kind e0 = CalledProcessError));
    intros [= <- _]; (split; [done|]);
    unfold trim_failed_error, trim_unexpected_error; cbn [exn_msg];
    apply contains_behind; apply contains_at_head.
Qed.

End TrimErrorFacts.

(** ** The file list and the merge *)

Section FileListFacts.
Import Concat.

Lemma lines_aux_line (cur body rest : string) :
  PyStr.find_char "010" body = None →
  PyStr.lines_aux cur (body +:+ String "010" rest)
  = (String.rev cur +:+ body +:+ String "010" "") :: PyStr.lines_aux "" rest.
Proof.
  revert cur. induction body as [|c body IH]; intros cur.
  - intros _. change ("" +:+ String "010" rest) with (String "010" rest).
    cbn [PyStr.lines_aux]. rewrite Ascii.eqb_refl. by rewrite string_rev_cons.
  - cbn [PyStr.find_char]. destruct (Ascii.eqb "010" c) eqn:Hc; [done|].
    destruct (PyStr.find_char "010" body) eqn:Hb; [done|]. intros _.
    rewrite append_cons. cbn [PyStr.lines_aux].
    rewrite Ascii.eqb_sym, Hc. rewrite IH by done.
    by rewrite string_rev_cons, app_string_assoc.
Qed.

Lemma find_char_app_none (c : ascii) (a b : string) :
  PyStr.find_char c a = None → PyStr.find_char c b = None →
  PyStr.find_char c (a +:+ b) = None.
Proof.
  induction a as [|d a IH]; [done|].
  rewrite append_cons. cbn [PyStr.find_char]. destruct (Ascii.eqb c d); [done|].
  destruct (PyStr.find_char c a); [done|]. intros _ Hb. by rewrite IH.
Qed.

(** The file name that the cleanup reads from the line that the writer
    makes for an audio file. *)
Lemma listed_filename_file_line (audio_file : string) :
  listed_filename (file_line audio_file)
  = Some (PyStr.strip_chars quote_chars (PyStr.basename audio_file)).
Proof.
  unfold listed_filename, file_line, PyStr.startswith.
  set (b := PyStr.basename audio_file).
  change ("file '" +:+ b +:+ "'" +:+ newline)
    with ("file " +:+ String "'" (b +:+ "'" +:+ newline)).
  rewrite prefix_app.
  change 5%nat with (String.length "file ").
  rewrite drop_app_exact. f_equal.
  assert (PyStr.strip (String "'" (b +:+ "'" +:+ newline))
          = String "'" (b +:+ "'")) as ->.
  { unfold PyStr.strip.
    rewrite lstrip_ascii by (vm_compute; first [done|lia]).
    replace (String "'" (b +:+ "'" +:+ newline))
      with ((String "'" b +:+ "'") +:+ String "010" "")
      by (by rewrite !append_cons, app_string_assoc).
    rewrite rstrip_snoc_space by done.
    by rewrite rstrip_snoc_ascii by (vm_compute; first [done|lia]). }
  unfold PyStr.strip_chars. by apply strip_by_wrapped.
Qed.

Lemma listed_paths_file_list (audio_files : list string) :
  Forall (fun f => PyStr.find_char "010" (PyStr.basename f) = None) audio_files →
  listed_paths (file_list_content audio_files)
  = (fun f => PyStr.path_join module_output_dir
                (PyStr.strip_chars quote_chars (PyStr.basename f)))
    <$> audio_files.
Proof.
  unfold listed_paths, PyStr.lines.
  induction 1 as [|f fs Hf Hfs IH]; [done|].
  cbn [file_list_content foldr fmap list_fmap].
  change (foldr (λ audio_file rest, file_line audio_file +:+ rest) "" fs)
    with (file_list_content fs).
  assert (file_line f +:+ file_list_content fs
          = ("file '" +:+ PyStr.basename f +:+ "'")
            +:+ String "010" (file_list_content fs)) as ->.
  { unfold file_line, newline. by rewrite !app_string_assoc. }
  rewrite lines_aux_line.
  2:{ apply find_char_app_none; [done|].
      apply find_char_app_none; [exact Hf|done]. }
  cbn [omap list_omap].
  change (String.rev "" +:+ ("file '" +:+ PyStr.basename f +:+ "'") +:+ String "010" "")
    with (("file '" +:+ PyStr.basename f +:+ "'") +:+ newline).
  replace (("file '" +:+ PyStr.basename f +:+ "'") +:+ newline)
    with (file_line f) by (unfold file_line; by rewrite !app_string_assoc).
  rewrite listed_filename_file_line. cbn [fmap option_fmap option_map].
  f_equal. exact IH.
Qed.

(** X23. The file list and its reader agree. For audio files whose names have
    no line break and no quote character at either end, the paths that
    the cleanup of the merge reads from the file list are, in order, the
    names of the files in the output directory: one for each file. *)
Theorem file_list_round_trip (audio_files : list string) :
  Forall (fun f =>
            PyStr.find_char "010" (PyStr.basename f) = None ∧
            PyStr.find_char "013" (PyStr.basename f) = None ∧
            PyStr.strip_chars quote_chars (PyStr.basename f) = PyStr.basename f)
         audio_files →
  listed_paths (file_list_content audio_files)
  = (fun f => PyStr.path_join module_output_dir (PyStr.basename f)) <$> audio_files.
Proof.
  intros Hall. rewrite listed_paths_file_list.
  - apply Forall_fmap_ext_1. eapply Forall_impl; [exact Hall|].
    intros f (_ & _ & Hf). cbv beta. by rewrite Hf.
  - eapply Forall_impl; [exact Hall|]. by intros f (Hf & _).
Qed.

End FileListFacts.

Section MergeAfterListFacts.
Import Concat.
Variable ffmpeg : list string → proc_outcome.

(** X24. The file list of the clips and the merge that follows it. When the
    clips lie in the output directory and their names have no line break
    and no quote character at either end, the merge, whether its commands
    succeed or fail, leaves none of the clips and not the file list. *)
Theorem merge_removes_the_clips (list_id merge_id : string) (timestamp : Z)
    (audio_files : list string) (out err : string) (w : world) :
  let file_list_path :=
    PyStr.path_join module_output_dir ("file_list_" +:+ list_id +:+ ".txt") in
  let wav_name := merge_id +:+ pretty timestamp +:+ ".wav" in
  let mp3_name := merge_id +:+ pretty timestamp +:+ ".mp3" in
  audio_files ≠ [] →
  Forall (fun f =>
            f = PyStr.path_join module_output_dir (PyStr.basename f) ∧
            PyStr.find_char "010" (PyStr.basename f) = None ∧
            PyStr.find_char "013" (PyStr.basename f) = None ∧
            PyStr.strip_chars quote_chars (PyStr.basename f) = PyStr.basename f)
         audio_files →
  ffmpeg ["ffmpeg"; "-version"] = Exited 0 out err None →
  file_list_path ≠ PyStr.path_join module_output_dir wav_name →
  file_list_path ≠ PyStr.path_join module_output_dir mp3_name →
  ∃ w1 r w2,
    _create_ffmpeg_file_list list_id audio_files
      (Z.of_nat (length audio_files)) w = (Ok file_list_path, w1) ∧
    merge_audio_files ffmpeg merge_id timestamp file_list_path w1 = (r, w2) ∧
    w_files w2 !! file_list_path = None ∧
    ∀ f, f ∈ audio_files → w_files w2 !! f = None.
Proof.
  intros file_list_path wav_name mp3_name Hne Hall Hver Hwav Hmp3.
  rewrite create_file_list_spec.
  destruct audio_files as [|f0 fs] eqn:Hfs; [done|]. rewrite <- Hfs in *.
  rewrite Z.eqb_refl. cbv zeta. fold file_list_path.
  set (w1 := {| w_files := <[file_list_path := file_list_content audio_files]> (w_files w);
                w_log := w_log w |}).
  exists w1.
  unfold merge_audio_files. fold wav_name mp3_name.
  unfold subprocess_run, bind at 1, emit. rewrite Hver. cbn [w_files w_log].
  unfold bind at 1, ret at 1. unfold bind at 1. cbn [andb negb Z.eqb].
  unfold ret at 1. unfold try_finally.
  set (w1' := {| w_files := w_files w1;
                 w_log := w_log w1 ++ [EvRun ["ffmpeg"; "-version"]] |}).
  pose proof (concat_and_encode_files ffmpeg file_list_path wav_name mp3_name w1'
                file_list_path Hwav Hmp3) as Hkept.
  destruct (concat_and_encode ffmpeg file_list_path wav_name mp3_name w1')
    as [r w2].
  subst w1' w1. cbn [w_files] in Hkept. rewrite lookup_insert_eq in Hkept.
  rewrite cleanup_spec.
  destruct (cleaned_lookup file_list_path
              (PyStr.path_join module_output_dir wav_name)
              (file_list_content audio_files) (w_files w2) Hkept)
    as (H1 & _ & H3).
  eexists _, _. split; [reflexivity|]. split; [reflexivity|]. cbn [w_files].
  split; [exact H1|]. intros f Hf. apply H3.
  rewrite listed_paths_file_list.
  - apply list_elem_of_fmap. exists f. split; [|done].
    rewrite Forall_forall in Hall. destruct (Hall f Hf) as (Hdir & _ & _ & Hq).
    by rewrite Hq.
  - eapply Forall_impl; [exact Hall|]. by intros f' (_ & Hf' & _).
Qed.

End MergeAfterListFacts.

(** ** The configuration of the command line *)

Section PathFacts.

(** The base name of a path: what is read so far has no slash. *)
Lemma basename_aux_plain (u s : string) :
  PyStr.find_char "/" s = None →
  PyStr.basename_aux (u +:+ s) s = u +:+ s.
Proof.
  revert u. induction s as [|c s IH]; intros u; [done|].
  cbn [PyStr.find_char]. destruct (Ascii.eqb "/" c) eqn:Hc; [done|].
  destruct (PyStr.find_char "/" s) eqn:Hs; [done|]. intros _.
  cbn [PyStr.basename_aux]. rewrite Ascii.eqb_sym, Hc.
  replace (u +:+ String c s) with ((u +:+ String c "") +:+ s)
    by (by rewrite app_string_assoc).
  by rewrite IH.
Qed.

Lemma basename_plain (s : string) :
  PyStr.find_char "/" s = None → PyStr.basename s = s.
Proof. intros H. exact (basename_aux_plain "" s H). Qed.

Lemma basename_aux_behind_slash (acc d s : string) :
  PyStr.find_char "/" s = None →
  PyStr.basename_aux acc (d +:+ String "/" s) = s.
Proof.
  intros Hs. revert acc. induction d as [|c d IH]; intros acc.
  - change ("" +:+ String "/" s) with (String "/" s).
    cbn [PyStr.basename_aux]. rewrite Ascii.eqb_refl.
    by apply basename_plain.
  - rewrite append_cons. cbn [PyStr.basename_aux].
    destruct (Ascii.eqb c "/"); apply IH.
Qed.

(** The root of a name with one dot, which does not stand first. *)
Lemma splitext_aux_ext (ext : string) (only_dots : bool) :
  PyStr.find_char "." ext = None →
  PyStr.splitext_aux only_dots ext = None.
Proof.
  revert only_dots. induction ext as [|c ext IH]; intros only_dots; [done|].
  cbn [PyStr.find_char]. destruct (Ascii.eqb "." c) eqn:Hc; [done|].
  destruct (PyStr.find_char "." ext) eqn:He; [done|]. intros _.
  cbn [PyStr.splitext_aux]. rewrite Ascii.eqb_sym, Hc. by rewrite IH.
Qed.

Lemma splitext_aux_name (name ext : string) (only_dots : bool) :
  PyStr.find_char "." name = None →
  PyStr.find_char "." ext = None →
  (name ≠ "" ∨ only_dots = false) →
  PyStr.splitext_aux only_dots (name +:+ String "." ext) = Some name.
Proof.
  intros Hname Hext. revert only_dots.
  induction name as [|c name IH]; intros only_dots Hcase.
  - destruct Hcase as [Hcase|Hcase]; [done|]. subst only_dots.
    change ("" +:+ String "." ext) with (String "." ext).
    cbn [PyStr.splitext_aux]. rewrite Ascii.eqb_refl.
    by rewrite splitext_aux_ext.
  - revert Hname. cbn [PyStr.find_char].
    destruct (Ascii.eqb "." c) eqn:Hc; [done|].
    destruct (PyStr.find_char "." name) eqn:Hn; [done|]. intros _.
    rewrite append_cons. cbn [PyStr.splitext_aux].
    rewrite Ascii.eqb_sym, Hc, andb_false_r.
    rewrite IH; [done|done|by right].
Qed.

End PathFacts.

Section CliFacts.
Import Cli.

(** X25. The provider of the command line is read from the name of the
    selected file: for a file in a directory whose name is a provider
    name, a dot and an extension, with no slash and no dot in the provider
    name and in the extension, the provider that is written into the
    configuration is that provider name, whatever the roster of the file
    says. *)
Theorem provider_from_file_name (directory provider extension : string)
    (config_data : config) :
  provider ≠ "" →
  PyStr.find_char "/" provider = None →
  PyStr.find_char "." provider = None →
  PyStr.find_char "/" extension = None →
  PyStr.find_char "." extension = None →
  ∃ config_data',
    _load_configuration
      (Ok (directory +:+ "/" +:+ provider +:+ "." +:+ extension, config_data))
    = Ok config_data' ∧
    cfg_tts_provider config_data' = Some provider ∧
    cfg_podUsers config_data' = cfg_podUsers config_data.
Proof.
  intros Hne Hslash Hdot Heslash Hedot. unfold _load_configuration.
  eexists. split; [reflexivity|]. cbn [cfg_tts_provider cfg_podUsers set_tts_provider].
  split; [|done]. f_equal. unfold PyStr.basename.
  change (directory +:+ "/" +:+ provider +:+ "." +:+ extension)
    with (directory +:+ String "/" (provider +:+ String "." extension)).
  rewrite basename_aux_behind_slash.
  2:{ apply find_char_app_none; [done|]. cbn [PyStr.find_char].
      change (Ascii.eqb "/" ".") with false. cbv iota. by rewrite Heslash. }
  unfold PyStr.splitext_root. rewrite splitext_aux_name; [done|done|done|by left].
Qed.

End CliFacts.

(** ** Runs of the further properties *)

(** The later of two voices with one code is the voice of the code. *)
Lemma voice_map_last_wins_witness :
  Speakers.voice_map [Samples.voice_first; Samples.voice_second]
    !! "en-US-AvaNeural" = Some Samples.voice_second.
Proof.
  apply (voice_map_last_wins [Samples.voice_first] [] Samples.voice_second
           "en-US-AvaNeural").
  - reflexivity.
  - discriminate.
  - intros v' Hv'. by apply elem_of_nil in Hv'.
Defined.

(** An input with a custom block between two sentences. *)
Lemma custom_block_extracted_witness :
  Pipeline._extract_custom_content
    ("Intro. " +:+ "```custom-begin" +:+ " Be brief. " +:+ "```custom-end"
     +:+ " The text.")
  = (PyStr.strip " Be brief. ", PyStr.strip " The text.").
Proof.
  apply (custom_block_extracted "Intro. " " Be brief. " " The text.");
    reflexivity.
Defined.

(** A clip of 3.5 seconds that is silent up to 0.55 seconds. *)
Lemma trim_window_within_clip_witness :
  let window := Trim.trim_window 3.5 0.5 [0%float] [0.55%float] in
  PrimFloat.leb 0 (fst window) = true ∧ PrimFloat.leb (snd window) 3.5 = true.
Proof.
  apply (trim_window_within_clip 3.5 0.5 [0%float] [0.55%float]). reflexivity.
Defined.

(** A clip of 3.5 seconds that is silent up to 0.55 seconds is cut to the
    window from 0.35 to 3.5 seconds. *)
Lemma trim_cuts_to_window_witness :
  ∃ r w' rest,
    Trim.trim_audio_silence_default Demo.ffmpeg_silent_clip Demo.ffprobe_ok
      Demo.float_of_decimal Samples.str_of_float
      "output/a.mp3" "output/trimmed_a.mp3" true Demo.world0 = (r, w') ∧
    w_log w' = w_log Demo.world0
      ++ cut_trace Demo.ffprobe_ok Samples.str_of_float
           "output/a.mp3" "output/trimmed_a.mp3"
           (Trim.trim_window 3.5 0.5 [0%float] [0.55%float])
      ++ rest.
Proof.
  apply (trim_cuts_to_window Demo.ffmpeg_silent_clip Demo.ffprobe_ok
           Demo.float_of_decimal Samples.str_of_float
           "output/a.mp3" "output/trimmed_a.mp3" 3.5%float
           [0%float] [0.55%float] 0%Z "" Demo.silence_report None Demo.world0).
  - by exists "", "", None.
  - vm_compute. reflexivity.
  - vm_compute. reflexivity.
  - vm_compute. reflexivity.
  - vm_compute. reflexivity.
Defined.

(** The cut of the clip fails: the error of the trimmer names the clip. *)
Lemma trim_errors_name_the_clip_witness :
  let run :=
    Trim.trim_audio_silence_default Samples.ffmpeg_cut_fails Demo.ffprobe_ok
      Demo.float_of_decimal Samples.str_of_float
      "output/a.mp3" "output/trimmed_a.mp3" true Demo.world0 in
  ∃ e,
    fst run = Raise e ∧
    exn_kind e = RuntimeError ∧
    PyStr.contains "output/a.mp3" (exn_msg e) = true.
Proof.
  intros run.
  assert (∃ e, run = (Raise e, snd run)) as [e He]
    by (eexists; vm_compute; reflexivity).
  exists e. split; [by rewrite He|].
  apply (trim_errors_name_the_clip Samples.ffmpeg_cut_fails Demo.ffprobe_ok
           Demo.float_of_decimal Samples.str_of_float
           "output/a.mp3" "output/trimmed_a.mp3" e Demo.world0 (snd run)).
  - by exists "", "", None.
  - exact He.
Defined.

(** The file list of two trimmed clips names the two clips. *)
Lemma file_list_round_trip_witness :
  Concat.listed_paths (Concat.file_list_content Samples.trimmed_clips)
  = (fun f => PyStr.path_join module_output_dir (PyStr.basename f))
    <$> Samples.trimmed_clips.
Proof.
  apply (file_list_round_trip Samples.trimmed_clips).
  repeat constructor.
Defined.

(** The two trimmed clips are gone after the file list and the merge. *)
Lemma merge_removes_the_clips_witness :
  let file_list_path :=
    PyStr.path_join module_output_dir ("file_list_" +:+ "f11e" +:+ ".txt") in
  ∃ w1 r w2,
    Concat._create_ffmpeg_file_list "f11e" Samples.trimmed_clips
      (Z.of_nat (length Samples.trimmed_clips)) Samples.world_with_trimmed_clips
    = (Ok file_list_path, w1) ∧
    Concat.merge_audio_files Demo.ffmpeg_ok "0a1b" 1700000000 file_list_path w1
    = (r, w2) ∧
    w_files w2 !! file_list_path = None ∧
    ∀ f, f ∈ Samples.trimmed_clips → w_files w2 !! f = None.
Proof.
  apply (merge_removes_the_clips Demo.ffmpeg_ok "f11e" "0a1b" 1700000000%Z
           Samples.trimmed_clips "" "" Samples.world_with_trimmed_clips).
  - discriminate.
  - repeat constructor.
  - reflexivity.
  - vm_compute. discriminate.
  - vm_compute. discriminate.
Defined.

(** The first speaker of a roster without owners has no adapter. *)
Lemma task_without_adapter_witness :
  Synthesis.generate_audio_for_item Demo.sanitize_plain Samples.first_line
    Samples.ownerless_configuration (Demo.adapters Demo.adapter_ok) 3
    Demo.world0
  = (Raise (Exn KeyError "None"), Demo.world0).
Proof.
  apply (task_without_adapter Demo.sanitize_plain Samples.first_line
           Samples.ownerless_configuration (Demo.adapters Demo.adapter_ok)
           3%Z 0%Z
           {| pu_code := Some "zh-CN-XiaoxiaoNeural"; pu_owner := None;
              pu_role := Some "host" |} Demo.world0); reflexivity.
Defined.

(** With no attempt allowed, the task of the first line returns nothing. *)
Lemma task_without_attempts_witness :
  Synthesis.generate_audio_for_item Demo.sanitize_plain Samples.first_line
    (Demo.configuration (Some 0%Z)) (Demo.adapters Demo.adapter_ok) 0
    Demo.world0
  = (Ok None, Demo.world0).
Proof.
  apply (task_without_attempts Demo.sanitize_plain Samples.first_line
           (Demo.configuration (Some 0%Z)) (Demo.adapters Demo.adapter_ok)
           0%Z 0%Z
           {| pu_code := Some "zh-CN-XiaoxiaoNeural"; pu_owner := Some "edge-tts";
              pu_role := Some "host" |} "edge-tts" Demo.adapter_ok Demo.world0);
    first [reflexivity|lia].
Defined.

(** The first line is asked of the adapter of its speaker, with the volume
    adjustment of the voice. *)
Lemma task_first_request_witness :
  let rq :=
    {| rq_text := "Hello"; rq_voice_code := "zh-CN-XiaoxiaoNeural";
       rq_volume_adjustment := 0.5%float; rq_speed_adjustment := 0%float |} in
  Synthesis.generate_audio_for_item Demo.sanitize_plain Samples.first_line
    (Demo.configuration None) (Demo.adapters Demo.adapter_ok) 3 Demo.world0
  = (Ok (Some "output/zh-CN-XiaoxiaoNeural_Hello.mp3"),
     {| w_files := w_files Demo.world0;
        w_log := w_log Demo.world0 ++ [EvSynthesize "edge-tts" rq] |}).
Proof.
  apply (task_first_request Demo.sanitize_plain Samples.first_line
           (Demo.configuration None) (Demo.adapters Demo.adapter_ok) 3%Z 0%Z
           {| pu_code := Some "zh-CN-XiaoxiaoNeural"; pu_owner := Some "edge-tts";
              pu_role := Some "host" |}
           "zh-CN-XiaoxiaoNeural" "edge-tts"
           "output/zh-CN-XiaoxiaoNeural_Hello.mp3" Demo.adapter_ok Demo.world0);
    first [reflexivity|discriminate|lia].
Defined.

(** The adapters of the default provider, and the second speaker of a
    roster without owners, whose owner is the empty string. *)
Lemma ownerless_speaker_has_no_adapter_witness :
  Synthesis.generate_audio_for_item Demo.sanitize_plain
    {| speaker_id := Some 1%Z; dialog := "Hi there" |}
    Samples.ownerless_configuration (Demo.adapters Demo.adapter_ok) 3
    Demo.world0
  = (Raise (Exn KeyError ""), Demo.world0).
Proof.
  apply (ownerless_speaker_has_no_adapter (Demo.make_adapter Demo.adapter_ok)
           Demo.sanitize_plain Samples.ownerless_configuration
           {| speaker_id := Some 1%Z; dialog := "Hi there" |}
           Samples.ownerless_configuration (Demo.adapters Demo.adapter_ok)
           3%Z 1%Z
           {| pu_code := Some "zh-CN-YunxiNeural"; pu_owner := Some "";
              pu_role := None |} Demo.world0);
    first [reflexivity|vm_compute; reflexivity].
Defined.

(** The owner of the roster of two speakers has its adapter. *)
Lemma owners_have_adapters_witness :
  is_Some (Demo.adapters Demo.adapter_ok !! "edge-tts").
Proof.
  apply (owners_have_adapters Demo.load_json_config
           (Demo.make_adapter Demo.adapter_ok) "../config/edge-tts.json"
           Demo.roster
           (set_tts_provider "edge-tts" (Demo.configuration None))
           (Demo.adapters Demo.adapter_ok)
           {| pu_code := Some "zh-CN-XiaoxiaoNeural"; pu_owner := Some "edge-tts";
              pu_role := Some "host" |} "edge-tts").
  - vm_compute. reflexivity.
  - vm_compute. reflexivity.
  - left.
  - reflexivity.
  - discriminate.
  - reflexivity.
  - reflexivity.
Defined.

(** A run of the API in a world without files. *)
Lemma api_needs_the_input_file_witness :
  Pipeline.generate_podcast_audio_api Demo.load_json_config Demo.getenv
    Demo.generate_overview (Demo.chat_with Demo.two_lines_text)
    Demo.raw_decode (Demo.make_adapter Demo.adapter_ok) Demo.sanitize_plain
    Demo.ffmpeg_ok Demo.ffprobe_ok Demo.float_of_decimal Demo.str_of_float
    "f11e" "0a1b" 1700000000 Demo.arguments_one_thread
    "../config/edge-tts.json" "A text about AI." Demo.roster Demo.in_order
    Demo.world0
  = (Raise (Exn FileNotFoundError "Error: File not found at input.txt"),
     Demo.world0).
Proof.
  apply (api_needs_the_input_file Demo.load_json_config Demo.getenv
           Demo.generate_overview (Demo.chat_with Demo.two_lines_text)
           Demo.raw_decode (Demo.make_adapter Demo.adapter_ok)
           Demo.sanitize_plain Demo.ffmpeg_ok Demo.ffprobe_ok
           Demo.float_of_decimal Demo.str_of_float "f11e" "0a1b" 1700000000%Z
           Demo.arguments_one_thread "../config/edge-tts.json"
           "A text about AI." Demo.roster Demo.in_order
           (Demo.configuration None) Demo.world0); reflexivity.
Defined.

(** The script that comes with the third request was accepted. *)
Lemma returned_script_passed_the_gate_witness :
  ∃ k text valid_json_str,
    (k < 3)%nat ∧
    Demo.chat_flaky k = Ok text ∧
    Script.extract_script Demo.raw_decode text
      = Some (Demo.script_value, valid_json_str) ∧
    Script._is_content_quality_acceptable Demo.raw_decode valid_json_str "" ""
      "script" = Ok true.
Proof.
  apply (returned_script_passed_the_gate Demo.raw_decode Demo.chat_flaky
           Demo.world0
           (snd (Script._generate_podcast_script Demo.raw_decode Demo.chat_flaky
                   Demo.world0))
           Demo.script_value).
  vm_compute. reflexivity.
Defined.

(** A template with the placeholder of the output language. *)
Lemma output_language_placeholder_witness :
  ∃ speaker_id_info,
    Pipeline._prepare_podcast_prompts (Demo.configuration None)
      ("Answer in " +:+ "{{outlang}}" +:+ ".") "" None (Some "English")
    = Ok (speaker_id_info +:+ Concat.newline +:+ Concat.newline
          +:+ "" +:+ Concat.newline +:+ Concat.newline
          +:+ "Answer in " +:+ "English" +:+ ".").
Proof.
  eexists.
  apply (output_language_placeholder (Demo.configuration None)
           "Answer in " "." "" _ None (Some "English")); reflexivity.
Defined.

Lemma provider_from_file_name_witness :
  ∃ config_data',
    Cli._load_configuration
      (Ok ("../config/edge-tts.json", Samples.ownerless_configuration))
    = Ok config_data' ∧
    cfg_tts_provider config_data' = Some "edge-tts" ∧
    cfg_podUsers config_data' = cfg_podUsers Samples.ownerless_configuration.
Proof.
  exact (provider_from_file_name "../config" "edge-tts" "json"
           Samples.ownerless_configuration ltac:(done)
           eq_refl eq_refl eq_refl eq_refl).
Defined.

(** A run of the overview loop: the first request fails, the second
    response has one line only, the third is accepted; the loop sleeps
    once, after the request that failed. *)
Lemma overview_after_two_rounds :
  ∃ w',
    Overview._generate_overview_content Demo.raw_decode Samples.chat_overview
      Demo.world0
    = (Ok (Some ("An overview of the episode, long enough to pass.",
                 "The Episode", "#ai #podcast")), w') ∧
    w_log w' = [EvChat; EvSleep 1; EvChat; EvChat].
Proof. eexists. split; [vm_compute; reflexivity | reflexivity]. Qed.

(** White space and lengths go by characters: an overview of 15 Chinese
    characters is too short for the gate, although it has 45 bytes. *)
Lemma short_chinese_overview_is_rejected :
  String.length Samples.short_chinese_overview = 45%nat ∧
  PyStr.len Samples.short_chinese_overview = 15%nat ∧
  Script._is_content_quality_acceptable Demo.raw_decode
    Samples.short_chinese_overview "标题" "#标签" "overview" = Ok false.
Proof. repeat split; vm_compute; reflexivity. Qed.

(** A dialog of one ideographic space is blank for the gate. *)
Lemma blank_dialog_is_rejected :
  Script._is_content_quality_acceptable Demo.raw_decode
    Samples.blank_dialog_text "" "" "script" = Ok false.
Proof. vm_compute. reflexivity. Qed.

(** The white space of Unicode around a custom block and around the text
    behind it is stripped. *)
Lemma custom_block_unicode_spaces :
  Pipeline._extract_custom_content
    ("```custom-begin" +:+ Samples.ideographic_space +:+ "风格"
     +:+ Samples.ideographic_space +:+ "```custom-end"
     +:+ Samples.no_break_space +:+ "正文")
  = ("风格", "正文").
Proof. vm_compute. reflexivity. Qed.

(** A provider name with a no-break space behind it is registered under
    the name without the space. *)
Lemma padded_provider_is_registered_stripped :
  ∃ tts_adapter,
    Pipeline._initialize_tts_adapter (Demo.make_adapter Demo.adapter_ok)
      (set_tts_provider ("edge-tts" +:+ Samples.no_break_space)
         (Demo.configuration None))
    = Ok tts_adapter ∧
    is_Some (tts_adapter !! "edge-tts") ∧
    tts_adapter !! ("edge-tts" +:+ Samples.no_break_space) = None.
Proof.
  eexists. split; [vm_compute; reflexivity|]. split; [by eexists|].
  vm_compute. reflexivity.
Qed.
